(** * Pacemaker DCM: the parameter frame codec and the serial session

    A shallow embedding of [dcm_app/models/settings.py], of
    [validate_settings] of [dcm_app/services/validation_service.py] and of
    the frame codec, the raw write primitive and [send_parameters] of
    [dcm_app/services/comms_service.py], with the properties of the
    15-byte parameter frame proved over it.

    Conventions of the embedding:
    - a Python [int] is a [Z]; a Python [float] is an IEEE-754 binary64
      value, [spec_float] at precision 53 and maximal exponent 1024, with
      the operations of [SpecFloat] (round to nearest, ties to even);
    - a Python [str] is a [string]; a [bytes] object is a [list byte];
    - a [dict] literal is an association list in insertion order;
    - a raised exception is the [Raise] case of [result];
    - the fields of the dataclass carry the types of their annotations. *)

From Stdlib Require Import ZArith NArith List String Ascii Bool Lia.
From Stdlib Require Import Strings.Byte Strings.HexString.
From Stdlib Require Import Floats.SpecFloat.
Import ListNotations.

Local Open Scope string_scope.
Local Open Scope Z_scope.

(* ====================================================================== *)
(** ** Exceptions and results *)
(* ====================================================================== *)

(** The exception classes the modelled code can raise, with their text. *)
Inductive exn : Type :=
| ValueError (msg : string)
| OverflowError (msg : string)
| RuntimeError (msg : string)
| StructError (msg : string)
| SerialException (msg : string).

Inductive result (A : Type) : Type :=
| Ok (a : A)
| Raise (e : exn).

Arguments Ok {A} a.
Arguments Raise {A} e.

Definition rbind {A B : Type} (r : result A) (k : A -> result B) : result B :=
  match r with
  | Ok a => k a
  | Raise e => Raise e
  end.

Declare Scope result_scope.
Delimit Scope result_scope with result.
Notation "x <- r ;; k" := (rbind r (fun x => k))
  (at level 61, r at next level, right associativity) : result_scope.

(* ====================================================================== *)
(** ** Python floats *)
(* ====================================================================== *)

Module PyFloat.

Definition prec : Z := 53.
Definition emax : Z := 1024.

Definition float : Type := spec_float.

(** [float(n)] for an [int] of magnitude below 2^1024 (here: bytes and
    small literals), correctly rounded. *)
Definition of_int (n : Z) : float := binary_normalize prec emax n 0 false.

Definition mul (x y : float) : float := SFmul prec emax x y.

(** [x / y] for a divisor that is not zero (the code divides by the
    literal [10.0] only; a zero divisor raises in Python). *)
Definition div (x y : float) : float := SFdiv prec emax x y.

(** The literal [10.0]. *)
Definition ten : float := of_int 10.

(** A decimal literal [n / 10^k] with [n] and [10^k] below 2^53: the
    double nearest to it, as the parser produces, is the correctly
    rounded quotient of the two exact integers. *)
Definition decimal (n : Z) (k : nat) : float :=
  div (of_int n) (of_int (10 ^ Z.of_nat k)).

(** [x <= y] and [x == y]: false as soon as one side is a NaN. *)
Definition leb (x y : float) : bool := SFleb x y.
Definition eqb (x y : float) : bool := SFeqb x y.

Definition is_finite (x : float) : bool :=
  match x with
  | S754_zero _ | S754_finite _ _ _ => true
  | S754_infinity _ | S754_nan => false
  end.

(** [m / 2^k] rounded to the nearest integer, ties to the even one. *)
Definition round_half_even_shift (m : Z) (k : Z) : Z :=
  let d := 2 ^ k in
  let q := m / d in
  let r := m mod d in
  match Z.compare (2 * r) d with
  | Lt => q
  | Gt => q + 1
  | Eq => if Z.even q then q else q + 1
  end.

(** [round(x)] with one argument, i.e. [float.__round__()]: the nearest
    [int], ties to even; [ValueError] on a NaN and [OverflowError] on an
    infinity. *)
Definition round (x : float) : result Z :=
  match x with
  | S754_zero _ => Ok 0
  | S754_finite s m e =>
      let a := match e with
               | Zneg p => round_half_even_shift (Zpos m) (Zpos p)
               | _ => Zpos m * 2 ^ e
               end in
      Ok (if s then - a else a)
  | S754_infinity _ =>
      Raise (OverflowError "cannot convert float infinity to integer")
  | S754_nan =>
      Raise (ValueError "cannot convert float NaN to integer")
  end.

End PyFloat.

Abbreviation float := PyFloat.float.

(** [int(n)] and [round(n)] on an [int] return it unchanged. *)
Definition int_of_int (n : Z) : Z := n.
Definition round_int (n : Z) : Z := n.

(* ====================================================================== *)
(** ** models/settings.py *)
(* ====================================================================== *)

Record PacemakerSettings : Type := mkSettings {
  owner_username : string;
  mode : string;
  (* Basic bradycardia parameters *)
  lower_rate_limit : Z;
  upper_rate_limit : Z;
  maximum_sensor_rate : Z;
  (* Pulse characteristics *)
  atrial_amplitude : float;
  atrial_pulse_width : float;
  ventricular_amplitude : float;
  ventricular_pulse_width : float;
  (* Sensitivity *)
  atrial_sensitivity : float;
  ventricular_sensitivity : float;
  (* Refractory periods *)
  ventricular_refractory_period : Z;
  atrial_refractory_period : Z;
  pvarp : Z;
  (* AV timing *)
  fixed_av_delay : Z;
  dynamic_av_delay_on : bool;
  min_dynamic_av_delay : Z;
  sensed_av_delay_offset : Z;
  (* PVARP extension *)
  pvarp_extension : Z;
  (* Hysteresis / rate smoothing *)
  hysteresis_rate_limit : Z;
  rate_smoothing_percent : Z;
  (* ATR *)
  atr_mode_on : bool;
  atr_duration : Z;
  atr_fallback_time : Z;
  (* Ventricular blanking *)
  ventricular_blanking : Z;
  (* Rate response *)
  activity_threshold : string;
  reaction_time : Z;
  response_factor : Z;
  recovery_time : Z
}.

(** [PacemakerSettings.default]: the dataclass defaults. *)
Definition default (owner : string) (m : string) : PacemakerSettings :=
  {| owner_username := owner;
     mode := m;
     lower_rate_limit := 60;
     upper_rate_limit := 120;
     maximum_sensor_rate := 120;
     atrial_amplitude := PyFloat.decimal 35 1;
     atrial_pulse_width := PyFloat.decimal 4 1;
     ventricular_amplitude := PyFloat.decimal 35 1;
     ventricular_pulse_width := PyFloat.decimal 4 1;
     atrial_sensitivity := PyFloat.decimal 75 2;
     ventricular_sensitivity := PyFloat.decimal 25 1;
     ventricular_refractory_period := 320;
     atrial_refractory_period := 250;
     pvarp := 250;
     fixed_av_delay := 150;
     dynamic_av_delay_on := false;
     min_dynamic_av_delay := 50;
     sensed_av_delay_offset := 0;
     pvarp_extension := 0;
     hysteresis_rate_limit := 0;
     rate_smoothing_percent := 0;
     atr_mode_on := false;
     atr_duration := 20;
     atr_fallback_time := 1;
     ventricular_blanking := 40;
     activity_threshold := "Med";
     reaction_time := 30;
     response_factor := 8;
     recovery_time := 5 |}.

(* ====================================================================== *)
(** ** Dictionaries *)
(* ====================================================================== *)

Section Dict.
Context {K V : Type}.
Variable keq : K -> K -> bool.

Definition dict : Type := list (K * V).

(** [d.get(k, dflt)] *)
Fixpoint dict_get (d : dict) (k : K) (dflt : V) : V :=
  match d with
  | [] => dflt
  | (k', v) :: d' => if keq k' k then v else dict_get d' k dflt
  end.

(** [d[k] = v]: overwrite in place, or append a new key. *)
Fixpoint dict_set (d : dict) (k : K) (v : V) : dict :=
  match d with
  | [] => [(k, v)]
  | (k', v') :: d' =>
      if keq k' k then (k', v) :: d' else (k', v') :: dict_set d' k v
  end.
End Dict.

(** [{v: k for k, v in d.items()}] *)
Definition dict_invert {K V : Type} (veq : V -> V -> bool)
    (d : list (K * V)) : list (V * K) :=
  fold_left (fun acc kv => dict_set veq acc (snd kv) (fst kv)) d [].

(* ====================================================================== *)
(** ** services/comms_service.py: constants and tables *)
(* ====================================================================== *)

Definition PACKET_LEN : nat := 15.
Definition SYNC_BYTE : Z := 9.

Definition ACTIVITY_THRESH_MAP : list (string * Z) :=
  [ ("V-Low", 0); ("Low", 1); ("Med-Low", 2); ("Med", 3);
    ("Med-High", 4); ("High", 5); ("V-High", 6) ].

Definition ACTIVITY_THRESH_MAP_INV : list (Z * string) :=
  dict_invert Z.eqb ACTIVITY_THRESH_MAP.

Definition FIELD_ORDER : list string :=
  [ "mode"; "lower_rate_limit"; "upper_rate_limit"; "atrial_amplitude";
    "atrial_pulse_width"; "ventricular_amplitude";
    "ventricular_pulse_width"; "atrial_refractory_period";
    "ventricular_refractory_period"; "recovery_time"; "reaction_time";
    "response_factor"; "activity_threshold"; "maximum_sensor_rate" ].

Definition MODE_MAP : list (string * Z) :=
  [ ("AOO", 1); ("VOO", 2); ("AAI", 3); ("VVI", 4); ("AOOR", 5);
    ("VOOR", 6); ("AAIR", 7); ("VVIR", 8); ("DDD", 9); ("DDDR", 10) ].

Definition MODE_MAP_INV : list (Z * string) :=
  dict_invert Z.eqb MODE_MAP.

(* ====================================================================== *)
(** ** The frame encoder *)
(* ====================================================================== *)

(** The [int] a [bytes] object yields for one of its elements, and the
    list of them for the whole object. *)
Definition byte_int (b : byte) : Z := Z.of_N (Byte.to_N b).

Definition byte_values (frame : list byte) : list Z := map byte_int frame.

(** [max(0, min(255, v))] *)
Definition clamp_byte (v : Z) : Z := Z.max 0 (Z.min 255 v).

(** [struct.pack('B', v)]: one unsigned byte, [struct.error] outside
    0..255. *)
Definition struct_pack_B (v : Z) : result (list byte) :=
  if (0 <=? v) && (v <=? 255) then
    match Byte.of_N (Z.to_N v) with
    | Some b => Ok [b]
    | None => Raise (StructError "ubyte format requires 0 <= number <= 255")
    end
  else Raise (StructError "ubyte format requires 0 <= number <= 255").

(** The packing loop: [packet += struct.pack(format_spec, value)] over
    [zip(format_specifier, values)]; every format is ['B']. *)
Fixpoint pack_loop (pairs : list (string * Z)) (packet : list byte)
    : result (list byte) :=
  match pairs with
  | [] => Ok packet
  | (_, value) :: rest =>
      (b <- struct_pack_B value ;;
       pack_loop rest (packet ++ b))%result
  end.

(** [_encode_settings_to_frame], up to its first [return]; the
    [struct.pack] call after it is never reached. *)
Definition _encode_settings_to_frame (s : PacemakerSettings)
    : result (list byte) :=
  (let mode_code := dict_get String.eqb MODE_MAP (mode s) 0 in
   let lrl := clamp_byte (int_of_int (lower_rate_limit s)) in
   let url := clamp_byte (int_of_int (upper_rate_limit s)) in
   let msr := clamp_byte (int_of_int (maximum_sensor_rate s)) in
   aa_r <- PyFloat.round (PyFloat.mul (atrial_amplitude s) PyFloat.ten) ;;
   let aa := clamp_byte (int_of_int aa_r) in
   va_r <- PyFloat.round (PyFloat.mul (ventricular_amplitude s) PyFloat.ten) ;;
   let va := clamp_byte (int_of_int va_r) in
   apw_r <- PyFloat.round (atrial_pulse_width s) ;;
   let apw := clamp_byte (int_of_int apw_r) in
   vpw_r <- PyFloat.round (ventricular_pulse_width s) ;;
   let vpw := clamp_byte (int_of_int vpw_r) in
   let arp := clamp_byte (int_of_int (round_int (atrial_refractory_period s))) in
   let vrp := clamp_byte (int_of_int (round_int (ventricular_refractory_period s))) in
   let recovery := clamp_byte (int_of_int (round_int (recovery_time s))) in
   let reaction := clamp_byte (int_of_int (round_int (reaction_time s))) in
   let resp_factor := clamp_byte (int_of_int (round_int (response_factor s))) in
   let act_code := dict_get String.eqb ACTIVITY_THRESH_MAP (activity_threshold s) 3 in
   let act_code := clamp_byte (int_of_int act_code) in
   let format_specifier := repeat "B" PACKET_LEN in
   let packet := [] in
   let values :=
     [ Z.land SYNC_BYTE 255;
       Z.land mode_code 255;
       Z.land lrl 255;
       Z.land url 255;
       Z.land aa 255;
       Z.land apw 255;
       Z.land va 255;
       Z.land vpw 255;
       Z.land arp 255;
       Z.land vrp 255;
       Z.land recovery 255;
       Z.land reaction 255;
       Z.land resp_factor 255;
       Z.land act_code 255;
       Z.land msr 255 ] in
   pack_loop (combine format_specifier values) packet)%result.


(* ====================================================================== *)
(** ** The service object, its log and the serial driver *)
(* ====================================================================== *)

(** A value shown in a field dump ([f"{k}={v}"]). *)
Inductive pyval : Type :=
| VStr (s : string)
| VInt (n : Z)
| VFloat (x : float).

(** One append to [uart_log.txt], without the timestamp in front of it:
    [_log_frame(direction, data)], [_log_text(line)], or a [_log_text] of
    a field dump, kept as the prefix and the [debug_fields] dictionary
    instead of the formatted line. *)
Inductive log_entry : Type :=
| LogFrame (direction : string) (data : list byte)
| LogText (line : string)
| LogFields (prefix : string) (fields : list (string * pyval)).

(** The [serial.Serial] object the service holds. *)
Record Serial : Type := mkSerial { is_open : bool }.

(** A call into the driver, and how the driver answers it: normally or
    with an exception of the given text. *)
Inductive io_call : Type :=
| SerWrite (payload : list byte)
| SerFlush.

Inductive io_outcome : Type :=
| IoOk
| IoRaises (msg : string).

(** The attributes of [CommsService] the modelled methods use, with the
    lines handed to the log file and the driver calls made so far (both
    oldest first). *)
Record CommsService : Type := mkService {
  _ser : option Serial;
  _port : option string;
  _is_connected : bool;
  _last_sent_settings : option PacemakerSettings;
  uart_log : list log_entry;
  serial_io : list io_call
}.

Definition with_last_sent (v : option PacemakerSettings) (st : CommsService)
    : CommsService :=
  {| _ser := _ser st; _port := _port st; _is_connected := _is_connected st;
     _last_sent_settings := v;
     uart_log := uart_log st; serial_io := serial_io st |}.

Definition with_log (l : list log_entry) (st : CommsService) : CommsService :=
  {| _ser := _ser st; _port := _port st; _is_connected := _is_connected st;
     _last_sent_settings := _last_sent_settings st;
     uart_log := l; serial_io := serial_io st |}.

Definition with_io (l : list io_call) (st : CommsService) : CommsService :=
  {| _ser := _ser st; _port := _port st; _is_connected := _is_connected st;
     _last_sent_settings := _last_sent_settings st;
     uart_log := uart_log st; serial_io := l |}.

(** Methods run in a state monad over the service object; an exception
    leaves the state as it was when it was raised. *)
Definition M (A : Type) : Type := CommsService -> result A * CommsService.

Definition ret {A : Type} (a : A) : M A := fun st => (Ok a, st).

Definition raise {A : Type} (e : exn) : M A := fun st => (Raise e, st).

Definition lift {A : Type} (r : result A) : M A := fun st => (r, st).

Definition bind {A B : Type} (m : M A) (k : A -> M B) : M B :=
  fun st =>
    match m st with
    | (Ok a, st') => k a st'
    | (Raise e, st') => (Raise e, st')
    end.

(** [try: body / except Exception as e: handler] *)
Definition try_except {A : Type} (body : M A) (handler : exn -> M A) : M A :=
  fun st =>
    match body st with
    | (Ok a, st') => (Ok a, st')
    | (Raise e, st') => handler e st'
    end.

Definition gets {A : Type} (f : CommsService -> A) : M A :=
  fun st => (Ok (f st), st).

Definition modify (f : CommsService -> CommsService) : M unit :=
  fun st => (Ok tt, f st).

Declare Scope session_scope.
Delimit Scope session_scope with session.
Notation "x <- m ;; k" := (bind m (fun x => k))
  (at level 61, m at next level, right associativity) : session_scope.
Notation "m ;; k" := (bind m (fun _ => k))
  (at level 61, right associativity) : session_scope.

(** [str(e)] *)
Definition exn_str (e : exn) : string :=
  match e with
  | ValueError msg | OverflowError msg | RuntimeError msg
  | StructError msg | SerialException msg => msg
  end.

(** [str(self._port)] *)
Definition port_str (p : option string) : string :=
  match p with
  | Some name => name
  | None => "None"
  end.

(** [_log_frame] and [_log_text]: an append to the log file; a failure of
    the file system is swallowed by the source and is outside the model. *)
Definition _log_frame (direction : string) (data : list byte) : M unit :=
  modify (fun st => with_log (uart_log st ++ [LogFrame direction data]) st).

Definition _log_text (line : string) : M unit :=
  modify (fun st => with_log (uart_log st ++ [LogText line]) st).

Definition _log_fields (prefix : string) (fields : list (string * pyval))
    : M unit :=
  modify (fun st => with_log (uart_log st ++ [LogFields prefix fields]) st).

(** The [is_connected] property. *)
Definition is_connected (st : CommsService) : bool :=
  _is_connected st &&
  match _ser st with
  | Some ser => is_open ser
  | None => false
  end.

Definition ser_is_none (st : CommsService) : bool :=
  match _ser st with
  | Some _ => false
  | None => true
  end.

(* ====================================================================== *)
(** ** The frame decoder *)
(* ====================================================================== *)

(** [f"{n:#02x}"] for a non-negative [n] *)
Definition format_hex (n : Z) : string := HexString.of_N (Z.to_N n).

(** [_decode_frame_to_settings(mode, frame)] *)
Definition _decode_frame_to_settings (mode0 : string) (frame : list byte)
    : M PacemakerSettings :=
  (if negb (Nat.eqb (List.length frame) PACKET_LEN) then
     raise (ValueError "Frame must be 15 bytes.")
   else
     match byte_values frame with
     | [b0; b1; b2; b3; b4; b5; b6; b7; b8; b9; b10; b11; b12; b13; b14] =>
         (if negb (b0 =? SYNC_BYTE) then
            _log_text ("[PARAM] Warning: unexpected sync byte "
                       ++ format_hex b0 ++ ", expected "
                       ++ format_hex SYNC_BYTE ++ ".")
          else ret tt) ;;
         let decoded_mode := dict_get Z.eqb MODE_MAP_INV b1 mode0 in
         let lrl := int_of_int b2 in
         let url := int_of_int b3 in
         let aa := PyFloat.div (PyFloat.of_int b4) PyFloat.ten in
         let apw := PyFloat.of_int b5 in
         let va := PyFloat.div (PyFloat.of_int b6) PyFloat.ten in
         let vpw := PyFloat.of_int b7 in
         let arp := int_of_int b8 in
         let vrp := int_of_int b9 in
         let recovery := int_of_int b10 in
         let reaction := int_of_int b11 in
         let resp_factor := int_of_int b12 in
         let act_code := int_of_int b13 in
         let activity := dict_get Z.eqb ACTIVITY_THRESH_MAP_INV act_code "Med" in
         let msr := int_of_int b14 in
         let s := default "device" decoded_mode in
         ret {| owner_username := owner_username s;
                mode := mode s;
                lower_rate_limit := lrl;
                upper_rate_limit := url;
                maximum_sensor_rate := msr;
                atrial_amplitude := aa;
                atrial_pulse_width := apw;
                ventricular_amplitude := va;
                ventricular_pulse_width := vpw;
                atrial_sensitivity := atrial_sensitivity s;
                ventricular_sensitivity := ventricular_sensitivity s;
                ventricular_refractory_period := vrp;
                atrial_refractory_period := arp;
                pvarp := pvarp s;
                fixed_av_delay := fixed_av_delay s;
                dynamic_av_delay_on := dynamic_av_delay_on s;
                min_dynamic_av_delay := min_dynamic_av_delay s;
                sensed_av_delay_offset := sensed_av_delay_offset s;
                pvarp_extension := pvarp_extension s;
                hysteresis_rate_limit := hysteresis_rate_limit s;
                rate_smoothing_percent := rate_smoothing_percent s;
                atr_mode_on := atr_mode_on s;
                atr_duration := atr_duration s;
                atr_fallback_time := atr_fallback_time s;
                ventricular_blanking := ventricular_blanking s;
                activity_threshold := activity;
                reaction_time := reaction;
                response_factor := resp_factor;
                recovery_time := recovery |}
     | _ => raise (ValueError "wrong number of values to unpack")
     end)%session.

(* ====================================================================== *)
(** ** services/validation_service.py *)
(* ====================================================================== *)

(** [if not cond: errors.append(msg)] *)
Definition require (cond : bool) (msg : string) (errors : list string)
    : list string :=
  if negb cond then (errors ++ [msg])%list else errors.

(** [for name, val in pairs: if not (lo <= val <= hi): errors.append(...)]
    on float fields and on integer fields. *)
Definition require_floats (lo hi : float) (suffix : string)
    (pairs : list (string * float)) (errors : list string) : list string :=
  fold_left
    (fun errors nv =>
       require (PyFloat.leb lo (snd nv) && PyFloat.leb (snd nv) hi)
               (fst nv ++ suffix) errors)
    pairs errors.

Definition require_ints (lo hi : Z) (suffix : string)
    (pairs : list (string * Z)) (errors : list string) : list string :=
  fold_left
    (fun errors nv =>
       require ((lo <=? snd nv) && (snd nv <=? hi)) (fst nv ++ suffix) errors)
    pairs errors.

(** [ValidationService.validate_settings] *)
Definition validate_settings (s : PacemakerSettings) : bool * list string :=
  let errors := [] in
  let errors :=
    require ((30 <=? lower_rate_limit s) && (lower_rate_limit s <=? 175))
      "Lower Rate Limit must be between 30 and 175 ppm." errors in
  let errors :=
    require ((lower_rate_limit s <=? upper_rate_limit s)
             && (upper_rate_limit s <=? 175))
      "Upper Rate Limit must be between LRL and 175 ppm." errors in
  let errors :=
    require ((50 <=? maximum_sensor_rate s) && (maximum_sensor_rate s <=? 175))
      "Maximum Sensor Rate must be between 50 and 175 ppm." errors in
  let errors :=
    require_floats (PyFloat.decimal 1 1) (PyFloat.of_int 7)
      " must be between 0.1 and 7.0 V."
      [ ("Atrial Amplitude", atrial_amplitude s);
        ("Ventricular Amplitude", ventricular_amplitude s) ] errors in
  let errors :=
    require_floats (PyFloat.decimal 5 2) (PyFloat.decimal 19 1)
      " must be between 0.05 and 1.9 ms."
      [ ("Atrial Pulse Width", atrial_pulse_width s);
        ("Ventricular Pulse Width", ventricular_pulse_width s) ] errors in
  let errors :=
    require_floats (PyFloat.of_int 0) (PyFloat.of_int 10)
      " must be between 0.0 and 10.0 mV."
      [ ("Atrial Sensitivity", atrial_sensitivity s);
        ("Ventricular Sensitivity", ventricular_sensitivity s) ] errors in
  let errors :=
    require_ints 150 500 " must be between 150 and 500 ms."
      [ ("VRP", ventricular_refractory_period s);
        ("ARP", atrial_refractory_period s);
        ("PVARP", pvarp s) ] errors in
  let errors :=
    require ((70 <=? fixed_av_delay s) && (fixed_av_delay s <=? 300))
      "Fixed AV Delay must be between 70 and 300 ms." errors in
  let errors :=
    require ((30 <=? min_dynamic_av_delay s) && (min_dynamic_av_delay s <=? 100))
      "Min Dynamic AV Delay must be between 30 and 100 ms." errors in
  let errors :=
    require ((-100 <=? sensed_av_delay_offset s)
             && (sensed_av_delay_offset s <=? 0))
      "Sensed AV Delay Offset must be between 0 and -100 ms." errors in
  let errors :=
    require (existsb (String.eqb (activity_threshold s))
               ["V-Low"; "Low"; "Med-Low"; "Med"; "Med-High"; "High"; "V-High"])
      "Activity Threshold must be one of the predefined categories." errors in
  (Nat.eqb (List.length errors) 0, errors).

(* ====================================================================== *)
(** ** Raw write and [send_parameters] *)
(* ====================================================================== *)

Section Session.

(** The driver: how it answers its n-th call (counted from 0). *)
Variable device : nat -> io_outcome.

Definition driver_call (c : io_call) : M unit :=
  fun st =>
    let st' := with_io (serial_io st ++ [c]) st in
    match device (List.length (serial_io st)) with
    | IoOk => (Ok tt, st')
    | IoRaises msg => (Raise (SerialException msg), st')
    end.

(** [write_bytes(payload)] *)
Definition write_bytes (payload : list byte) : M bool :=
  (connected <- gets is_connected ;;
   no_ser <- gets ser_is_none ;;
   if negb connected || no_ser then
     _log_frame "TX-NC" payload ;;
     ret false
   else
     try_except
       (driver_call (SerWrite payload) ;;
        _log_frame "TX" payload ;;
        ret true)
       (fun e =>
          _log_frame "TX-ERR" payload ;;
          port <- gets _port ;;
          _log_text ("[WRITE] Error writing to " ++ port_str port ++ ": "
                     ++ exn_str e) ;;
          ret false))%session.

Definition debug_fields (s : PacemakerSettings) : list (string * pyval) :=
  [ ("mode", VStr (mode s));
    ("LRL", VInt (lower_rate_limit s));
    ("URL", VInt (upper_rate_limit s));
    ("AA", VFloat (atrial_amplitude s));
    ("APW", VFloat (atrial_pulse_width s));
    ("VA", VFloat (ventricular_amplitude s));
    ("VPW", VFloat (ventricular_pulse_width s));
    ("ARP", VInt (atrial_refractory_period s));
    ("VRP", VInt (ventricular_refractory_period s));
    ("Recovery", VInt (recovery_time s));
    ("Reaction", VInt (reaction_time s));
    ("RespFactor", VInt (response_factor s));
    ("ActivityThresh", VStr (activity_threshold s));
    ("MSR", VInt (maximum_sensor_rate s)) ].

(** [send_parameters(settings)]; the [print] of the frame to the console
    is left out. *)
Definition send_parameters (settings : PacemakerSettings) : M unit :=
  (modify (with_last_sent (Some settings)) ;;
   frame <- lift (_encode_settings_to_frame settings) ;;
   _log_frame "PARAM-TX" frame ;;
   _log_fields "    Fields: " (debug_fields settings) ;;
   connected <- gets is_connected ;;
   no_ser <- gets ser_is_none ;;
   if negb connected || no_ser then
     _log_text "[PARAM] send_parameters called with no active serial connection (mock send only)."
   else
     try_except
       (ok <- write_bytes frame ;;
        (if negb ok then raise (RuntimeError "write_bytes returned False.")
         else ret tt) ;;
        no_ser' <- gets ser_is_none ;;
        if negb no_ser' then driver_call SerFlush else ret tt)
       (fun e =>
          let msg := "Error writing parameters to serial port: " ++ exn_str e in
          _log_text ("[PARAM] " ++ msg) ;;
          raise (RuntimeError msg)))%session.

End Session.

(* ====================================================================== *)
(** ** Vocabulary of the statements *)
(* ====================================================================== *)

(** The two code lookups of the encoder. *)
Definition mode_code (s : PacemakerSettings) : Z :=
  dict_get String.eqb MODE_MAP (mode s) 0.

Definition activity_code (s : PacemakerSettings) : Z :=
  dict_get String.eqb ACTIVITY_THRESH_MAP (activity_threshold s) 3.

(** The four float fields after [round]: ten times each amplitude, and the
    pulse widths. *)
Definition rounded_aa (s : PacemakerSettings) : result Z :=
  PyFloat.round (PyFloat.mul (atrial_amplitude s) PyFloat.ten).
Definition rounded_va (s : PacemakerSettings) : result Z :=
  PyFloat.round (PyFloat.mul (ventricular_amplitude s) PyFloat.ten).
Definition rounded_apw (s : PacemakerSettings) : result Z :=
  PyFloat.round (atrial_pulse_width s).
Definition rounded_vpw (s : PacemakerSettings) : result Z :=
  PyFloat.round (ventricular_pulse_width s).

(** The fifteen byte values of the frame of [s], given those four. *)
Definition wire_values (s : PacemakerSettings) (aa va apw vpw : Z) : list Z :=
  [ SYNC_BYTE;
    mode_code s;
    clamp_byte (lower_rate_limit s);
    clamp_byte (upper_rate_limit s);
    clamp_byte aa;
    clamp_byte apw;
    clamp_byte va;
    clamp_byte vpw;
    clamp_byte (atrial_refractory_period s);
    clamp_byte (ventricular_refractory_period s);
    clamp_byte (recovery_time s);
    clamp_byte (reaction_time s);
    clamp_byte (response_factor s);
    activity_code s;
    clamp_byte (maximum_sensor_rate s) ].

(** The float fields the encoder can round: ten times each amplitude is a
    finite double, and so is each pulse width. *)
Definition encodable (s : PacemakerSettings) : bool :=
  PyFloat.is_finite (PyFloat.mul (atrial_amplitude s) PyFloat.ten) &&
  PyFloat.is_finite (PyFloat.mul (ventricular_amplitude s) PyFloat.ten) &&
  PyFloat.is_finite (atrial_pulse_width s) &&
  PyFloat.is_finite (ventricular_pulse_width s).

(** The numeric fields of the wire subset, the offset of each in the
    frame, and what it means for one of them to hold the number [n] (as
    an [int], or as [float(n)] where the field is a float). *)
Inductive numeric_field : Type :=
| F_lower_rate_limit | F_upper_rate_limit
| F_atrial_amplitude | F_atrial_pulse_width
| F_ventricular_amplitude | F_ventricular_pulse_width
| F_atrial_refractory_period | F_ventricular_refractory_period
| F_recovery_time | F_reaction_time | F_response_factor
| F_maximum_sensor_rate.

Definition offset (f : numeric_field) : nat :=
  match f with
  | F_lower_rate_limit => 2
  | F_upper_rate_limit => 3
  | F_atrial_amplitude => 4
  | F_atrial_pulse_width => 5
  | F_ventricular_amplitude => 6
  | F_ventricular_pulse_width => 7
  | F_atrial_refractory_period => 8
  | F_ventricular_refractory_period => 9
  | F_recovery_time => 10
  | F_reaction_time => 11
  | F_response_factor => 12
  | F_maximum_sensor_rate => 14
  end%nat.

Definition holds (f : numeric_field) (s : PacemakerSettings) (n : Z) : Prop :=
  match f with
  | F_lower_rate_limit => lower_rate_limit s = n
  | F_upper_rate_limit => upper_rate_limit s = n
  | F_atrial_amplitude => atrial_amplitude s = PyFloat.of_int n
  | F_atrial_pulse_width => atrial_pulse_width s = PyFloat.of_int n
  | F_ventricular_amplitude => ventricular_amplitude s = PyFloat.of_int n
  | F_ventricular_pulse_width => ventricular_pulse_width s = PyFloat.of_int n
  | F_atrial_refractory_period => atrial_refractory_period s = n
  | F_ventricular_refractory_period => ventricular_refractory_period s = n
  | F_recovery_time => recovery_time s = n
  | F_reaction_time => reaction_time s = n
  | F_response_factor => response_factor s = n
  | F_maximum_sensor_rate => maximum_sensor_rate s = n
  end.

(** Two records with the same wire subset. *)
Definition same_wire_subset (s1 s2 : PacemakerSettings) : Prop :=
  mode s1 = mode s2 /\
  lower_rate_limit s1 = lower_rate_limit s2 /\
  upper_rate_limit s1 = upper_rate_limit s2 /\
  atrial_amplitude s1 = atrial_amplitude s2 /\
  atrial_pulse_width s1 = atrial_pulse_width s2 /\
  ventricular_amplitude s1 = ventricular_amplitude s2 /\
  ventricular_pulse_width s1 = ventricular_pulse_width s2 /\
  atrial_refractory_period s1 = atrial_refractory_period s2 /\
  ventricular_refractory_period s1 = ventricular_refractory_period s2 /\
  recovery_time s1 = recovery_time s2 /\
  reaction_time s1 = reaction_time s2 /\
  response_factor s1 = response_factor s2 /\
  activity_threshold s1 = activity_threshold s2 /\
  maximum_sensor_rate s1 = maximum_sensor_rate s2.

(** The record [PacemakerSettings(owner_username=owner, mode=m, ...)] with
    the given wire subset and the dataclass defaults elsewhere. *)
Definition settings_of_wire (owner m : string) (lrl url : Z)
    (aa apw va vpw : float) (arp vrp recovery reaction resp : Z)
    (activity : string) (msr : Z) : PacemakerSettings :=
  let d := default owner m in
  {| owner_username := owner;
     mode := m;
     lower_rate_limit := lrl;
     upper_rate_limit := url;
     maximum_sensor_rate := msr;
     atrial_amplitude := aa;
     atrial_pulse_width := apw;
     ventricular_amplitude := va;
     ventricular_pulse_width := vpw;
     atrial_sensitivity := atrial_sensitivity d;
     ventricular_sensitivity := ventricular_sensitivity d;
     ventricular_refractory_period := vrp;
     atrial_refractory_period := arp;
     pvarp := pvarp d;
     fixed_av_delay := fixed_av_delay d;
     dynamic_av_delay_on := dynamic_av_delay_on d;
     min_dynamic_av_delay := min_dynamic_av_delay d;
     sensed_av_delay_offset := sensed_av_delay_offset d;
     pvarp_extension := pvarp_extension d;
     hysteresis_rate_limit := hysteresis_rate_limit d;
     rate_smoothing_percent := rate_smoothing_percent d;
     atr_mode_on := atr_mode_on d;
     atr_duration := atr_duration d;
     atr_fallback_time := atr_fallback_time d;
     ventricular_blanking := ventricular_blanking d;
     activity_threshold := activity;
     reaction_time := reaction;
     response_factor := resp;
     recovery_time := recovery |}.

(** The scenario record: mode VVI and the dataclass defaults, which are
    the values the scenario lists. *)
Definition scenario : PacemakerSettings := default "operator" "VVI".

(** The scenario with an infinite atrial amplitude, and with a NaN as
    ventricular pulse width. *)
Definition scenario_infinite_amplitude : PacemakerSettings :=
  settings_of_wire "operator" "VVI" 60 120
    (S754_infinity false) (PyFloat.decimal 4 1)
    (PyFloat.decimal 35 1) (PyFloat.decimal 4 1)
    250 320 5 30 8 "Med" 120.

Definition scenario_nan_pulse_width : PacemakerSettings :=
  settings_of_wire "operator" "VVI" 60 120
    (PyFloat.decimal 35 1) (PyFloat.decimal 4 1)
    (PyFloat.decimal 35 1) S754_nan
    250 320 5 30 8 "Med" 120.

(** Every numeric field at -5, and every numeric field at 1000. *)
Definition all_minus_five : PacemakerSettings :=
  settings_of_wire "operator" "VVI" (-5) (-5)
    (PyFloat.of_int (-5)) (PyFloat.of_int (-5))
    (PyFloat.of_int (-5)) (PyFloat.of_int (-5))
    (-5) (-5) (-5) (-5) (-5) "Med" (-5).

Definition all_thousand : PacemakerSettings :=
  settings_of_wire "operator" "VVI" 1000 1000
    (PyFloat.of_int 1000) (PyFloat.of_int 1000)
    (PyFloat.of_int 1000) (PyFloat.of_int 1000)
    1000 1000 1000 1000 1000 "Med" 1000.

(** The record a frame with the byte values [b1 .. b14] behind its sync
    byte stands for, read with the fallback mode [mode0]. *)
Definition decoded (mode0 : string)
    (b1 b2 b3 b4 b5 b6 b7 b8 b9 b10 b11 b12 b13 b14 : Z) : PacemakerSettings :=
  settings_of_wire "device" (dict_get Z.eqb MODE_MAP_INV b1 mode0)
    b2 b3
    (PyFloat.div (PyFloat.of_int b4) PyFloat.ten) (PyFloat.of_int b5)
    (PyFloat.div (PyFloat.of_int b6) PyFloat.ten) (PyFloat.of_int b7)
    b8 b9 b10 b11 b12
    (dict_get Z.eqb ACTIVITY_THRESH_MAP_INV b13 "Med")
    b14.

(** The line logged for a frame whose first byte [b0] is not the sync
    byte. *)
Definition sync_warning (b0 : Z) : log_entry :=
  LogText ("[PARAM] Warning: unexpected sync byte " ++ format_hex b0
           ++ ", expected " ++ format_hex SYNC_BYTE ++ ".").

(** The state after decoding a frame whose first byte is [b0]. *)
Definition after_decode (b0 : Z) (st : CommsService) : CommsService :=
  if b0 =? SYNC_BYTE then st
  else with_log (uart_log st ++ [sync_warning b0]) st.

(** The scenario's wire subset in a record that differs from [scenario]
    on every field outside it. *)
Definition scenario_other_locals : PacemakerSettings :=
  {| owner_username := "another";
     mode := "VVI";
     lower_rate_limit := 60;
     upper_rate_limit := 120;
     maximum_sensor_rate := 120;
     atrial_amplitude := PyFloat.decimal 35 1;
     atrial_pulse_width := PyFloat.decimal 4 1;
     ventricular_amplitude := PyFloat.decimal 35 1;
     ventricular_pulse_width := PyFloat.decimal 4 1;
     atrial_sensitivity := PyFloat.decimal 5 1;
     ventricular_sensitivity := PyFloat.decimal 10 1;
     ventricular_refractory_period := 320;
     atrial_refractory_period := 250;
     pvarp := 300;
     fixed_av_delay := 200;
     dynamic_av_delay_on := true;
     min_dynamic_av_delay := 60;
     sensed_av_delay_offset := -10;
     pvarp_extension := 50;
     hysteresis_rate_limit := 40;
     rate_smoothing_percent := 3;
     atr_mode_on := true;
     atr_duration := 10;
     atr_fallback_time := 2;
     ventricular_blanking := 30;
     activity_threshold := "Med";
     reaction_time := 30;
     response_factor := 8;
     recovery_time := 5 |}.

(** A record whose mode and activity threshold are in neither table. *)
Definition unknown_strings : PacemakerSettings :=
  settings_of_wire "operator" "XYZ" 60 120
    (PyFloat.decimal 35 1) (PyFloat.decimal 4 1)
    (PyFloat.decimal 35 1) (PyFloat.decimal 4 1)
    250 320 5 30 8 "Extreme" 120.

(** The scenario frame with 99 as mode byte and as threshold byte, and
    its last fourteen bytes alone. *)
Definition frame_rest : list byte :=
  [x04; x3c; x78; x23; x00; x23; x00; xfa; xff; x05; x1e; x08; x03; x78].

Definition frame_unknown_codes : list byte :=
  [x09; x63; x3c; x78; x23; x00; x23; x00; xfa; xff; x05; x1e; x08; x63; x78].

(** A service object that was never connected. *)
Definition fresh_service : CommsService :=
  mkService None None false None [] [].

(** A service object connected to an open port. *)
Definition connected_service : CommsService :=
  mkService (Some (mkSerial true)) (Some "COM3") true None [] [].

(** A driver that answers every call normally, and one whose every call
    raises. *)
Definition device_ok : nat -> io_outcome := fun _ => IoOk.
Definition device_failing : nat -> io_outcome :=
  fun _ => IoRaises "Write timeout".

(** The scenario frame as bytes. *)
Definition scenario_bytes : list byte := x09 :: frame_rest.

(** The ranges of the round trip.  An integer field is in range when it
    is a byte value; an amplitude when it is the double of [k / 10] volts
    for a [k] in 0..255, a non-negative multiple of 0.1 V up to 25.5 V;
    the range of a pulse width is a parameter. *)
Definition byte_range (n : Z) : Prop := 0 <= n <= 255.

Definition tenths_in_range (x : float) : Prop :=
  exists k, 0 <= k <= 255 /\ x = PyFloat.decimal k 1.

Definition wire_in_range (pulse_width_ok : float -> Prop)
    (s : PacemakerSettings) : Prop :=
  In (mode s) (map fst MODE_MAP) /\
  In (activity_threshold s) (map fst ACTIVITY_THRESH_MAP) /\
  byte_range (lower_rate_limit s) /\
  byte_range (upper_rate_limit s) /\
  byte_range (atrial_refractory_period s) /\
  byte_range (ventricular_refractory_period s) /\
  byte_range (recovery_time s) /\
  byte_range (reaction_time s) /\
  byte_range (response_factor s) /\
  byte_range (maximum_sensor_rate s) /\
  tenths_in_range (atrial_amplitude s) /\
  tenths_in_range (ventricular_amplitude s) /\
  pulse_width_ok (atrial_pulse_width s) /\
  pulse_width_ok (ventricular_pulse_width s).

(** A pulse width between 0 and 255 ms, the range of its byte. *)
Definition pulse_width_in_byte_range (x : float) : Prop :=
  PyFloat.leb (PyFloat.of_int 0) x = true /\
  PyFloat.leb x (PyFloat.of_int 255) = true.

(** A pulse width that is a finite double. *)
Definition pulse_width_finite (x : float) : Prop :=
  PyFloat.is_finite x = true.

(** Two amplitudes that agree to one decimal place: the same number of
    tenths of a volt after rounding. *)
Definition same_tenths (x y : float) : Prop :=
  PyFloat.round (PyFloat.mul x PyFloat.ten) =
  PyFloat.round (PyFloat.mul y PyFloat.ten).

(** The scenario with a ventricular refractory period of 250 ms: every
    wire field in range, the pulse widths at their default 0.4 ms. *)
Definition scenario_in_range : PacemakerSettings :=
  settings_of_wire "operator" "VVI" 60 120
    (PyFloat.decimal 35 1) (PyFloat.decimal 4 1)
    (PyFloat.decimal 35 1) (PyFloat.decimal 4 1)
    250 250 5 30 8 "Med" 120.

(** The same with pulse widths of 1 ms and 2 ms. *)
Definition scenario_whole_ms : PacemakerSettings :=
  settings_of_wire "operator" "VVI" 60 120
    (PyFloat.decimal 35 1) (PyFloat.of_int 1)
    (PyFloat.decimal 35 1) (PyFloat.of_int 2)
    250 250 5 30 8 "Med" 120.

(** A check of a boolean property on every byte value. *)
Definition all_bytes (f : Z -> bool) : bool :=
  forallb (fun n => f (Z.of_nat n)) (seq 0 256).

(* ====================================================================== *)
(** ** ui/mode_config_screen.py: the comparison of [_on_verify] *)
(* ====================================================================== *)

(** [getattr(s, field)] for the names of [FIELD_ORDER]; any other name is
    not looked up by the loop. *)
Definition getattr (s : PacemakerSettings) (field : string) : option pyval :=
  if String.eqb field "mode" then Some (VStr (mode s))
  else if String.eqb field "lower_rate_limit" then
    Some (VInt (lower_rate_limit s))
  else if String.eqb field "upper_rate_limit" then
    Some (VInt (upper_rate_limit s))
  else if String.eqb field "atrial_amplitude" then
    Some (VFloat (atrial_amplitude s))
  else if String.eqb field "atrial_pulse_width" then
    Some (VFloat (atrial_pulse_width s))
  else if String.eqb field "ventricular_amplitude" then
    Some (VFloat (ventricular_amplitude s))
  else if String.eqb field "ventricular_pulse_width" then
    Some (VFloat (ventricular_pulse_width s))
  else if String.eqb field "atrial_refractory_period" then
    Some (VInt (atrial_refractory_period s))
  else if String.eqb field "ventricular_refractory_period" then
    Some (VInt (ventricular_refractory_period s))
  else if String.eqb field "recovery_time" then Some (VInt (recovery_time s))
  else if String.eqb field "reaction_time" then Some (VInt (reaction_time s))
  else if String.eqb field "response_factor" then
    Some (VInt (response_factor s))
  else if String.eqb field "activity_threshold" then
    Some (VStr (activity_threshold s))
  else if String.eqb field "maximum_sensor_rate" then
    Some (VInt (maximum_sensor_rate s))
  else None.

(** [a != b]: strings and ints by value, floats as IEEE does (a NaN
    differs from everything), an int against a float through [float(n)],
    a string against a number always. *)
Definition py_ne (a b : pyval) : bool :=
  match a, b with
  | VStr x, VStr y => negb (String.eqb x y)
  | VInt x, VInt y => negb (x =? y)
  | VFloat x, VFloat y => negb (PyFloat.eqb x y)
  | VInt x, VFloat y => negb (PyFloat.eqb (PyFloat.of_int x) y)
  | VFloat x, VInt y => negb (PyFloat.eqb x (PyFloat.of_int y))
  | _, _ => true
  end.

(** The loop of [_on_verify] over [FIELD_ORDER]: the fields on which the
    local record and the record read from the device differ, each with
    its two values (the source formats them into one line). *)
Definition differing_fields (local device_settings : PacemakerSettings)
    : list (string * pyval * pyval) :=
  fold_left
    (fun differing field =>
       match getattr local field, getattr device_settings field with
       | Some l, Some d =>
           if py_ne l d then (differing ++ [(field, l, d)])%list
           else differing
       | _, _ => differing
       end)
    FIELD_ORDER [].

(** The names among them. *)
Definition differing_names (local device_settings : PacemakerSettings)
    : list string :=
  map (fun x => fst (fst x)) (differing_fields local device_settings).

(** The frame-to-record-to-frame trip: decode a frame, encode the
    record. *)
Definition reencode (mode0 : string) (frame : list byte) (st : CommsService)
    : result (list byte) :=
  match fst (_decode_frame_to_settings mode0 frame st) with
  | Ok s => _encode_settings_to_frame s
  | Raise e => Raise e
  end.

(** A float between two bounds, as the chained comparison
    [lo <= x <= hi] decides it. *)
Definition float_between (lo hi x : float) : Prop :=
  PyFloat.leb lo x = true /\ PyFloat.leb x hi = true.

(** A float that is a double in its one IEEE representation. *)
Definition valid_double (x : float) : Prop :=
  valid_binary PyFloat.prec PyFloat.emax x = true.

(** The sixteen bounds [validate_settings] checks. *)
Definition within_bounds (s : PacemakerSettings) : Prop :=
  30 <= lower_rate_limit s <= 175 /\
  lower_rate_limit s <= upper_rate_limit s <= 175 /\
  50 <= maximum_sensor_rate s <= 175 /\
  float_between (PyFloat.decimal 1 1) (PyFloat.of_int 7) (atrial_amplitude s) /\
  float_between (PyFloat.decimal 1 1) (PyFloat.of_int 7)
    (ventricular_amplitude s) /\
  float_between (PyFloat.decimal 5 2) (PyFloat.decimal 19 1)
    (atrial_pulse_width s) /\
  float_between (PyFloat.decimal 5 2) (PyFloat.decimal 19 1)
    (ventricular_pulse_width s) /\
  float_between (PyFloat.of_int 0) (PyFloat.of_int 10) (atrial_sensitivity s) /\
  float_between (PyFloat.of_int 0) (PyFloat.of_int 10)
    (ventricular_sensitivity s) /\
  150 <= ventricular_refractory_period s <= 500 /\
  150 <= atrial_refractory_period s <= 500 /\
  150 <= pvarp s <= 500 /\
  70 <= fixed_av_delay s <= 300 /\
  30 <= min_dynamic_av_delay s <= 100 /\
  -100 <= sensed_av_delay_offset s <= 0 /\
  In (activity_threshold s) (map fst ACTIVITY_THRESH_MAP).

(* ====================================================================== *)
(** ** Formatting *)
(* ====================================================================== *)

(** [str(n)] for an [int]. *)
Fixpoint decimal_digits (fuel : nat) (n : N) (acc : string) : string :=
  match fuel with
  | O => acc
  | S fuel' =>
      let acc' := String (ascii_of_N (48 + n mod 10)) acc in
      if (n / 10 =? 0)%N then acc' else decimal_digits fuel' (n / 10) acc'
  end.

Definition str_N (n : N) : string :=
  decimal_digits (S (N.to_nat (N.log2 n))) n "".

Definition str_int (n : Z) : string :=
  if n <? 0 then "-" ++ str_N (Z.abs_N n) else str_N (Z.to_N n).

(** [data.hex(' ')]: two lower-case hex digits per byte, separated by
    blanks. *)
Definition hex_digit (n : N) : ascii :=
  if (n <? 10)%N then ascii_of_N (48 + n) else ascii_of_N (87 + n).

Definition hex_byte (b : byte) : string :=
  let n := Byte.to_N b in
  String (hex_digit (n / 16)) (String (hex_digit (n mod 16)) "").

Fixpoint hex_bytes (data : list byte) : string :=
  match data with
  | [] => ""
  | [b] => hex_byte b
  | b :: rest => hex_byte b ++ " " ++ hex_bytes rest
  end.

(** [a == b] on two [bytes] objects. *)
Fixpoint bytes_eqb (a b : list byte) : bool :=
  match a, b with
  | [], [] => true
  | x :: a', y :: b' => Byte.eqb x y && bytes_eqb a' b'
  | _, _ => false
  end.

(* ====================================================================== *)
(** ** The port behind the service *)
(* ====================================================================== *)

(** The calls of [connect], [disconnect], [test_connection],
    [read_bytes] and the loopback test into pyserial, and the reply to
    one: the bytes returned (empty where the call returns nothing that is
    looked at) or an exception with its text.  The calls of
    [write_bytes] and [send_parameters] stay in [serial_io] of the
    service. *)
Inductive port_call : Type :=
| PortOpen (port : string) (baudrate : Z)
| PortClose
| PortResetInput
| PortResetOutput
| PortInWaiting
| PortWrite (payload : list byte)
| PortFlush
| PortRead (size : Z).

Inductive port_reply : Type :=
| Returns (data : list byte)
| Fails (msg : string).

(** The reader thread object, as far as the caller looks at it. *)
Record Thread : Type := mkThread { is_alive : bool }.

(** The service object with the attributes the methods below use in
    addition, the port calls made so far and the number of readings of
    the clock taken so far. *)
Record Transport : Type := mkTransport {
  service : CommsService;
  _baudrate : Z;
  _egram_running : bool;
  _egram_thread : option Thread;
  port_io : list port_call;
  clock_reads : nat
}.

Definition with_service (svc : CommsService) (t : Transport) : Transport :=
  {| service := svc; _baudrate := _baudrate t;
     _egram_running := _egram_running t; _egram_thread := _egram_thread t;
     port_io := port_io t; clock_reads := clock_reads t |}.

Definition with_baudrate (br : Z) (t : Transport) : Transport :=
  {| service := service t; _baudrate := br;
     _egram_running := _egram_running t; _egram_thread := _egram_thread t;
     port_io := port_io t; clock_reads := clock_reads t |}.

Definition with_egram (running : bool) (thread : option Thread)
    (t : Transport) : Transport :=
  {| service := service t; _baudrate := _baudrate t;
     _egram_running := running; _egram_thread := thread;
     port_io := port_io t; clock_reads := clock_reads t |}.

Definition with_port_io (l : list port_call) (t : Transport) : Transport :=
  {| service := service t; _baudrate := _baudrate t;
     _egram_running := _egram_running t; _egram_thread := _egram_thread t;
     port_io := l; clock_reads := clock_reads t |}.

Definition with_clock_reads (n : nat) (t : Transport) : Transport :=
  {| service := service t; _baudrate := _baudrate t;
     _egram_running := _egram_running t; _egram_thread := _egram_thread t;
     port_io := port_io t; clock_reads := n |}.

(** [self._ser, self._port, self._is_connected = ser, port, flag] *)
Definition with_connection (ser : option Serial) (port : option string)
    (flag : bool) (st : CommsService) : CommsService :=
  {| _ser := ser; _port := port; _is_connected := flag;
     _last_sent_settings := _last_sent_settings st;
     uart_log := uart_log st; serial_io := serial_io st |}.

(** The same monad over the larger state. *)
Definition T (A : Type) : Type := Transport -> result A * Transport.

Definition tret {A : Type} (a : A) : T A := fun t => (Ok a, t).

Definition traise {A : Type} (e : exn) : T A := fun t => (Raise e, t).

Definition tbind {A B : Type} (m : T A) (k : A -> T B) : T B :=
  fun t =>
    match m t with
    | (Ok a, t') => k a t'
    | (Raise e, t') => (Raise e, t')
    end.

Definition ttry {A : Type} (body : T A) (handler : exn -> T A) : T A :=
  fun t =>
    match body t with
    | (Ok a, t') => (Ok a, t')
    | (Raise e, t') => handler e t'
    end.

Definition tgets {A : Type} (f : Transport -> A) : T A :=
  fun t => (Ok (f t), t).

Definition tmodify (f : Transport -> Transport) : T unit :=
  fun t => (Ok tt, f t).

(** A method of the smaller state run on the service inside. *)
Definition on_service {A : Type} (m : M A) : T A :=
  fun t =>
    let (r, svc) := m (service t) in (r, with_service svc t).

Declare Scope transport_scope.
Delimit Scope transport_scope with transport.
Notation "x <- m ;; k" := (tbind m (fun x => k))
  (at level 61, m at next level, right associativity) : transport_scope.
Notation "m ;; k" := (tbind m (fun _ => k))
  (at level 61, right associativity) : transport_scope.

(** [not self.is_connected or self._ser is None] *)
Definition no_connection (t : Transport) : bool :=
  negb (is_connected (service t)) || ser_is_none (service t).

Definition log_text (line : string) : T unit := on_service (_log_text line).

Definition log_frame (direction : string) (data : list byte) : T unit :=
  on_service (_log_frame direction data).

(** [time.sleep(secs)]: refuses a negative number and a NaN; an infinity
    does not fit the clock. *)
Definition sleep (secs : float) : T unit :=
  match secs with
  | S754_nan => traise (ValueError "Invalid value NaN (not a number)")
  | S754_infinity false =>
      traise (OverflowError "timestamp too large to convert to C PyTime_t")
  | S754_infinity true | S754_finite true _ _ =>
      traise (ValueError "sleep length must be non-negative")
  | _ => tret tt
  end.

Section Port.

(** The port: how pyserial answers its n-th call (counted from 0); and
    the clock: what the n-th reading of [time.time()] is. *)
Variable port : nat -> port_reply.
Variable clock : nat -> float.

Definition port_do (c : port_call) : T (list byte) :=
  fun t =>
    let t' := with_port_io (port_io t ++ [c]) t in
    match port (List.length (port_io t)) with
    | Returns data => (Ok data, t')
    | Fails msg => (Raise (SerialException msg), t')
    end.

(** [time.time()] *)
Definition time_time : T float :=
  fun t => (Ok (clock (clock_reads t)), with_clock_reads (S (clock_reads t)) t).

(** [stop_egram_stream()].  The [join] makes the caller wait for the
    reader thread, at most half a second; what that thread does meanwhile
    is not part of this model, so the properties below are stated for
    objects without a live reader thread, on which no [join] happens. *)
Definition thread_join : T unit := tret tt.

Definition stop_egram_stream : T unit :=
  (tmodify (fun t => with_egram false (_egram_thread t) t) ;;
   thread <- tgets _egram_thread ;;
   (match thread with
    | Some th => if is_alive th then thread_join else tret tt
    | None => tret tt
    end) ;;
   tmodify (fun t => with_egram (_egram_running t) None t) ;;
   connected <- tgets (fun t => is_connected (service t)) ;;
   if connected then log_text "[EGRAM] Egram stream stopped." else tret tt
  )%transport.

(** [disconnect()] *)
Definition disconnect : T unit :=
  (stop_egram_stream ;;
   ser <- tgets (fun t => _ser (service t)) ;;
   (match ser with
    | Some s =>
        ttry
          (if is_open s then
             port_do PortClose ;;
             p <- tgets (fun t => _port (service t)) ;;
             log_text ("Closed serial port " ++ port_str p ++ ".")
           else tret tt)
          (fun e =>
             p <- tgets (fun t => _port (service t)) ;;
             log_text ("Error while closing serial port " ++ port_str p
                       ++ ": " ++ exn_str e))
    | None => tret tt
    end) ;;
   tmodify (fun t => with_service
                       (with_connection None None false (service t)) t)
  )%transport.


(** [test_connection()] *)
Definition test_connection : T (bool * string) :=
  (off <- tgets no_connection ;;
   if off then
     let msg := "No open serial connection. Please connect first." in
     log_text ("[TEST] " ++ msg) ;;
     tret (false, msg)
   else
     ttry
       (port_do PortResetInput ;;
        port_do PortResetOutput ;;
        port_do PortInWaiting ;;
        p <- tgets (fun t => _port (service t)) ;;
        let msg := "Port " ++ port_str p ++ " is open and responsive." in
        log_text ("[TEST] " ++ msg) ;;
        tret (true, msg))
       (fun e =>
          p <- tgets (fun t => _port (service t)) ;;
          let msg := "Serial I/O error on " ++ port_str p ++ ": "
                     ++ exn_str e in
          log_text ("[TEST] " ++ msg) ;;
          tret (false, msg)))%transport.

(** [read_bytes(size)] *)
Definition read_bytes (size : Z) : T (list byte) :=
  (off <- tgets no_connection ;;
   if off then tret []
   else
     ttry
       (data <- port_do (PortRead size) ;;
        (match data with
         | [] => tret tt
         | _ :: _ => log_frame "RX" data
         end) ;;
        tret data)
       (fun e =>
          p <- tgets (fun t => _port (service t)) ;;
          log_text ("[READ] Error reading from " ++ port_str p ++ ": "
                    ++ exn_str e) ;;
          tret []))%transport.

(** [read_parameters(mode)]; [None] is the return value [None]. *)
Definition read_parameters (mode0 : string) : T (option PacemakerSettings) :=
  (off <- tgets no_connection ;;
   if off then traise (RuntimeError "Not connected to device.")
   else
     raw <- read_bytes (Z.of_nat PACKET_LEN) ;;
     if negb (Nat.eqb (List.length raw) PACKET_LEN) then
       log_text ("[PARAM] read_parameters: expected "
                 ++ str_int (Z.of_nat PACKET_LEN) ++ " bytes, got "
                 ++ str_int (Z.of_nat (List.length raw)) ++ ".") ;;
       tret None
     else
       settings <- on_service (_decode_frame_to_settings mode0 raw) ;;
       on_service (_log_fields "[PARAM] Decoded from RX: "
                     (debug_fields settings)) ;;
       tret (Some settings))%transport.

(** The polling loop of [debug_roundtrip_test]; [None] when the loop is
    still running after [fuel] rounds. *)
Fixpoint poll_loop (fuel : nat) (test_frame : list byte)
    (end_time poll_interval : float) (last_rx : option (list byte))
    : T (option (bool * string)) :=
  match fuel with
  | O => tret None
  | S fuel' =>
      (now <- time_time ;;
       if SFltb now end_time then
         data <- read_bytes (Z.of_nat PACKET_LEN) ;;
         if Nat.eqb (List.length data) 0 then
           sleep poll_interval ;;
           poll_loop fuel' test_frame end_time poll_interval last_rx
         else if bytes_eqb data test_frame then
           let msg := "Roundtrip OK. Got back: " ++ hex_bytes data in
           log_text ("[RT] " ++ msg) ;;
           tret (Some (true, msg))
         else
           log_text ("[RT] Non-matching RX frame: " ++ hex_bytes data) ;;
           sleep poll_interval ;;
           poll_loop fuel' test_frame end_time poll_interval (Some data)
       else
         let msg := match last_rx with
                    | None => "No response received during loopback test."
                    | Some rx => "Loopback timeout. Last RX: " ++ hex_bytes rx
                    end in
         log_text ("[RT] " ++ msg) ;;
         tret (Some (false, msg)))%transport
  end.

(** [debug_roundtrip_test(test_frame, timeout, poll_interval)] *)
Definition debug_roundtrip_test (fuel : nat) (test_frame : list byte)
    (timeout poll_interval : float) : T (option (bool * string)) :=
  (off <- tgets no_connection ;;
   if off then
     let msg := "Not connected to any serial port." in
     log_text ("[RT] " ++ msg) ;;
     tret (Some (false, msg))
   else if negb (Nat.eqb (List.length test_frame) PACKET_LEN) then
     let msg := "Test frame must be " ++ str_int (Z.of_nat PACKET_LEN)
                ++ " bytes, got "
                ++ str_int (Z.of_nat (List.length test_frame)) ++ "." in
     log_text ("[RT] " ++ msg) ;;
     tret (Some (false, msg))
   else
     flushed <-
       ttry
         (port_do PortResetInput ;;
          port_do PortResetOutput ;;
          tret None)
         (fun e =>
            p <- tgets (fun t => _port (service t)) ;;
            let msg := "Error resetting buffers on " ++ port_str p ++ ": "
                       ++ exn_str e in
            log_text ("[RT] " ++ msg) ;;
            tret (Some msg)) ;;
     match flushed with
     | Some msg => tret (Some (false, msg))
     | None =>
         log_frame "RT-TX" test_frame ;;
         written <-
           ttry
             (port_do (PortWrite test_frame) ;;
              port_do PortFlush ;;
              tret None)
             (fun e =>
                p <- tgets (fun t => _port (service t)) ;;
                let msg := "Error writing test frame to " ++ port_str p
                           ++ ": " ++ exn_str e in
                log_text ("[RT] " ++ msg) ;;
                tret (Some msg)) ;;
         match written with
         | Some msg => tret (Some (false, msg))
         | None =>
             now <- time_time ;;
             let end_time := SFadd PyFloat.prec PyFloat.emax now timeout in
             poll_loop fuel test_frame end_time poll_interval None
         end
     end)%transport.

(** [roundtrip_from_settings(settings, timeout, poll_interval)] *)
Definition roundtrip_from_settings (fuel : nat) (settings : PacemakerSettings)
    (timeout poll_interval : float) : T (option (bool * string)) :=
  (frame <- on_service (lift (_encode_settings_to_frame settings)) ;;
   debug_roundtrip_test fuel frame timeout poll_interval)%transport.

End Port.

(** A pulse width that is a whole number of milliseconds in 0..255. *)
Definition pulse_width_whole_ms (x : float) : Prop :=
  exists p, 0 <= p <= 255 /\ x = PyFloat.of_int p.

(** A connected transport on which nothing has happened yet. *)
Definition connected_transport : Transport :=
  mkTransport connected_service 115200 false None [] 0.

(** A transport that was never connected. *)
Definition fresh_transport : Transport :=
  mkTransport fresh_service 115200 false None [] 0.

(** No reader thread is alive. *)
Definition no_live_thread (t : Transport) : Prop :=
  match _egram_thread t with
  | Some th => is_alive th = false
  | None => True
  end.


(** The state of the loopback test when its polling starts: the frame
    logged under RT-TX, four port calls made, one reading of the clock
    taken. *)
Definition loopback_started (test_frame : list byte) (t : Transport)
    : Transport :=
  with_clock_reads (S (clock_reads t))
    (with_port_io
       (port_io t ++
        [PortResetInput; PortResetOutput; PortWrite test_frame; PortFlush])
       (with_service
          (with_log (uart_log (service t) ++ [LogFrame "RT-TX" test_frame])
             (service t))
          t)).

(** The state after a failure with the message [msg] logged under [RT],
    the port calls [calls] made and, when [sent] holds, the frame logged
    under RT-TX before. *)
Definition loopback_failed (sent : bool) (test_frame : list byte)
    (msg : string) (calls : list port_call) (t : Transport) : Transport :=
  with_port_io (port_io t ++ calls)
    (with_service
       (with_log
          (uart_log (service t) ++
           (if sent then [LogFrame "RT-TX" test_frame] else []) ++
           [LogText ("[RT] " ++ msg)])
          (service t))
       t).

(** The four port calls the loopback test makes before it polls. *)
Definition loopback_calls (test_frame : list byte) : list port_call :=
  [PortResetInput; PortResetOutput; PortWrite test_frame; PortFlush].


(** The port answers its calls number [n] to [n + k - 1] without raising. *)
Definition port_answers (port : nat -> port_reply) (n k : nat) : Prop :=
  forall j, (j < k)%nat -> exists data, port (n + j)%nat = Returns data.



(** The port call [disconnect] makes: a close when a port object is held
    and open. *)
Definition close_calls (t : Transport) : list port_call :=
  match _ser (service t) with
  | Some s => if is_open s then [PortClose] else []
  | None => []
  end.

(** The lines [disconnect] logs when the port answers the close with
    [reply]. *)
Definition disconnect_log (reply : port_reply) (t : Transport)
    : list log_entry :=
  ((if is_connected (service t)
    then [LogText "[EGRAM] Egram stream stopped."] else []) ++
   match _ser (service t) with
   | Some s =>
       if is_open s then
         match reply with
         | Returns _ =>
             [LogText ("Closed serial port "
                       ++ port_str (_port (service t)) ++ ".")]
         | Fails e =>
             [LogText ("Error while closing serial port "
                       ++ port_str (_port (service t)) ++ ": " ++ e)]
         end
       else []
   | None => []
   end)%list.

(** The state [disconnect] leaves. *)
Definition disconnected (port : nat -> port_reply) (t : Transport)
    : Transport :=
  mkTransport
    (mkService None None false (_last_sent_settings (service t))
       (uart_log (service t)
        ++ disconnect_log (port (List.length (port_io t))) t)
       (serial_io (service t)))
    (_baudrate t) false None (port_io t ++ close_calls t) (clock_reads t).


(* ====================================================================== *)
(** ** Properties of the helpers *)
(* ====================================================================== *)

Lemma clamp_byte_range (v : Z) : 0 <= clamp_byte v <= 255.
Proof. unfold clamp_byte. lia. Qed.

Lemma clamp_byte_id (v : Z) : 0 <= v <= 255 -> clamp_byte v = v.
Proof. unfold clamp_byte. lia. Qed.

Lemma land_255_id (v : Z) : 0 <= v <= 255 -> Z.land v 255 = v.
Proof.
  intros Hv. change 255 with (Z.ones 8).
  rewrite Z.land_ones by lia. apply Z.mod_small. lia.
Qed.

Lemma struct_pack_B_ok (v : Z) :
  0 <= v <= 255 -> exists b, struct_pack_B v = Ok [b] /\ byte_int b = v.
Proof.
  intros Hv. unfold struct_pack_B.
  replace ((0 <=? v) && (v <=? 255)) with true
    by (symmetry; apply andb_true_intro; split; apply Z.leb_le; lia).
  destruct (Byte.of_N (Z.to_N v)) as [b|] eqn:Hb.
  - exists b. split; [reflexivity|].
    apply Byte.to_of_N in Hb. unfold byte_int. rewrite Hb. lia.
  - apply Byte.of_N_None_iff in Hb. lia.
Qed.

Lemma pack_loop_ok (pairs : list (string * Z)) :
  Forall (fun v => 0 <= v <= 255) (map snd pairs) ->
  forall packet, exists bs,
    pack_loop pairs packet = Ok (packet ++ bs)%list /\
    byte_values bs = map snd pairs.
Proof.
  induction pairs as [|[fmt v] rest IH]; intros Hall packet.
  - exists []. simpl. rewrite app_nil_r. split; reflexivity.
  - simpl in Hall. inversion Hall as [|x l Hv Hrest]; subst.
    destruct (struct_pack_B_ok v Hv) as [b [Hb Hbv]].
    destruct (IH Hrest (packet ++ [b])%list) as [bs [Hbs Hvals]].
    exists (b :: bs). simpl. rewrite Hb. simpl. rewrite Hbs.
    rewrite <- app_assoc. simpl. split; [reflexivity|].
    unfold byte_values in *. simpl. rewrite Hbv, Hvals. reflexivity.
Qed.

Section DictFacts.
Context {K V : Type}.
Variable keq : K -> K -> bool.
Hypothesis keq_spec : forall a b, keq a b = true <-> a = b.

Lemma dict_get_In (d : list (K * V)) (k : K) (dflt : V) :
  In k (map fst d) -> In (k, dict_get keq d k dflt) d.
Proof.
  induction d as [|[k' v] d IH]; simpl; [tauto|].
  intros [Heq|Hin].
  - subst k'. replace (keq k k) with true by (symmetry; apply keq_spec; reflexivity).
    left; reflexivity.
  - destruct (keq k' k) eqn:E.
    + apply keq_spec in E. subst k'. left; reflexivity.
    + right. apply IH, Hin.
Qed.

Lemma dict_get_not_In (d : list (K * V)) (k : K) (dflt : V) :
  ~ In k (map fst d) -> dict_get keq d k dflt = dflt.
Proof.
  induction d as [|[k' v] d IH]; simpl; [reflexivity|].
  intros Hn. destruct (keq k' k) eqn:E.
  - apply keq_spec in E. exfalso. apply Hn. left; exact E.
  - apply IH. intros Hin. apply Hn. right; exact Hin.
Qed.

Lemma dict_get_cases (d : list (K * V)) (k : K) (dflt : V) :
  (In k (map fst d) /\ In (k, dict_get keq d k dflt) d) \/
  (~ In k (map fst d) /\ dict_get keq d k dflt = dflt).
Proof.
  assert (Hdec : In k (map fst d) \/ ~ In k (map fst d)).
  { induction (map fst d) as [|a l IHl]; simpl; [right; tauto|].
    destruct (keq a k) eqn:E.
    - apply keq_spec in E. left; left; exact E.
    - destruct IHl as [Hl|Hl]; [left; right; exact Hl|].
      right. intros [Ha|Hb]; [|tauto].
      apply keq_spec in Ha. congruence. }
  destruct Hdec as [Hin|Hn].
  - left. split; [exact Hin|]. apply dict_get_In, Hin.
  - right. split; [exact Hn|]. apply dict_get_not_In, Hn.
Qed.
End DictFacts.

Lemma mode_code_cases (s : PacemakerSettings) :
  (In (mode s) (map fst MODE_MAP) /\ 1 <= mode_code s <= 10) \/
  (~ In (mode s) (map fst MODE_MAP) /\ mode_code s = 0).
Proof.
  unfold mode_code.
  destruct (dict_get_cases String.eqb String.eqb_eq MODE_MAP (mode s) 0)
    as [[Hin Hv]|[Hn Hv]].
  - left. split; [exact Hin|].
    revert Hv. generalize (dict_get String.eqb MODE_MAP (mode s) 0). intros c Hc.
    simpl in Hc.
    repeat (destruct Hc as [Hc|Hc]; [inversion Hc; lia|]). contradiction.
  - right. split; assumption.
Qed.

Lemma activity_code_cases (s : PacemakerSettings) :
  (In (activity_threshold s) (map fst ACTIVITY_THRESH_MAP)
   /\ 0 <= activity_code s <= 6) \/
  (~ In (activity_threshold s) (map fst ACTIVITY_THRESH_MAP)
   /\ activity_code s = 3).
Proof.
  unfold activity_code.
  destruct (dict_get_cases String.eqb String.eqb_eq ACTIVITY_THRESH_MAP
              (activity_threshold s) 3) as [[Hin Hv]|[Hn Hv]].
  - left. split; [exact Hin|].
    revert Hv.
    generalize (dict_get String.eqb ACTIVITY_THRESH_MAP (activity_threshold s) 3).
    intros c Hc. simpl in Hc.
    repeat (destruct Hc as [Hc|Hc]; [inversion Hc; lia|]). contradiction.
  - right. split; assumption.
Qed.

(* ====================================================================== *)
(** ** What the encoder writes *)
(* ====================================================================== *)

Lemma mode_code_range (s : PacemakerSettings) : 0 <= mode_code s <= 10.
Proof. destruct (mode_code_cases s) as [[_ H]|[_ H]]; lia. Qed.

Lemma activity_code_range (s : PacemakerSettings) : 0 <= activity_code s <= 6.
Proof. destruct (activity_code_cases s) as [[_ H]|[_ H]]; lia. Qed.

Lemma wire_values_bytes (s : PacemakerSettings) (aa va apw vpw : Z) :
  Forall (fun v => 0 <= v <= 255) (wire_values s aa va apw vpw).
Proof.
  pose proof (mode_code_range s). pose proof (activity_code_range s).
  unfold wire_values, SYNC_BYTE.
  repeat (apply Forall_cons; [first [apply clamp_byte_range | lia]|]).
  apply Forall_nil.
Qed.

Lemma encode_ok (s : PacemakerSettings) (aa va apw vpw : Z) :
  rounded_aa s = Ok aa -> rounded_va s = Ok va ->
  rounded_apw s = Ok apw -> rounded_vpw s = Ok vpw ->
  exists frame,
    _encode_settings_to_frame s = Ok frame /\
    byte_values frame = wire_values s aa va apw vpw.
Proof.
  unfold rounded_aa, rounded_va, rounded_apw, rounded_vpw.
  intros Haa Hva Hapw Hvpw.
  destruct (pack_loop_ok
              (combine (repeat "B" PACKET_LEN) (wire_values s aa va apw vpw)))
    with (packet := @nil byte) as [bs [Hloop Hvals]].
  { simpl. apply (wire_values_bytes s aa va apw vpw). }
  exists bs. split; [|exact Hvals].
  unfold _encode_settings_to_frame. cbv zeta.
  rewrite Haa, Hva, Hapw, Hvpw. cbv beta iota delta [rbind].
  simpl in Hloop. rewrite <- Hloop.
  unfold int_of_int, round_int.
  pose proof (mode_code_range s). pose proof (activity_code_range s).
  fold (mode_code s). fold (activity_code s).
  rewrite (clamp_byte_id (activity_code s)) by lia.
  rewrite !(land_255_id (clamp_byte _)) by apply clamp_byte_range.
  rewrite (land_255_id (mode_code s)) by lia.
  rewrite (land_255_id (activity_code s)) by lia.
  reflexivity.
Qed.

(** Whatever frame the encoder returns is the one [wire_values] describes. *)
Lemma encode_inv (s : PacemakerSettings) (frame : list byte) :
  _encode_settings_to_frame s = Ok frame ->
  exists aa va apw vpw,
    rounded_aa s = Ok aa /\ rounded_va s = Ok va /\
    rounded_apw s = Ok apw /\ rounded_vpw s = Ok vpw /\
    byte_values frame = wire_values s aa va apw vpw.
Proof.
  intros Henc.
  destruct (rounded_aa s) as [aa|e1] eqn:Haa;
  destruct (rounded_va s) as [va|e2] eqn:Hva;
  destruct (rounded_apw s) as [apw|e3] eqn:Hapw;
  destruct (rounded_vpw s) as [vpw|e4] eqn:Hvpw;
  try (exfalso; revert Henc;
       unfold rounded_aa, rounded_va, rounded_apw, rounded_vpw in *;
       unfold _encode_settings_to_frame; cbv zeta;
       rewrite ?Haa, ?Hva, ?Hapw, ?Hvpw; cbv beta iota delta [rbind];
       discriminate).
  destruct (encode_ok s aa va apw vpw Haa Hva Hapw Hvpw) as [f [Hf Hv]].
  rewrite Hf in Henc. inversion Henc; subst f.
  exists aa, va, apw, vpw. repeat split; try reflexivity. exact Hv.
Qed.

Lemma round_finite (x : float) :
  PyFloat.is_finite x = true -> exists n, PyFloat.round x = Ok n.
Proof.
  destruct x as [sg|sg| |sg m e]; simpl; intros H; try discriminate;
    eexists; reflexivity.
Qed.

Lemma encodable_rounds (s : PacemakerSettings) :
  encodable s = true ->
  exists aa va apw vpw,
    rounded_aa s = Ok aa /\ rounded_va s = Ok va /\
    rounded_apw s = Ok apw /\ rounded_vpw s = Ok vpw.
Proof.
  unfold encodable. intros H.
  apply andb_prop in H; destruct H as [H Hvpw].
  apply andb_prop in H; destruct H as [H Hapw].
  apply andb_prop in H; destruct H as [Haa Hva].
  destruct (round_finite _ Haa) as [aa Eaa].
  destruct (round_finite _ Hva) as [va Eva].
  destruct (round_finite _ Hapw) as [apw Eapw].
  destruct (round_finite _ Hvpw) as [vpw Evpw].
  exists aa, va, apw, vpw. unfold rounded_aa, rounded_va, rounded_apw, rounded_vpw.
  auto.
Qed.

(** The encoder returns a frame exactly on the encodable records. *)
Lemma encode_total_iff (s : PacemakerSettings) :
  encodable s = true <-> exists frame, _encode_settings_to_frame s = Ok frame.
Proof.
  split.
  - intros H. destruct (encodable_rounds s H) as (aa & va & apw & vpw & H1 & H2 & H3 & H4).
    destruct (encode_ok s aa va apw vpw H1 H2 H3 H4) as [f [Hf _]].
    exists f. exact Hf.
  - intros [f Hf]. apply encode_inv in Hf.
    destruct Hf as (aa & va & apw & vpw & H1 & H2 & H3 & H4 & _).
    unfold encodable.
    unfold rounded_aa, rounded_va, rounded_apw, rounded_vpw in *.
    assert (Hfin : forall x n, PyFloat.round x = Ok n -> PyFloat.is_finite x = true).
    { intros x n. destruct x; simpl; intros E; try discriminate; reflexivity. }
    rewrite (Hfin _ _ H1), (Hfin _ _ H2), (Hfin _ _ H3), (Hfin _ _ H4).
    reflexivity.
Qed.

(* ====================================================================== *)
(** ** What the decoder returns *)
(* ====================================================================== *)

Lemma byte_values_length (frame : list byte) :
  List.length (byte_values frame) = List.length frame.
Proof. unfold byte_values. apply length_map. Qed.

Lemma decode_run (mode0 : string) (frame : list byte) (st : CommsService)
    (b0 b1 b2 b3 b4 b5 b6 b7 b8 b9 b10 b11 b12 b13 b14 : Z) :
  byte_values frame =
    [b0; b1; b2; b3; b4; b5; b6; b7; b8; b9; b10; b11; b12; b13; b14] ->
  _decode_frame_to_settings mode0 frame st =
    (Ok (decoded mode0 b1 b2 b3 b4 b5 b6 b7 b8 b9 b10 b11 b12 b13 b14),
     after_decode b0 st).
Proof.
  intros Hvals.
  assert (Hlen : List.length frame = PACKET_LEN).
  { rewrite <- byte_values_length, Hvals. reflexivity. }
  unfold _decode_frame_to_settings. rewrite Hlen, Hvals.
  change (negb (Nat.eqb PACKET_LEN PACKET_LEN)) with false. cbv iota.
  unfold after_decode, sync_warning, decoded, settings_of_wire, int_of_int.
  destruct (b0 =? SYNC_BYTE); reflexivity.
Qed.

(** A list of fifteen bytes, element by element. *)
Lemma length_15_inv {A : Type} (l : list A) :
  List.length l = 15%nat ->
  exists a0 a1 a2 a3 a4 a5 a6 a7 a8 a9 a10 a11 a12 a13 a14,
    l = [a0; a1; a2; a3; a4; a5; a6; a7; a8; a9; a10; a11; a12; a13; a14].
Proof.
  intros H.
  do 15 (destruct l as [|? l]; [discriminate H|]).
  destruct l; [|discriminate H].
  repeat eexists.
Qed.

Lemma decode_length_15 (mode0 : string) (frame : list byte) (st : CommsService) :
  List.length frame = 15%nat ->
  exists b0 b1 b2 b3 b4 b5 b6 b7 b8 b9 b10 b11 b12 b13 b14,
    byte_values frame =
      [b0; b1; b2; b3; b4; b5; b6; b7; b8; b9; b10; b11; b12; b13; b14] /\
    _decode_frame_to_settings mode0 frame st =
      (Ok (decoded mode0 b1 b2 b3 b4 b5 b6 b7 b8 b9 b10 b11 b12 b13 b14),
       after_decode b0 st).
Proof.
  intros Hlen. rewrite <- byte_values_length in Hlen.
  destruct (length_15_inv _ Hlen)
    as (b0 & b1 & b2 & b3 & b4 & b5 & b6 & b7 & b8 & b9 & b10 & b11 & b12
        & b13 & b14 & Hvals).
  exists b0, b1, b2, b3, b4, b5, b6, b7, b8, b9, b10, b11, b12, b13, b14.
  split; [exact Hvals|]. apply decode_run, Hvals.
Qed.

Lemma decode_wrong_length (mode0 : string) (frame : list byte)
    (st : CommsService) :
  List.length frame <> PACKET_LEN ->
  _decode_frame_to_settings mode0 frame st =
    (Raise (ValueError "Frame must be 15 bytes."), st).
Proof.
  intros Hlen. unfold _decode_frame_to_settings.
  apply Nat.eqb_neq in Hlen. rewrite Hlen. reflexivity.
Qed.

(* ====================================================================== *)
(** ** The connection test of the two write paths *)
(* ====================================================================== *)

Lemma connected_has_ser (st : CommsService) :
  is_connected st = true -> ser_is_none st = false.
Proof.
  unfold is_connected, ser_is_none.
  destruct (_ser st); [reflexivity|].
  rewrite andb_false_r. discriminate.
Qed.

Lemma write_bytes_disconnected (device : nat -> io_outcome)
    (payload : list byte) (st : CommsService) :
  is_connected st = false ->
  write_bytes device payload st =
    (Ok false, with_log (uart_log st ++ [LogFrame "TX-NC" payload]) st).
Proof.
  intros Hc. unfold write_bytes, bind, gets. rewrite Hc. reflexivity.
Qed.

Lemma write_bytes_connected (device : nat -> io_outcome)
    (payload : list byte) (st : CommsService) :
  is_connected st = true ->
  write_bytes device payload st =
    match device (List.length (serial_io st)) with
    | IoOk =>
        (Ok true,
         with_log (uart_log st ++ [LogFrame "TX" payload])
           (with_io (serial_io st ++ [SerWrite payload]) st))
    | IoRaises msg =>
        (Ok false,
         with_log ((uart_log st ++ [LogFrame "TX-ERR" payload]) ++
                   [LogText ("[WRITE] Error writing to "
                             ++ port_str (_port st) ++ ": " ++ msg)])
           (with_io (serial_io st ++ [SerWrite payload]) st))
    end.
Proof.
  intros Hc. pose proof (connected_has_ser st Hc) as Hs.
  unfold write_bytes, bind, gets. rewrite Hc, Hs. cbn [negb orb].
  unfold try_except, bind, driver_call.
  destruct (device (List.length (serial_io st))); reflexivity.
Qed.

Lemma send_encoder_raises (device : nat -> io_outcome)
    (settings : PacemakerSettings) (st : CommsService) (e : exn) :
  _encode_settings_to_frame settings = Raise e ->
  send_parameters device settings st =
    (Raise e, with_last_sent (Some settings) st).
Proof.
  intros Henc. unfold send_parameters, bind, modify, lift.
  rewrite Henc. reflexivity.
Qed.

Lemma send_disconnected (device : nat -> io_outcome)
    (settings : PacemakerSettings) (st : CommsService) (frame : list byte) :
  _encode_settings_to_frame settings = Ok frame ->
  is_connected st = false ->
  send_parameters device settings st =
    (Ok tt,
     with_log
       (((uart_log st ++ [LogFrame "PARAM-TX" frame])
         ++ [LogFields "    Fields: " (debug_fields settings)])
        ++ [LogText "[PARAM] send_parameters called with no active serial connection (mock send only)."])
       (with_last_sent (Some settings) st)).
Proof.
  intros Henc Hc.
  unfold send_parameters, _log_frame, _log_fields, bind, modify, lift, gets.
  rewrite Henc. cbv beta iota.
  set (st1 := with_log _ (with_log _ (with_last_sent (Some settings) st))).
  assert (Hc1 : is_connected st1 = false) by exact Hc.
  rewrite Hc1. reflexivity.
Qed.

Lemma send_connected (device : nat -> io_outcome)
    (settings : PacemakerSettings) (st : CommsService) (frame : list byte) :
  _encode_settings_to_frame settings = Ok frame ->
  is_connected st = true ->
  exists st',
    send_parameters device settings st =
      (match device (List.length (serial_io st)) with
       | IoRaises _ =>
           Raise (RuntimeError
                    "Error writing parameters to serial port: write_bytes returned False.")
       | IoOk =>
           match device (S (List.length (serial_io st))) with
           | IoOk => Ok tt
           | IoRaises msg =>
               Raise (RuntimeError
                        ("Error writing parameters to serial port: " ++ msg))
           end
       end, st') /\
    _last_sent_settings st' = Some settings /\
    exists calls,
      serial_io st' = (serial_io st ++ SerWrite frame :: calls)%list.
Proof.
  intros Henc Hc. pose proof (connected_has_ser st Hc) as Hs.
  unfold send_parameters, _log_frame, _log_fields, bind, modify, lift, gets.
  rewrite Henc. cbv beta iota.
  set (st1 := with_log _ (with_log _ (with_last_sent (Some settings) st))).
  assert (Hc1 : is_connected st1 = true) by exact Hc.
  assert (Hs1 : ser_is_none st1 = false) by exact Hs.
  rewrite Hc1, Hs1. cbn [negb orb].
  unfold try_except, bind.
  rewrite (write_bytes_connected device frame st1 Hc1).
  change (serial_io st1) with (serial_io st).
  destruct (device (List.length (serial_io st))) as [|msg] eqn:Hd.
  - cbn [negb]. unfold ret, gets.
    set (st2 := with_log _ (with_io _ st1)).
    assert (Hs2 : ser_is_none st2 = false) by exact Hs.
    rewrite Hs2. cbn [negb]. unfold driver_call.
    change (serial_io st2) with (serial_io st ++ [SerWrite frame])%list.
    rewrite length_app. cbn [List.length]. rewrite Nat.add_1_r.
    destruct (device (S (List.length (serial_io st)))) as [|msg'].
    + eexists. split; [reflexivity|]. split; [reflexivity|].
      exists [SerFlush]. cbn [serial_io with_io].
      rewrite <- app_assoc. reflexivity.
    + eexists. split; [reflexivity|]. split; [reflexivity|].
      exists [SerFlush]. cbn [serial_io with_io with_log _log_text modify raise].
      rewrite <- app_assoc. reflexivity.
  - cbn [negb]. unfold raise, _log_text, modify.
    eexists. split; [reflexivity|]. split; [reflexivity|].
    exists []. reflexivity.
Qed.

(* ====================================================================== *)
(** ** Floats on the byte values *)
(* ====================================================================== *)

Lemma all_bytes_spec (f : Z -> bool) :
  all_bytes f = true -> forall p, 0 <= p <= 255 -> f p = true.
Proof.
  unfold all_bytes. intros H p Hp.
  rewrite forallb_forall in H.
  specialize (H (Z.to_nat p)).
  rewrite Z2Nat.id in H by lia. apply H.
  apply in_seq. lia.
Qed.

(** [round(float(p))] is [p] on the byte values. *)
Lemma round_of_int_byte (p : Z) :
  0 <= p <= 255 -> PyFloat.round (PyFloat.of_int p) = Ok p.
Proof.
  intros Hp.
  pose (f := fun n => match PyFloat.round (PyFloat.of_int n) with
                      | Ok z => z =? n
                      | Raise _ => false
                      end).
  assert (H : f p = true).
  { apply all_bytes_spec; [vm_compute; reflexivity|exact Hp]. }
  unfold f in H.
  destruct (PyFloat.round (PyFloat.of_int p)) as [z|e]; [|discriminate H].
  apply Z.eqb_eq in H. subst z. reflexivity.
Qed.

(** [round(x * 10.0)] is [k] when [x] is the double of [k / 10]. *)
Lemma round_tenths (k : Z) :
  0 <= k <= 255 ->
  PyFloat.round (PyFloat.mul (PyFloat.decimal k 1) PyFloat.ten) = Ok k.
Proof.
  intros Hk.
  pose (f := fun n =>
               match PyFloat.round
                       (PyFloat.mul (PyFloat.decimal n 1) PyFloat.ten) with
               | Ok z => z =? n
               | Raise _ => false
               end).
  assert (H : f k = true).
  { apply all_bytes_spec; [vm_compute; reflexivity|exact Hk]. }
  unfold f in H.
  destruct (PyFloat.round (PyFloat.mul (PyFloat.decimal k 1) PyFloat.ten))
    as [z|e]; [|discriminate H].
  apply Z.eqb_eq in H. subst z. reflexivity.
Qed.

(** The division of the decoder gives back the double of [k / 10]. *)
Lemma decode_tenths (k : Z) :
  PyFloat.div (PyFloat.of_int k) PyFloat.ten = PyFloat.decimal k 1.
Proof. reflexivity. Qed.

(* ====================================================================== *)
(** ** The tables and their inverses *)
(* ====================================================================== *)

Lemma mode_roundtrip (s : PacemakerSettings) :
  dict_get Z.eqb MODE_MAP_INV (mode_code s) (mode s) = mode s.
Proof.
  destruct (mode_code_cases s) as [[Hin _]|[_ H0]].
  - unfold mode_code. simpl in Hin.
    repeat (destruct Hin as [Hin|Hin]; [rewrite <- Hin; reflexivity|]).
    contradiction.
  - rewrite H0. reflexivity.
Qed.

Lemma activity_roundtrip (s : PacemakerSettings) :
  In (activity_threshold s) (map fst ACTIVITY_THRESH_MAP) ->
  dict_get Z.eqb ACTIVITY_THRESH_MAP_INV (activity_code s) "Med"
    = activity_threshold s.
Proof.
  intros Hin. unfold activity_code. simpl in Hin.
  repeat (destruct Hin as [Hin|Hin]; [rewrite <- Hin; reflexivity|]).
  contradiction.
Qed.

(* ====================================================================== *)
(** ** The validator in front of the encoder *)
(* ====================================================================== *)

(** The scenario with a ventricular refractory period of 250 ms passes
    validation; its pulse widths of 0.4 ms are valid pulse widths. *)
Lemma scenario_in_range_valid :
  validate_settings scenario_in_range = (true, []).
Proof. vm_compute. reflexivity. Qed.

(** A record with an infinite amplitude or a NaN as pulse width does not
    pass validation: every comparison with a NaN is false, and infinity
    is above 7.0. *)
Lemma infinite_amplitude_rejected :
  validate_settings scenario_infinite_amplitude =
    (false, ["Atrial Amplitude must be between 0.1 and 7.0 V."]).
Proof. vm_compute. reflexivity. Qed.

Lemma nan_pulse_width_rejected :
  validate_settings scenario_nan_pulse_width =
    (false, ["Ventricular Pulse Width must be between 0.05 and 1.9 ms."]).
Proof. vm_compute. reflexivity. Qed.

(* ====================================================================== *)
(** ** Ranges of a concrete record *)
(* ====================================================================== *)

(** For a record built by [settings_of_wire] from literals, with
    amplitudes of [ka] and [kv] tenths of a volt: proves every part of
    [wire_in_range] but the two pulse widths, which are left as the
    goal. *)
Ltac wire_fields_in_range ka kv :=
  unfold wire_in_range, settings_of_wire;
  cbn [mode activity_threshold lower_rate_limit upper_rate_limit
       atrial_refractory_period ventricular_refractory_period
       recovery_time reaction_time response_factor maximum_sensor_rate
       atrial_amplitude ventricular_amplitude atrial_pulse_width
       ventricular_pulse_width];
  split; [vm_compute; tauto|]; split; [vm_compute; tauto|];
  do 8 (split; [unfold byte_range; lia|]);
  split; [exists ka; split; [lia|reflexivity]|];
  split; [exists kv; split; [lia|reflexivity]|].

(* ====================================================================== *)
(** ** The doubles of the literals *)
(* ====================================================================== *)

(** [0.4] is 0x3FD999999999999A, [3.5] is 0x400C000000000000 and [10.0]
    is 0x4024000000000000. *)
Lemma literal_0_4 :
  PyFloat.decimal 4 1 = S754_finite false 0x1999999999999A (-54).
Proof. vm_compute. reflexivity. Qed.

Lemma literal_3_5 :
  PyFloat.decimal 35 1 = S754_finite false 0x1C000000000000 (-51).
Proof. vm_compute. reflexivity. Qed.

Lemma literal_10_0 :
  PyFloat.ten = S754_finite false 0x14000000000000 (-49).
Proof. vm_compute. reflexivity. Qed.

(* ====================================================================== *)
(** ** The round trip *)
(* ====================================================================== *)

(** C1, as written, fails on the code: the record [scenario_in_range]
    passes validation and has every wire field in range, its pulse widths
    of 0.4 ms lying between 0 and 255, yet the frame it encodes to decodes
    to a record whose atrial pulse width is 0.0, which does not compare
    equal to 0.4. *)
Lemma roundtrip_loses_fractional_pulse_width :
  validate_settings scenario_in_range = (true, []) /\
  wire_in_range pulse_width_in_byte_range scenario_in_range /\
  exists frame s',
    _encode_settings_to_frame scenario_in_range = Ok frame /\
    _decode_frame_to_settings (mode scenario_in_range) frame fresh_service
      = (Ok s', fresh_service) /\
    atrial_pulse_width s' = PyFloat.of_int 0 /\
    PyFloat.eqb (atrial_pulse_width s') (atrial_pulse_width scenario_in_range)
      = false.
Proof.
  split; [exact scenario_in_range_valid|]. split.
  - unfold scenario_in_range. wire_fields_in_range 35 35.
    split; split; vm_compute; reflexivity.
  - eexists. eexists. split; [vm_compute; reflexivity|].
    split; [vm_compute; reflexivity|].
    split; vm_compute; reflexivity.
Qed.

(** C1, amended: for every record whose wire subset is in range, its
    pulse widths being finite doubles, decoding the frame it encodes to,
    with its own mode as fallback, logs nothing and returns a record that
    equals it on mode, activity threshold and the eight integer fields,
    has the same two amplitudes (so they agree to one decimal place), and
    has as pulse widths the original ones rounded to a whole number of
    milliseconds (ties to even) and clamped into [0, 255]; a pulse width
    that is a whole number of milliseconds in 0..255 comes back as it
    was. *)
Theorem roundtrip_wire_subset (s : PacemakerSettings) (st : CommsService) :
  wire_in_range pulse_width_finite s ->
  exists frame s' pa pv,
    _encode_settings_to_frame s = Ok frame /\
    _decode_frame_to_settings (mode s) frame st = (Ok s', st) /\
    mode s' = mode s /\
    lower_rate_limit s' = lower_rate_limit s /\
    upper_rate_limit s' = upper_rate_limit s /\
    atrial_amplitude s' = atrial_amplitude s /\
    same_tenths (atrial_amplitude s') (atrial_amplitude s) /\
    ventricular_amplitude s' = ventricular_amplitude s /\
    same_tenths (ventricular_amplitude s') (ventricular_amplitude s) /\
    atrial_refractory_period s' = atrial_refractory_period s /\
    ventricular_refractory_period s' = ventricular_refractory_period s /\
    recovery_time s' = recovery_time s /\
    reaction_time s' = reaction_time s /\
    response_factor s' = response_factor s /\
    activity_threshold s' = activity_threshold s /\
    maximum_sensor_rate s' = maximum_sensor_rate s /\
    PyFloat.round (atrial_pulse_width s) = Ok pa /\
    atrial_pulse_width s' = PyFloat.of_int (clamp_byte pa) /\
    PyFloat.round (ventricular_pulse_width s) = Ok pv /\
    ventricular_pulse_width s' = PyFloat.of_int (clamp_byte pv) /\
    (forall p, 0 <= p <= 255 -> atrial_pulse_width s = PyFloat.of_int p ->
               atrial_pulse_width s' = atrial_pulse_width s) /\
    (forall p, 0 <= p <= 255 -> ventricular_pulse_width s = PyFloat.of_int p ->
               ventricular_pulse_width s' = ventricular_pulse_width s).
Proof.
  unfold wire_in_range, byte_range, pulse_width_finite.
  intros (Hmode & Hact & Hlrl & Hurl & Harp & Hvrp & Hrec & Hrea & Hresp
          & Hmsr & [ka [Hka Haa]] & [kv [Hkv Hva]] & Hapw & Hvpw).
  destruct (round_finite _ Hapw) as [pa Hpa].
  destruct (round_finite _ Hvpw) as [pv Hpv].
  assert (Hraa : rounded_aa s = Ok ka).
  { unfold rounded_aa. rewrite Haa. apply round_tenths, Hka. }
  assert (Hrva : rounded_va s = Ok kv).
  { unfold rounded_va. rewrite Hva. apply round_tenths, Hkv. }
  destruct (encode_ok s ka kv pa pv Hraa Hrva Hpa Hpv) as [frame [Hf Hvals]].
  exists frame. eexists. exists pa, pv.
  split; [exact Hf|].
  split; [rewrite (decode_run _ _ _ _ _ _ _ _ _ _ _ _ _ _ _ _ _ _ Hvals);
          reflexivity|].
  unfold decoded, settings_of_wire.
  cbn [mode lower_rate_limit upper_rate_limit atrial_amplitude
       ventricular_amplitude atrial_refractory_period
       ventricular_refractory_period recovery_time reaction_time
       response_factor activity_threshold maximum_sensor_rate
       atrial_pulse_width ventricular_pulse_width].
  rewrite !decode_tenths.
  rewrite (clamp_byte_id ka), (clamp_byte_id kv) by assumption.
  rewrite <- Haa, <- Hva.
  repeat (split; [first [ apply mode_roundtrip
                        | apply activity_roundtrip; exact Hact
                        | apply clamp_byte_id; assumption
                        | reflexivity
                        | assumption ]|]).
  split; intros p Hp Hx.
  - rewrite Hx in Hpa. rewrite (round_of_int_byte p Hp) in Hpa.
    inversion Hpa; subst pa. rewrite clamp_byte_id by exact Hp.
    symmetry; exact Hx.
  - rewrite Hx in Hpv. rewrite (round_of_int_byte p Hp) in Hpv.
    inversion Hpv; subst pv. rewrite clamp_byte_id by exact Hp.
    symmetry; exact Hx.
Qed.

Lemma roundtrip_wire_subset_witness :
  exists frame s',
    _encode_settings_to_frame scenario_whole_ms = Ok frame /\
    _decode_frame_to_settings "VVI" frame fresh_service
      = (Ok s', fresh_service) /\
    same_wire_subset s' scenario_whole_ms.
Proof.
  destruct (roundtrip_wire_subset scenario_whole_ms fresh_service)
    as (frame & s' & pa & pv & Hf & Hd & Hm & Hl & Hu & Haa & _ & Hva & _
        & Harp & Hvrp & Hrec & Hrea & Hresp & Hact & Hmsr & _ & _ & _ & _
        & Hapw & Hvpw).
  - unfold scenario_whole_ms. wire_fields_in_range 35 35.
    split; vm_compute; reflexivity.
  - exists frame, s'. split; [exact Hf|]. split; [exact Hd|].
    unfold same_wire_subset. repeat split; try assumption.
    + apply (Hapw 1); [lia|reflexivity].
    + apply (Hvpw 2); [lia|reflexivity].
Defined.

(* ====================================================================== *)
(** ** The scenario frame *)
(* ====================================================================== *)

(** C2, as written, fails on the code: the scenario record does not
    encode to a frame whose byte 9 is 64; the ventricular refractory
    period 320 is clamped to 255, not reduced modulo 256. *)
Lemma scenario_frame_byte9_not_64 :
  ~ exists frame,
      _encode_settings_to_frame scenario = Ok frame /\
      byte_values frame =
        [SYNC_BYTE; 4; 60; 120; 35; 0; 35; 0; 250; 64; 5; 30; 8; 3; 120].
Proof.
  intros [frame [Henc Hvals]].
  vm_compute in Henc. inversion Henc; subst frame.
  vm_compute in Hvals. discriminate.
Qed.

(** C2, amended: a record with mode VVI, rate limits 60 and 120,
    amplitudes 3.5, pulse widths 0.4, refractory periods 250 and 320,
    recovery 5, reaction 30, response factor 8, threshold Med and maximum
    sensor rate 120 encodes to the bytes
    [SYNC, 4, 60, 120, 35, 0, 35, 0, 250, 255, 5, 30, 8, 3, 120], whatever
    its other fields are. *)
Theorem scenario_frame (s : PacemakerSettings) :
  mode s = "VVI" ->
  lower_rate_limit s = 60 -> upper_rate_limit s = 120 ->
  atrial_amplitude s = PyFloat.decimal 35 1 ->
  atrial_pulse_width s = PyFloat.decimal 4 1 ->
  ventricular_amplitude s = PyFloat.decimal 35 1 ->
  ventricular_pulse_width s = PyFloat.decimal 4 1 ->
  atrial_refractory_period s = 250 ->
  ventricular_refractory_period s = 320 ->
  recovery_time s = 5 -> reaction_time s = 30 -> response_factor s = 8 ->
  activity_threshold s = "Med" -> maximum_sensor_rate s = 120 ->
  exists frame,
    _encode_settings_to_frame s = Ok frame /\
    byte_values frame =
      [SYNC_BYTE; 4; 60; 120; 35; 0; 35; 0; 250; 255; 5; 30; 8; 3; 120].
Proof.
  intros Hmode Hlrl Hurl Haa Hapw Hva Hvpw Harp Hvrp Hrec Hrea Hresp Hact Hmsr.
  destruct (encode_ok s 35 35 0 0) as [frame [Henc Hvals]].
  - unfold rounded_aa. rewrite Haa. vm_compute. reflexivity.
  - unfold rounded_va. rewrite Hva. vm_compute. reflexivity.
  - unfold rounded_apw. rewrite Hapw. vm_compute. reflexivity.
  - unfold rounded_vpw. rewrite Hvpw. vm_compute. reflexivity.
  - exists frame. split; [exact Henc|]. rewrite Hvals.
    unfold wire_values, mode_code, activity_code.
    rewrite Hmode, Hlrl, Hurl, Harp, Hvrp, Hrec, Hrea, Hresp, Hact, Hmsr.
    vm_compute. reflexivity.
Qed.

Lemma scenario_frame_witness :
  exists frame,
    _encode_settings_to_frame scenario = Ok frame /\
    byte_values frame =
      [SYNC_BYTE; 4; 60; 120; 35; 0; 35; 0; 250; 255; 5; 30; 8; 3; 120].
Proof.
  apply (scenario_frame scenario); reflexivity.
Defined.

(* ====================================================================== *)
(** ** Clamping *)
(* ====================================================================== *)

(** C3, as written, fails on the code: the encoder raises on a record
    whose atrial amplitude is the float infinity, [round] refusing it
    before any clamping takes place. *)
Lemma encode_raises_on_infinite_amplitude :
  _encode_settings_to_frame scenario_infinite_amplitude =
    Raise (OverflowError "cannot convert float infinity to integer").
Proof. vm_compute. reflexivity. Qed.

(** C3, amended: for every record whose pulse widths and ten-fold
    amplitudes are finite doubles, the encoder raises nothing and returns
    a frame whose bytes are the sync byte, the two table codes and every
    numeric wire field (rounded where it is a float) clamped into
    [0, 255]; a numeric field holding -5 is written as byte 0 and one
    holding 1000 as byte 255, at each of the twelve numeric offsets. *)
Theorem encode_clamps (s : PacemakerSettings) :
  encodable s = true ->
  exists frame aa va apw vpw,
    _encode_settings_to_frame s = Ok frame /\
    rounded_aa s = Ok aa /\ rounded_va s = Ok va /\
    rounded_apw s = Ok apw /\ rounded_vpw s = Ok vpw /\
    byte_values frame = wire_values s aa va apw vpw /\
    Forall (fun v => 0 <= v <= 255) (byte_values frame) /\
    forall f : numeric_field,
      (holds f s (-5) -> nth (offset f) (byte_values frame) 0 = 0) /\
      (holds f s 1000 -> nth (offset f) (byte_values frame) 0 = 255).
Proof.
  intros Henc.
  destruct (encodable_rounds s Henc)
    as (aa & va & apw & vpw & Haa & Hva & Hapw & Hvpw).
  destruct (encode_ok s aa va apw vpw Haa Hva Hapw Hvpw) as [frame [Hf Hvals]].
  exists frame, aa, va, apw, vpw.
  repeat (split; [assumption|]).
  split; [rewrite Hvals; apply wire_values_bytes|].
  intros f. rewrite Hvals. unfold wire_values.
  unfold rounded_aa, rounded_va, rounded_apw, rounded_vpw in *.
  destruct f; simpl; split; intros H;
    try (rewrite H; reflexivity);
    rewrite H in *;
    match goal with
    | E : PyFloat.round _ = Ok ?n |- clamp_byte ?n = _ =>
        vm_compute in E; inversion E; reflexivity
    end.
Qed.

Lemma encode_clamps_witness :
  (exists frame,
     _encode_settings_to_frame all_minus_five = Ok frame /\
     forall f, nth (offset f) (byte_values frame) 0 = 0) /\
  (exists frame,
     _encode_settings_to_frame all_thousand = Ok frame /\
     forall f, nth (offset f) (byte_values frame) 0 = 255).
Proof.
  split.
  - destruct (encode_clamps all_minus_five)
      as (frame & aa & va & apw & vpw & Hf & _ & _ & _ & _ & _ & _ & Hall).
    + reflexivity.
    + exists frame. split; [exact Hf|].
      intros f. apply (Hall f). destruct f; reflexivity.
  - destruct (encode_clamps all_thousand)
      as (frame & aa & va & apw & vpw & Hf & _ & _ & _ & _ & _ & _ & Hall).
    + reflexivity.
    + exists frame. split; [exact Hf|].
      intros f. apply (Hall f). destruct f; reflexivity.
Defined.

(* ====================================================================== *)
(** ** Frame shape *)
(* ====================================================================== *)

(** C4, as written, fails on the code: for a record whose ventricular
    pulse width is a NaN the encoder returns no frame at all. *)
Lemma encode_returns_no_frame_on_nan :
  ~ exists frame,
      _encode_settings_to_frame scenario_nan_pulse_width = Ok frame /\
      List.length frame = 15%nat.
Proof.
  intros [frame [Henc _]]. vm_compute in Henc. discriminate.
Qed.

(** C4, amended: the encoder returns a frame of exactly 15 bytes for
    every record whose pulse widths and ten-fold amplitudes are finite
    doubles, and never a frame of another length; the decoder fails with
    the length error on every input whose length is not 15, and returns a
    record on every input of 15 bytes. *)
Theorem frame_shape (s : PacemakerSettings) (mode0 : string)
    (frame : list byte) (st : CommsService) :
  (encodable s = true ->
   exists f, _encode_settings_to_frame s = Ok f /\ List.length f = 15%nat) /\
  (forall f, _encode_settings_to_frame s = Ok f -> List.length f = 15%nat) /\
  (List.length frame <> 15%nat ->
   _decode_frame_to_settings mode0 frame st =
     (Raise (ValueError "Frame must be 15 bytes."), st)) /\
  (List.length frame = 15%nat ->
   exists s' st', _decode_frame_to_settings mode0 frame st = (Ok s', st')).
Proof.
  assert (Hlen : forall f, _encode_settings_to_frame s = Ok f ->
                           List.length f = 15%nat).
  { intros f Hf. apply encode_inv in Hf.
    destruct Hf as (aa & va & apw & vpw & _ & _ & _ & _ & Hvals).
    rewrite <- byte_values_length, Hvals. reflexivity. }
  split; [|split; [exact Hlen|split]].
  - intros Henc. apply encode_total_iff in Henc. destruct Henc as [f Hf].
    exists f. split; [exact Hf|apply Hlen, Hf].
  - apply decode_wrong_length.
  - intros H15.
    destruct (decode_length_15 mode0 frame st H15)
      as (b0 & b1 & b2 & b3 & b4 & b5 & b6 & b7 & b8 & b9 & b10 & b11 & b12
          & b13 & b14 & _ & Hrun).
    eexists. eexists. exact Hrun.
Qed.

Lemma frame_shape_witness :
  (exists f, _encode_settings_to_frame scenario = Ok f /\
             List.length f = 15%nat) /\
  (forall st, _decode_frame_to_settings "VVI" [x09; x04; x3c] st =
     (Raise (ValueError "Frame must be 15 bytes."), st)) /\
  (forall st, exists s' st',
     _decode_frame_to_settings "VVI"
       [x09; x04; x3c; x78; x23; x00; x23; x00; xfa; xff; x05; x1e; x08;
        x03; x78] st = (Ok s', st')).
Proof.
  split; [|split].
  - apply (frame_shape scenario "VVI" [] (mkService None None false None [] [])).
    reflexivity.
  - intros st. apply (frame_shape scenario "VVI" [x09; x04; x3c] st).
    simpl. discriminate.
  - intros st.
    apply (frame_shape scenario "VVI"
             [x09; x04; x3c; x78; x23; x00; x23; x00; xfa; xff; x05; x1e;
              x08; x03; x78] st).
    reflexivity.
Defined.

(* ====================================================================== *)
(** ** Unknown codes and the sync byte *)
(* ====================================================================== *)

(** C5: decoding a 15-byte frame never fails; a mode byte that is not a
    code of the mode table (99, say) gives the fallback mode of the
    caller, and a threshold byte outside 0..6 gives "Med". *)
Theorem unknown_code_fallback (fallback : string) (frame : list byte)
    (st : CommsService) :
  List.length frame = 15%nat ->
  exists s st',
    _decode_frame_to_settings fallback frame st = (Ok s, st') /\
    (~ In (nth 1 (byte_values frame) 0) (map snd MODE_MAP) ->
     mode s = fallback) /\
    (~ 0 <= nth 13 (byte_values frame) 0 <= 6 ->
     activity_threshold s = "Med").
Proof.
  intros H15.
  destruct (decode_length_15 fallback frame st H15)
    as (b0 & b1 & b2 & b3 & b4 & b5 & b6 & b7 & b8 & b9 & b10 & b11 & b12
        & b13 & b14 & Hvals & Hrun).
  eexists. eexists. split; [exact Hrun|].
  rewrite Hvals. cbn [nth]. unfold decoded, settings_of_wire.
  cbn [mode activity_threshold]. split.
  - intros Hnot. apply (dict_get_not_In Z.eqb Z.eqb_eq). exact Hnot.
  - intros Hnot. apply (dict_get_not_In Z.eqb Z.eqb_eq).
    intros Hin. apply Hnot. clear -Hin. vm_compute in Hin.
    repeat (destruct Hin as [Hin|Hin]; [subst b13; lia|]). contradiction.
Qed.

Lemma unknown_code_fallback_witness :
  exists s st',
    _decode_frame_to_settings "DDD" frame_unknown_codes fresh_service
      = (Ok s, st') /\
    mode s = "DDD" /\ activity_threshold s = "Med".
Proof.
  destruct (unknown_code_fallback "DDD" frame_unknown_codes fresh_service)
    as (s & st' & Hrun & Hmode & Hact).
  - reflexivity.
  - exists s, st'. split; [exact Hrun|]. split.
    + apply Hmode. vm_compute. intros H.
      repeat (destruct H as [H|H]; [discriminate H|]). exact H.
    + apply Hact. vm_compute. intros [_ H]. apply H. reflexivity.
Defined.

(** C6: a 15-byte frame whose first byte is not the sync byte is decoded
    all the same; the warning is logged, and the record returned is the
    one the same fourteen bytes give behind a correct sync byte, and
    behind any other first byte. *)
Theorem sync_byte_tolerated (mode0 : string) (b0 : byte) (rest : list byte)
    (st : CommsService) :
  List.length rest = 14%nat ->
  byte_int b0 <> SYNC_BYTE ->
  exists s,
    _decode_frame_to_settings mode0 (b0 :: rest) st =
      (Ok s, with_log (uart_log st ++ [sync_warning (byte_int b0)]) st) /\
    _decode_frame_to_settings mode0 (x09 :: rest) st = (Ok s, st) /\
    forall b0' : byte, exists st',
      _decode_frame_to_settings mode0 (b0' :: rest) st = (Ok s, st').
Proof.
  intros H14 Hsync.
  do 14 (destruct rest as [|? rest]; [discriminate H14|]).
  destruct rest; [clear H14|discriminate H14].
  eexists. split; [|split].
  - erewrite decode_run by (cbn [byte_values map]; reflexivity).
    unfold after_decode. apply Z.eqb_neq in Hsync. rewrite Hsync. reflexivity.
  - erewrite decode_run by (cbn [byte_values map]; reflexivity).
    reflexivity.
  - intros b0'. eexists.
    erewrite decode_run by (cbn [byte_values map]; reflexivity).
    reflexivity.
Qed.

Lemma sync_byte_tolerated_witness :
  exists s,
    _decode_frame_to_settings "VVI" (xaa :: frame_rest) fresh_service =
      (Ok s, with_log [sync_warning 170] fresh_service) /\
    _decode_frame_to_settings "VVI" (x09 :: frame_rest) fresh_service =
      (Ok s, fresh_service).
Proof.
  destruct (sync_byte_tolerated "VVI" xaa frame_rest fresh_service)
    as (s & Hbad & Hgood & _).
  - reflexivity.
  - vm_compute. intros H. discriminate H.
  - exists s. split; [exact Hbad|exact Hgood].
Defined.

(* ====================================================================== *)
(** ** The frame depends on the wire subset only, and stays in range *)
(* ====================================================================== *)

(** C9: two records that agree on the fourteen fields of the wire subset
    encode alike, whatever their other fields are: the encoder gives the
    same result for both, and a frame returned for one is returned for
    the other, byte for byte, and has 15 bytes. *)
Theorem encode_depends_on_wire_subset (s1 s2 : PacemakerSettings) :
  same_wire_subset s1 s2 ->
  _encode_settings_to_frame s1 = _encode_settings_to_frame s2 /\
  (encodable s1 = true ->
   exists frame,
     _encode_settings_to_frame s1 = Ok frame /\
     _encode_settings_to_frame s2 = Ok frame /\
     List.length frame = 15%nat).
Proof.
  intros Hsame.
  assert (Heq : _encode_settings_to_frame s1 = _encode_settings_to_frame s2).
  { unfold same_wire_subset in Hsame.
    destruct Hsame as (Hm & Hl & Hu & Haa & Hapw & Hva & Hvpw & Harp & Hvrp
                       & Hrec & Hrea & Hresp & Hact & Hmsr).
    unfold _encode_settings_to_frame.
    rewrite Hm, Hl, Hu, Haa, Hapw, Hva, Hvpw, Harp, Hvrp, Hrec, Hrea, Hresp,
      Hact, Hmsr.
    reflexivity. }
  split; [exact Heq|].
  intros Henc. apply encode_total_iff in Henc. destruct Henc as [frame Hf].
  exists frame. split; [exact Hf|]. split; [rewrite <- Heq; exact Hf|].
  apply encode_inv in Hf.
  destruct Hf as (aa & va & apw & vpw & _ & _ & _ & _ & Hvals).
  rewrite <- byte_values_length, Hvals. reflexivity.
Qed.

Lemma encode_depends_on_wire_subset_witness :
  owner_username scenario <> owner_username scenario_other_locals /\
  pvarp scenario <> pvarp scenario_other_locals /\
  exists frame,
    _encode_settings_to_frame scenario = Ok frame /\
    _encode_settings_to_frame scenario_other_locals = Ok frame /\
    List.length frame = 15%nat.
Proof.
  split; [vm_compute; intros H; discriminate H|].
  split; [vm_compute; intros H; discriminate H|].
  apply (encode_depends_on_wire_subset scenario scenario_other_locals).
  - unfold same_wire_subset. repeat split; reflexivity.
  - reflexivity.
Defined.

(** C10: every frame the encoder produces, also for a mode or a threshold
    string that is in neither table, starts with the sync byte 0x09, has a
    mode code in 0..10 at offset 1, which is 0 exactly when the mode
    string is unknown, and a threshold code in 0..6 at offset 13, which is
    3 (the code of "Med") when the threshold string is unknown; and a
    frame is produced whatever the two strings are, for every record
    whose pulse widths and ten-fold amplitudes are finite. *)
Theorem encoded_frame_ranges (s : PacemakerSettings) :
  (encodable s = true ->
   exists frame, _encode_settings_to_frame s = Ok frame) /\
  forall frame,
    _encode_settings_to_frame s = Ok frame ->
    nth 0 (byte_values frame) 0 = 9 /\
    0 <= nth 1 (byte_values frame) 0 <= 10 /\
    (nth 1 (byte_values frame) 0 = 0 <-> ~ In (mode s) (map fst MODE_MAP)) /\
    0 <= nth 13 (byte_values frame) 0 <= 6 /\
    (~ In (activity_threshold s) (map fst ACTIVITY_THRESH_MAP) ->
     nth 13 (byte_values frame) 0 = 3).
Proof.
  split; [apply encode_total_iff|].
  intros frame Hf. apply encode_inv in Hf.
  destruct Hf as (aa & va & apw & vpw & _ & _ & _ & _ & Hvals).
  rewrite Hvals. unfold wire_values. cbn [nth].
  pose proof (mode_code_cases s) as Hm.
  pose proof (activity_code_cases s) as Ha.
  split; [reflexivity|].
  split; [destruct Hm as [[_ H]|[_ H]]; lia|].
  split; [|split].
  - destruct Hm as [[Hin H]|[Hn H]]; split; intros H'.
    + lia.
    + contradiction.
    + exact Hn.
    + exact H.
  - destruct Ha as [[_ H]|[_ H]]; lia.
  - intros Hn. destruct Ha as [[Hin _]|[_ H]]; [contradiction|exact H].
Qed.

Lemma encoded_frame_ranges_witness :
  exists frame,
    _encode_settings_to_frame unknown_strings = Ok frame /\
    nth 0 (byte_values frame) 0 = 9 /\
    nth 1 (byte_values frame) 0 = 0 /\
    nth 13 (byte_values frame) 0 = 3.
Proof.
  destruct (encoded_frame_ranges unknown_strings) as [Hex Hall].
  destruct (Hex eq_refl) as [frame Hf].
  destruct (Hall frame Hf) as (H0 & _ & H1 & _ & H13).
  exists frame. split; [exact Hf|]. split; [exact H0|]. split.
  - apply H1. vm_compute. intros H.
    repeat (destruct H as [H|H]; [discriminate H|]). exact H.
  - apply H13. vm_compute. intros H.
    repeat (destruct H as [H|H]; [discriminate H|]). exact H.
Defined.

(* ====================================================================== *)
(** ** The raw write and the send operation *)
(* ====================================================================== *)

(** C7: [write_bytes] never raises.  On a disconnected service it returns
    false, calls the driver not at all and logs the payload under TX-NC;
    on a connected one it calls the driver's write once, returns true and
    logs TX when that call returns, and returns false and logs TX-ERR and
    the error text when that call raises. *)
Theorem write_bytes_contract (device : nat -> io_outcome)
    (payload : list byte) (st : CommsService) :
  exists b st',
    write_bytes device payload st = (Ok b, st') /\
    (is_connected st = false ->
     b = false /\
     serial_io st' = serial_io st /\
     uart_log st' = (uart_log st ++ [LogFrame "TX-NC" payload])%list) /\
    (is_connected st = true ->
     serial_io st' = (serial_io st ++ [SerWrite payload])%list /\
     match device (List.length (serial_io st)) with
     | IoOk =>
         b = true /\
         uart_log st' = (uart_log st ++ [LogFrame "TX" payload])%list
     | IoRaises msg =>
         b = false /\
         uart_log st' =
           (uart_log st ++
            [LogFrame "TX-ERR" payload;
             LogText ("[WRITE] Error writing to " ++ port_str (_port st)
                      ++ ": " ++ msg)])%list
     end).
Proof.
  destruct (is_connected st) eqn:Hc.
  - rewrite (write_bytes_connected device payload st Hc).
    destruct (device (List.length (serial_io st))) as [|msg] eqn:Hd;
      eexists; eexists; (split; [reflexivity|]);
      (split; [intros H; discriminate H|]); intros _;
      cbn [serial_io uart_log with_log with_io];
      rewrite <- ?app_assoc; repeat split; reflexivity.
  - rewrite (write_bytes_disconnected device payload st Hc).
    eexists; eexists. split; [reflexivity|].
    split; [|intros H; discriminate H]. intros _.
    repeat split; reflexivity.
Qed.

Lemma write_bytes_contract_witness :
  write_bytes device_ok scenario_bytes fresh_service =
    (Ok false, with_log [LogFrame "TX-NC" scenario_bytes] fresh_service) /\
  fst (write_bytes device_ok scenario_bytes connected_service) = Ok true /\
  fst (write_bytes device_failing scenario_bytes connected_service) = Ok false.
Proof.
  split; [|split].
  - destruct (write_bytes_contract device_ok scenario_bytes fresh_service)
      as (b & st' & Hrun & Hoff & _).
    destruct (Hoff eq_refl) as (Hb & _ & _).
    rewrite Hrun. subst b. vm_compute in Hrun.
    inversion Hrun. reflexivity.
  - destruct (write_bytes_contract device_ok scenario_bytes connected_service)
      as (b & st' & Hrun & _ & Hon).
    destruct (Hon eq_refl) as (_ & Hb & _).
    rewrite Hrun. subst b. reflexivity.
  - destruct (write_bytes_contract device_failing scenario_bytes
                connected_service) as (b & st' & Hrun & _ & Hon).
    destruct (Hon eq_refl) as (_ & Hb & _).
    rewrite Hrun. subst b. reflexivity.
Defined.

(** C8: whatever the outcome, [send_parameters] leaves the record it was
    given as the last settings of the session: when the encoder raises,
    after the mock send of a disconnected service, which returns normally
    and calls the driver not at all, after a connected send whose write
    and flush succeed, and when the connected write fails, where it
    raises the runtime error whose text wraps the cause, the failed
    [write_bytes] (a failing flush is wrapped with the driver's text). *)
Theorem send_records_last_attempted (device : nat -> io_outcome)
    (settings : PacemakerSettings) (st : CommsService) :
  exists r st',
    send_parameters device settings st = (r, st') /\
    _last_sent_settings st' = Some settings /\
    (forall e, _encode_settings_to_frame settings = Raise e -> r = Raise e) /\
    forall frame,
      _encode_settings_to_frame settings = Ok frame ->
      (is_connected st = false ->
       r = Ok tt /\ serial_io st' = serial_io st) /\
      (is_connected st = true ->
       match device (List.length (serial_io st)) with
       | IoRaises _ =>
           r = Raise (RuntimeError
                        "Error writing parameters to serial port: write_bytes returned False.")
       | IoOk =>
           match device (S (List.length (serial_io st))) with
           | IoOk => r = Ok tt
           | IoRaises msg =>
               r = Raise (RuntimeError
                            ("Error writing parameters to serial port: "
                             ++ msg))
           end
       end).
Proof.
  destruct (_encode_settings_to_frame settings) as [frame|e] eqn:Henc.
  - destruct (is_connected st) eqn:Hc.
    + destruct (send_connected device settings st frame Henc Hc)
        as (st' & Hrun & Hlast & _).
      eexists. exists st'. split; [exact Hrun|]. split; [exact Hlast|].
      split; [intros e H; discriminate H|].
      intros frame' Hf. split; [intros H; discriminate H|]. intros _.
      destruct (device (List.length (serial_io st))) as [|msg];
        [destruct (device (S (List.length (serial_io st))))|]; reflexivity.
    + rewrite (send_disconnected device settings st frame Henc Hc).
      eexists. eexists. split; [reflexivity|]. split; [reflexivity|].
      split; [intros e H; discriminate H|].
      intros frame' Hf. split; [|intros H; discriminate H].
      intros _. split; reflexivity.
  - rewrite (send_encoder_raises device settings st e Henc).
    eexists. eexists. split; [reflexivity|]. split; [reflexivity|].
    split; [intros e' H; inversion H; reflexivity|].
    intros frame H. discriminate H.
Qed.

Lemma send_records_last_attempted_witness :
  (exists st',
     send_parameters device_ok scenario fresh_service = (Ok tt, st') /\
     _last_sent_settings st' = Some scenario) /\
  (exists st',
     send_parameters device_ok scenario connected_service = (Ok tt, st') /\
     _last_sent_settings st' = Some scenario) /\
  (exists st',
     send_parameters device_failing scenario connected_service =
       (Raise (RuntimeError
                 "Error writing parameters to serial port: write_bytes returned False."),
        st') /\
     _last_sent_settings st' = Some scenario).
Proof.
  split; [|split].
  - destruct (send_records_last_attempted device_ok scenario fresh_service)
      as (r & st' & Hrun & Hlast & _ & Hcases).
    destruct (Hcases scenario_bytes eq_refl) as [Hoff _].
    destruct (Hoff eq_refl) as [Hr _].
    exists st'. subst r. split; [exact Hrun|exact Hlast].
  - destruct (send_records_last_attempted device_ok scenario connected_service)
      as (r & st' & Hrun & Hlast & _ & Hcases).
    destruct (Hcases scenario_bytes eq_refl) as [_ Hon].
    pose proof (Hon eq_refl) as Hr. cbv beta iota delta [device_ok] in Hr.
    exists st'. subst r. split; [exact Hrun|exact Hlast].
  - destruct (send_records_last_attempted device_failing scenario
                connected_service) as (r & st' & Hrun & Hlast & _ & Hcases).
    destruct (Hcases scenario_bytes eq_refl) as [_ Hon].
    pose proof (Hon eq_refl) as Hr. cbv beta iota delta [device_failing] in Hr.
    exists st'. subst r. split; [exact Hrun|exact Hlast].
Defined.

(* ====================================================================== *)
(** ** Re-encoding a decoded record *)
(* ====================================================================== *)

Lemma byte_int_inj (a b : byte) : byte_int a = byte_int b -> a = b.
Proof.
  unfold byte_int. intros H. apply N2Z.inj in H.
  pose proof (Byte.of_to_N a) as Ha. pose proof (Byte.of_to_N b) as Hb.
  rewrite H in Ha. rewrite Ha in Hb. inversion Hb. reflexivity.
Qed.

Lemma byte_values_inj (f g : list byte) :
  byte_values f = byte_values g -> f = g.
Proof.
  unfold byte_values. revert g.
  induction f as [|a f IH]; intros [|b g] H; simpl in H;
    try discriminate H; [reflexivity|].
  inversion H as [[Hab Hfg]].
  rewrite (byte_int_inj a b Hab), (IH g Hfg). reflexivity.
Qed.


(** The mode code of a decoded record: the byte itself when it is a code
    of the table, the code of the fallback mode otherwise. *)
Lemma mode_code_decoded (mode0 : string) (b1 : Z) :
  dict_get String.eqb MODE_MAP (dict_get Z.eqb MODE_MAP_INV b1 mode0) 0 =
    if (1 <=? b1) && (b1 <=? 10) then b1
    else dict_get String.eqb MODE_MAP mode0 0.
Proof.
  destruct ((1 <=? b1) && (b1 <=? 10)) eqn:E.
  - apply andb_prop in E. destruct E as [E1 E2].
    apply Z.leb_le in E1. apply Z.leb_le in E2.
    assert (H : b1 = 1 \/ b1 = 2 \/ b1 = 3 \/ b1 = 4 \/ b1 = 5 \/ b1 = 6
                \/ b1 = 7 \/ b1 = 8 \/ b1 = 9 \/ b1 = 10) by lia.
    repeat (destruct H as [H|H]; [subst b1; reflexivity|]).
    subst b1; reflexivity.
  - rewrite (dict_get_not_In Z.eqb Z.eqb_eq); [reflexivity|].
    intros Hin. vm_compute in Hin.
    apply andb_false_iff in E.
    repeat (destruct Hin as [Hin|Hin];
            [subst b1; destruct E as [E|E]; discriminate E|]).
    contradiction.
Qed.

Lemma activity_code_decoded (b13 : Z) :
  dict_get String.eqb ACTIVITY_THRESH_MAP
    (dict_get Z.eqb ACTIVITY_THRESH_MAP_INV b13 "Med") 3 =
    if (0 <=? b13) && (b13 <=? 6) then b13 else 3.
Proof.
  destruct ((0 <=? b13) && (b13 <=? 6)) eqn:E.
  - apply andb_prop in E. destruct E as [E1 E2].
    apply Z.leb_le in E1. apply Z.leb_le in E2.
    assert (H : b13 = 0 \/ b13 = 1 \/ b13 = 2 \/ b13 = 3 \/ b13 = 4
                \/ b13 = 5 \/ b13 = 6) by lia.
    repeat (destruct H as [H|H]; [subst b13; reflexivity|]).
    subst b13; reflexivity.
  - rewrite (dict_get_not_In Z.eqb Z.eqb_eq); [reflexivity|].
    intros Hin. vm_compute in Hin.
    apply andb_false_iff in E.
    repeat (destruct Hin as [Hin|Hin];
            [subst b13; destruct E as [E|E]; discriminate E|]).
    contradiction.
Qed.

(** The frame of a decoded record, for byte values [b1 .. b14]. *)
Lemma encode_decoded (mode0 : string)
    (b1 b2 b3 b4 b5 b6 b7 b8 b9 b10 b11 b12 b13 b14 : Z) :
  Forall (fun v => 0 <= v <= 255)
    [b2; b3; b4; b5; b6; b7; b8; b9; b10; b11; b12; b14] ->
  exists frame,
    _encode_settings_to_frame
      (decoded mode0 b1 b2 b3 b4 b5 b6 b7 b8 b9 b10 b11 b12 b13 b14)
      = Ok frame /\
    byte_values frame =
      [ SYNC_BYTE;
        if (1 <=? b1) && (b1 <=? 10) then b1
        else dict_get String.eqb MODE_MAP mode0 0;
        b2; b3; b4; b5; b6; b7; b8; b9; b10; b11; b12;
        if (0 <=? b13) && (b13 <=? 6) then b13 else 3;
        b14 ].
Proof.
  intros Hall.
  repeat match goal with
         | H : Forall _ (_ :: _) |- _ =>
             let Hx := fresh "Hb" in
             let Hr := fresh "Hrest" in
             inversion H as [|? ? Hx Hr]; subst; clear H
         end.
  set (s := decoded mode0 b1 b2 b3 b4 b5 b6 b7 b8 b9 b10 b11 b12 b13 b14).
  destruct (encode_ok s b4 b6 b5 b7) as [frame [Hf Hvals]].
  - unfold rounded_aa, s, decoded, settings_of_wire. cbn [atrial_amplitude].
    rewrite decode_tenths. apply round_tenths. assumption.
  - unfold rounded_va, s, decoded, settings_of_wire.
    cbn [ventricular_amplitude].
    rewrite decode_tenths. apply round_tenths. assumption.
  - unfold rounded_apw, s, decoded, settings_of_wire.
    cbn [atrial_pulse_width]. apply round_of_int_byte. assumption.
  - unfold rounded_vpw, s, decoded, settings_of_wire.
    cbn [ventricular_pulse_width]. apply round_of_int_byte. assumption.
  - exists frame. split; [exact Hf|]. rewrite Hvals.
    unfold wire_values, mode_code, activity_code, s, decoded, settings_of_wire.
    cbn [mode activity_threshold lower_rate_limit upper_rate_limit
         atrial_refractory_period ventricular_refractory_period
         recovery_time reaction_time response_factor maximum_sensor_rate].
    rewrite mode_code_decoded, activity_code_decoded.
    rewrite !clamp_byte_id by assumption. reflexivity.
Qed.

(* ====================================================================== *)
(** ** The comparison loop *)
(* ====================================================================== *)

Lemma differing_fold (l d : PacemakerSettings) (fields : list string)
    (acc : list (string * pyval * pyval)) :
  fold_left
    (fun differing field =>
       match getattr l field, getattr d field with
       | Some a, Some b =>
           if py_ne a b then (differing ++ [(field, a, b)])%list
           else differing
       | _, _ => differing
       end)
    fields acc =
  (acc ++
   flat_map
     (fun field =>
        match getattr l field, getattr d field with
        | Some a, Some b => if py_ne a b then [(field, a, b)] else []
        | _, _ => []
        end)
     fields)%list.
Proof.
  revert acc. induction fields as [|f fields IH]; intros acc; simpl.
  - rewrite app_nil_r. reflexivity.
  - rewrite IH.
    destruct (getattr l f) as [a|]; [|reflexivity].
    destruct (getattr d f) as [b|]; [|reflexivity].
    destruct (py_ne a b); [|reflexivity].
    rewrite <- app_assoc. reflexivity.
Qed.

(** A name is reported exactly when it is in [FIELD_ORDER] and the two
    records differ on it. *)
Lemma differing_names_In (l d : PacemakerSettings) (name : string) :
  In name (differing_names l d) <->
  In name FIELD_ORDER /\
  exists a b, getattr l name = Some a /\ getattr d name = Some b /\
              py_ne a b = true.
Proof.
  unfold differing_names, differing_fields.
  rewrite differing_fold. cbn [app].
  rewrite in_map_iff. split.
  - intros [[[n a] b] [Hn Hin]]. cbn [fst] in Hn. subst n.
    apply in_flat_map in Hin. destruct Hin as [f [Hf Hin]].
    destruct (getattr l f) as [a'|] eqn:Ea; [|contradiction].
    destruct (getattr d f) as [b'|] eqn:Eb; [|contradiction].
    destruct (py_ne a' b') eqn:Ene; [|contradiction].
    destruct Hin as [Hin|[]]. inversion Hin; subst.
    split; [exact Hf|]. exists a, b. auto.
  - intros [Hf (a & b & Ea & Eb & Ene)].
    exists (name, a, b). split; [reflexivity|].
    apply in_flat_map. exists name. split; [exact Hf|].
    rewrite Ea, Eb, Ene. left; reflexivity.
Qed.

(** A finite float compares equal to itself. *)
Lemma float_eqb_refl (x : float) :
  PyFloat.is_finite x = true -> PyFloat.eqb x x = true.
Proof.
  destruct x as [sg|sg| |sg m e]; simpl; intros H; try discriminate H.
  - reflexivity.
  - unfold PyFloat.eqb, SFeqb, SFcompare.
    rewrite Z.compare_refl.
    assert (Hm : Pos.compare_cont Eq m m = Eq) by apply Pos.compare_refl.
    rewrite Hm. destruct sg; reflexivity.
Qed.

(* ====================================================================== *)
(** ** The validator's list of errors *)
(* ====================================================================== *)

Lemma require_nil (cond : bool) (msg : string) (errors : list string) :
  require cond msg errors = [] <-> cond = true /\ errors = [].
Proof.
  unfold require. destruct cond; cbn [negb].
  - split; [intros H; split; [reflexivity|exact H]|intros [_ H]; exact H].
  - split.
    + intros H. destruct errors; discriminate H.
    + intros [H _]. discriminate H.
Qed.

Lemma between_leb (lo hi x : Z) :
  (lo <=? x) && (x <=? hi) = true <-> lo <= x <= hi.
Proof.
  rewrite andb_true_iff, !Z.leb_le. tauto.
Qed.

Lemma activity_listed (a : string) :
  existsb (String.eqb a)
    ["V-Low"; "Low"; "Med-Low"; "Med"; "Med-High"; "High"; "V-High"] = true
  <-> In a (map fst ACTIVITY_THRESH_MAP).
Proof.
  rewrite existsb_exists. cbn [map fst ACTIVITY_THRESH_MAP]. split.
  - intros [x [Hin Heq]]. apply String.eqb_eq in Heq. subst x. exact Hin.
  - intros Hin. exists a. split; [exact Hin|apply String.eqb_refl].
Qed.

Lemma validate_errors_nil (s : PacemakerSettings) :
  snd (validate_settings s) = [] <-> within_bounds s.
Proof.
  unfold validate_settings, within_bounds, float_between.
  cbv zeta. cbn [snd require_floats require_ints fold_left fst].
  rewrite !require_nil, !between_leb, !andb_true_iff, activity_listed.
  tauto.
Qed.

(* ====================================================================== *)
(** ** A product that cannot overflow *)
(* ====================================================================== *)

Lemma digits2_pos_size (p : positive) : digits2_pos p = Pos.size p.
Proof. induction p as [p IH|p IH|]; simpl; rewrite ?IH; reflexivity. Qed.

Lemma Zdigits2_nonneg (z : Z) : 0 <= Zdigits2 z.
Proof. destruct z; simpl; lia. Qed.

(** A non-negative number below [2^k] has at most [k] binary digits. *)
Lemma Zdigits2_le (z k : Z) : 0 <= z -> 0 <= k -> z < 2 ^ k -> Zdigits2 z <= k.
Proof.
  intros Hz Hk Hlt. destruct z as [|p|p]; simpl; [lia| |lia].
  rewrite digits2_pos_size.
  destruct (Z_le_gt_dec (Zpos (Pos.size p)) k) as [Hle|Hgt]; [exact Hle|].
  exfalso.
  pose proof (Pos.size_le p) as Hs.
  apply Pos2Z.pos_le_pos in Hs. rewrite Pos2Z.inj_pow in Hs.
  change (Zpos p~0) with (2 * Zpos p) in Hs.
  assert (Hpow : 2 ^ (k + 1) <= 2 ^ Zpos (Pos.size p))
    by (apply Z.pow_le_mono_r; lia).
  rewrite Z.pow_add_r in Hpow by lia. lia.
Qed.

Lemma Zdigits2_gt (z : Z) : 0 <= z -> z < 2 ^ Zdigits2 z.
Proof.
  intros Hz. destruct z as [|p|p]; simpl; [lia| |lia].
  rewrite digits2_pos_size.
  pose proof (Pos.size_gt p) as Hs.
  apply Pos2Z.pos_lt_pos in Hs. rewrite Pos2Z.inj_pow in Hs. exact Hs.
Qed.

Lemma Zdigits2_mono (a b : Z) : 0 <= a <= b -> Zdigits2 a <= Zdigits2 b.
Proof.
  intros [Ha Hab]. apply Zdigits2_le; [exact Ha|apply Zdigits2_nonneg|].
  pose proof (Zdigits2_gt b). lia.
Qed.

Lemma Zdigits2_succ (a : Z) : 0 <= a -> Zdigits2 (a + 1) <= Zdigits2 a + 1.
Proof.
  intros Ha. pose proof (Zdigits2_nonneg a) as Hd.
  apply Zdigits2_le; [lia|lia|].
  rewrite Z.pow_add_r by lia. pose proof (Zdigits2_gt a Ha). lia.
Qed.

Lemma Zdigits2_mul (a b : positive) :
  Zdigits2 (Zpos (a * b)) <= Zdigits2 (Zpos a) + Zdigits2 (Zpos b).
Proof.
  pose proof (Zdigits2_nonneg (Zpos a)) as Hda.
  pose proof (Zdigits2_nonneg (Zpos b)) as Hdb.
  apply Zdigits2_le; [lia|lia|].
  rewrite Z.pow_add_r by lia. rewrite Pos2Z.inj_mul.
  pose proof (Zdigits2_gt (Zpos a)). pose proof (Zdigits2_gt (Zpos b)).
  apply Z.mul_lt_mono_nonneg; lia.
Qed.

(** Shifting right keeps a mantissa between 0 and what it was. *)
Lemma shr_1_bounds (mrs : shr_record) :
  0 <= shr_m mrs -> 0 <= shr_m (shr_1 mrs) <= shr_m mrs.
Proof.
  destruct mrs as [m r s]. cbn [shr_m]. intros Hm.
  destruct m as [|p|p]; [simpl; lia| |lia].
  destruct p as [p|p|]; cbn [shr_1 shr_m]; lia.
Qed.

Lemma iter_shr_1_bounds (p : positive) (mrs : shr_record) :
  0 <= shr_m mrs -> 0 <= shr_m (iter_pos shr_1 p mrs) <= shr_m mrs.
Proof.
  revert mrs. induction p as [p IH|p IH|]; intros mrs Hm; cbn [iter_pos].
  - pose proof (shr_1_bounds mrs Hm) as H1.
    pose proof (IH (shr_1 mrs) (proj1 H1)) as H2.
    pose proof (IH _ (proj1 H2)) as H3. lia.
  - pose proof (IH mrs Hm) as H2.
    pose proof (IH _ (proj1 H2)) as H3. lia.
  - apply shr_1_bounds, Hm.
Qed.

Lemma shr_fexp_bounds (m e : Z) (l : location) :
  0 <= m ->
  0 <= shr_m (fst (shr_fexp PyFloat.prec PyFloat.emax m e l)) <= m /\
  snd (shr_fexp PyFloat.prec PyFloat.emax m e l) =
    Z.max e (fexp PyFloat.prec PyFloat.emax (Zdigits2 m + e)).
Proof.
  intros Hm. unfold shr_fexp, shr.
  assert (Hrec : shr_m (shr_record_of_loc m l) = m)
    by (destruct l as [|[| |]]; reflexivity).
  destruct (fexp PyFloat.prec PyFloat.emax (Zdigits2 m + e) - e)
    as [|n|n] eqn:En; cbn [fst snd].
  - rewrite Hrec. lia.
  - pose proof (iter_shr_1_bounds n (shr_record_of_loc m l)) as H.
    rewrite Hrec in H. split; [apply H, Hm|lia].
  - rewrite Hrec. lia.
Qed.

(** Rounding a positive mantissa of at most 200 digits at an exponent
    that is not positive gives a finite float. *)
Lemma binary_round_aux_finite (sx : bool) (mx ex : Z) (lx : location) :
  0 < mx -> Zdigits2 mx <= 200 -> ex <= 0 ->
  PyFloat.is_finite (binary_round_aux PyFloat.prec PyFloat.emax sx mx ex lx)
    = true.
Proof.
  intros Hpos Hdig Hex. unfold binary_round_aux.
  pose proof (shr_fexp_bounds mx ex lx (Z.lt_le_incl _ _ Hpos)) as [Hm1 He1].
  destruct (shr_fexp PyFloat.prec PyFloat.emax mx ex lx) as [mrs1 e1].
  cbn [fst snd] in Hm1, He1.
  set (m1 := round_nearest_even (shr_m mrs1) (loc_of_shr_record mrs1)).
  assert (Hm1' : 0 <= m1 <= mx + 1).
  { unfold m1, round_nearest_even.
    destruct (loc_of_shr_record mrs1) as [|[| |]]; try lia.
    destruct (Z.even (shr_m mrs1)); lia. }
  pose proof (shr_fexp_bounds m1 e1 loc_Exact (proj1 Hm1')) as [Hm2 He2].
  destruct (shr_fexp PyFloat.prec PyFloat.emax m1 e1 loc_Exact) as [mrs2 e2].
  cbn [fst snd] in Hm2, He2.
  assert (Hd1 : Zdigits2 m1 <= 201).
  { pose proof (Zdigits2_mono m1 (mx + 1) Hm1').
    pose proof (Zdigits2_succ mx (Z.lt_le_incl _ _ Hpos)). lia. }
  pose proof (Zdigits2_nonneg mx) as Hd0.
  pose proof (Zdigits2_nonneg m1) as Hd1'.
  unfold fexp, emin, PyFloat.prec, PyFloat.emax in He1, He2.
  destruct (shr_m mrs2) as [|p|p] eqn:Em; [reflexivity| |lia].
  replace (e2 <=? PyFloat.emax - PyFloat.prec) with true; [reflexivity|].
  symmetry. apply Z.leb_le. unfold PyFloat.emax, PyFloat.prec. lia.
Qed.

(** Ten times a double between 0.1 and 7.0 is finite. *)
Lemma mul_ten_finite (x : float) :
  valid_double x ->
  float_between (PyFloat.decimal 1 1) (PyFloat.of_int 7) x ->
  PyFloat.is_finite (PyFloat.mul x PyFloat.ten) = true.
Proof.
  unfold valid_double, float_between. intros Hvalid [Hlo Hhi].
  destruct x as [sg|sg| |sg m e]; try reflexivity.
  - destruct sg; [vm_compute in Hlo; discriminate Hlo
                 |vm_compute in Hhi; discriminate Hhi].
  - vm_compute in Hlo. discriminate Hlo.
  - destruct sg; [vm_compute in Hlo; discriminate Hlo|].
    assert (He : e <= -50).
    { change (PyFloat.of_int 7)
        with (S754_finite false 7881299347898368 (-50)) in Hhi.
      unfold PyFloat.leb, SFleb, SFcompare in Hhi.
      destruct (e ?= -50) eqn:Ec; try discriminate Hhi.
      - pose proof (Z.compare_eq _ _ Ec). lia.
      - pose proof (proj1 (Z.compare_lt_iff _ _) Ec). lia. }
    assert (Hd : Zdigits2 (Zpos m) <= 53).
    { cbn [valid_binary] in Hvalid. unfold bounded in Hvalid.
      apply andb_prop in Hvalid. destruct Hvalid as [Hc _].
      unfold canonical_mantissa in Hc. apply Z.eqb_eq in Hc.
      unfold fexp, emin, PyFloat.prec, PyFloat.emax in Hc.
      cbn [Zdigits2]. lia. }
    change PyFloat.ten with (S754_finite false 5629499534213120 (-49)).
    unfold PyFloat.mul, SFmul. cbn [xorb].
    apply binary_round_aux_finite; [lia| |lia].
    pose proof (Zdigits2_mul m 5629499534213120) as Hmul.
    change (Zdigits2 (Zpos 5629499534213120)) with 53 in Hmul. lia.
Qed.

(** A float between two finite bounds is finite. *)
Lemma between_finite (lo hi x : float) :
  PyFloat.is_finite lo = true -> PyFloat.is_finite hi = true ->
  float_between lo hi x -> PyFloat.is_finite x = true.
Proof.
  unfold float_between, PyFloat.leb, SFleb. intros Hl Hh [Hlo Hhi].
  destruct x as [sg|sg| |sg m e]; try reflexivity.
  - destruct sg.
    + destruct lo as [?|?| |? ? ?]; try discriminate Hl;
        cbn in Hlo; discriminate Hlo.
    + destruct hi as [?|?| |? ? ?]; try discriminate Hh;
        cbn in Hhi; discriminate Hhi.
  - destruct lo; cbn in Hlo; discriminate Hlo.
Qed.

(* ====================================================================== *)
(** ** Reading from the port *)
(* ====================================================================== *)

(** The log entries a read adds: the frame under RX when bytes came, the
    error text when the port raised, nothing for an empty read. *)
Lemma read_bytes_run (port : nat -> port_reply) (size : Z) (t : Transport) :
  no_connection t = false ->
  read_bytes port size t =
    match port (List.length (port_io t)) with
    | Returns [] => (Ok [], with_port_io (port_io t ++ [PortRead size]) t)
    | Returns (b :: data) =>
        (Ok (b :: data),
         with_service
           (with_log (uart_log (service t) ++ [LogFrame "RX" (b :: data)])
              (service t))
           (with_port_io (port_io t ++ [PortRead size]) t))
    | Fails msg =>
        (Ok [],
         with_service
           (with_log
              (uart_log (service t) ++
               [LogText ("[READ] Error reading from "
                         ++ port_str (_port (service t)) ++ ": " ++ msg)])
              (service t))
           (with_port_io (port_io t ++ [PortRead size]) t))
    end.
Proof.
  intros Hon. unfold read_bytes, tbind, tgets. rewrite Hon.
  unfold ttry, tbind, port_do.
  destruct (port (List.length (port_io t))) as [[|b data]|msg]; reflexivity.
Qed.

Lemma read_bytes_off (port : nat -> port_reply) (size : Z) (t : Transport) :
  no_connection t = true -> read_bytes port size t = (Ok [], t).
Proof.
  intros Hoff. unfold read_bytes, tbind, tgets. rewrite Hoff. reflexivity.
Qed.

(** Reading changes neither the connection nor the last settings. *)
Lemma read_bytes_keeps (port : nat -> port_reply) (size : Z) (t : Transport) :
  no_connection (snd (read_bytes port size t)) = no_connection t /\
  _last_sent_settings (service (snd (read_bytes port size t))) =
    _last_sent_settings (service t) /\
  clock_reads (snd (read_bytes port size t)) = clock_reads t.
Proof.
  destruct (no_connection t) eqn:Hoff.
  - rewrite (read_bytes_off port size t Hoff). cbn [snd]. auto.
  - rewrite (read_bytes_run port size t Hoff).
    destruct (port (List.length (port_io t))) as [[|b data]|msg];
      cbn [snd]; repeat split; exact Hoff.
Qed.

Lemma bytes_eqb_eq (a b : list byte) : bytes_eqb a b = true <-> a = b.
Proof.
  revert b. induction a as [|x a IH]; intros [|y b]; simpl;
    try (split; [intros H; discriminate H|intros H; discriminate H]).
  - split; reflexivity.
  - rewrite andb_true_iff, IH. split.
    + intros [Hxy Hab]. apply Byte.byte_dec_bl in Hxy. subst. reflexivity.
    + intros H. inversion H; subst. split; [|reflexivity].
      apply Byte.byte_dec_lb. reflexivity.
Qed.

Lemma differs_iff (l d : PacemakerSettings) (name : string) (a b : pyval) :
  In name FIELD_ORDER ->
  getattr l name = Some a -> getattr d name = Some b ->
  (In name (differing_names l d) <-> py_ne a b = true).
Proof.
  intros Hin Ha Hb. rewrite differing_names_In. split.
  - intros [_ (a' & b' & Ha' & Hb' & Hne)]. congruence.
  - intros Hne. split; [exact Hin|]. exists a, b. auto.
Qed.

Lemma int_ne_clamp (x : Z) :
  py_ne (VInt x) (VInt (clamp_byte x)) = true <-> ~ 0 <= x <= 255.
Proof.
  cbn [py_ne]. rewrite negb_true_iff, Z.eqb_neq. unfold clamp_byte. lia.
Qed.

Lemma no_differing_names (l d : PacemakerSettings) :
  (forall name, In name FIELD_ORDER -> ~ In name (differing_names l d)) ->
  differing_fields l d = [].
Proof.
  intros H. destruct (differing_fields l d) as [|[[n a] b] rest] eqn:E;
    [reflexivity|].
  exfalso.
  assert (Hin : In n (differing_names l d)).
  { unfold differing_names. rewrite E. left. reflexivity. }
  apply (H n); [|exact Hin].
  exact (proj1 (proj1 (differing_names_In l d n) Hin)).
Qed.


Lemma read_parameters_full (port : nat -> port_reply) (mode0 : string)
    (t : Transport) (raw : list byte) :
  no_connection t = false ->
  port (List.length (port_io t)) = Returns raw ->
  List.length raw = 15%nat ->
  exists b0 b1 b2 b3 b4 b5 b6 b7 b8 b9 b10 b11 b12 b13 b14 t',
    byte_values raw =
      [b0; b1; b2; b3; b4; b5; b6; b7; b8; b9; b10; b11; b12; b13; b14] /\
    read_parameters port mode0 t =
      (Ok (Some (decoded mode0 b1 b2 b3 b4 b5 b6 b7 b8 b9 b10 b11 b12 b13 b14)),
       t') /\
    port_io t' = (port_io t ++ [PortRead 15])%list /\
    In (LogFrame "RX" raw) (uart_log (service t')).
Proof.
  intros Hon Hport Hlen.
  unfold read_parameters, tbind, tgets. rewrite Hon.
  rewrite (read_bytes_run port _ t Hon), Hport.
  destruct raw as [|b raw']; [discriminate Hlen|].
  change PACKET_LEN with 15%nat. rewrite Hlen. cbn [Nat.eqb negb].
  unfold on_service at 1.
  cbn [service with_service with_port_io].
  set (st1 := with_log _ (service t)).
  destruct (decode_length_15 mode0 (b :: raw') st1 Hlen)
    as (b0 & b1 & b2 & b3 & b4 & b5 & b6 & b7 & b8 & b9 & b10 & b11 & b12
        & b13 & b14 & Hvals & Hrun).
  rewrite Hrun.
  exists b0, b1, b2, b3, b4, b5, b6, b7, b8, b9, b10, b11, b12, b13, b14.
  eexists. split; [exact Hvals|].
  unfold on_service, _log_fields, modify, tret.
  cbn [service with_service with_port_io].
  split; [reflexivity|].
  cbn [service with_service with_port_io with_log uart_log port_io].
  split; [reflexivity|].
  apply in_or_app. left.
  unfold after_decode. destruct (b0 =? SYNC_BYTE);
    cbn [uart_log with_log]; unfold st1; cbn [uart_log with_log];
    repeat (apply in_or_app; first [right; left; reflexivity | left]).
Qed.

(** The doubles of the tenths and of the whole numbers on the byte
    values compare equal to themselves. *)
Lemma tenths_eqb_refl (k : Z) :
  0 <= k <= 255 ->
  PyFloat.eqb (PyFloat.decimal k 1) (PyFloat.decimal k 1) = true.
Proof.
  intros Hk.
  apply (all_bytes_spec
           (fun n => PyFloat.eqb (PyFloat.decimal n 1) (PyFloat.decimal n 1)));
    [vm_compute; reflexivity|exact Hk].
Qed.

Lemma of_int_eqb_refl (p : Z) :
  0 <= p <= 255 ->
  PyFloat.eqb (PyFloat.of_int p) (PyFloat.of_int p) = true.
Proof.
  intros Hp.
  apply (all_bytes_spec
           (fun n => PyFloat.eqb (PyFloat.of_int n) (PyFloat.of_int n)));
    [vm_compute; reflexivity|exact Hp].
Qed.

(** The record decoded from the frame of a record in range, its pulse
    widths whole milliseconds, differs from it on no field of the wire
    subset. *)
Lemma echo_in_range_no_difference (s : PacemakerSettings)
    (aa va apw vpw : Z) :
  wire_in_range pulse_width_whole_ms s ->
  rounded_aa s = Ok aa -> rounded_va s = Ok va ->
  rounded_apw s = Ok apw -> rounded_vpw s = Ok vpw ->
  differing_fields s
    (decoded (mode s) (mode_code s)
       (clamp_byte (lower_rate_limit s)) (clamp_byte (upper_rate_limit s))
       (clamp_byte aa) (clamp_byte apw) (clamp_byte va) (clamp_byte vpw)
       (clamp_byte (atrial_refractory_period s))
       (clamp_byte (ventricular_refractory_period s))
       (clamp_byte (recovery_time s)) (clamp_byte (reaction_time s))
       (clamp_byte (response_factor s)) (activity_code s)
       (clamp_byte (maximum_sensor_rate s))) = [].
Proof.
  unfold wire_in_range, byte_range, pulse_width_whole_ms.
  intros (Hmode & Hact & Hlrl & Hurl & Harp & Hvrp & Hrec & Hrea & Hresp
          & Hmsr & [ka [Hka Haa]] & [kv [Hkv Hva]] & [pa [Hpa Hapw]]
          & [pv [Hpv Hvpw]]) Raa Rva Rapw Rvpw.
  unfold rounded_aa in Raa. rewrite Haa, (round_tenths ka Hka) in Raa.
  unfold rounded_va in Rva. rewrite Hva, (round_tenths kv Hkv) in Rva.
  unfold rounded_apw in Rapw. rewrite Hapw, (round_of_int_byte pa Hpa) in Rapw.
  unfold rounded_vpw in Rvpw. rewrite Hvpw, (round_of_int_byte pv Hpv) in Rvpw.
  inversion Raa; inversion Rva; inversion Rapw; inversion Rvpw; subst.
  rewrite !clamp_byte_id by assumption.
  set (s' := decoded _ _ _ _ _ _ _ _ _ _ _ _ _ _ _).
  apply no_differing_names. intros name Hin.
  assert (Hno : forall a b,
             getattr s name = Some a -> getattr s' name = Some b ->
             py_ne a b = false -> ~ In name (differing_names s s')).
  { intros a b Ha Hb Hne Hd.
    apply (proj1 (differs_iff s s' name a b Hin Ha Hb)) in Hd. congruence. }
  cbn [FIELD_ORDER In] in Hin.
  repeat (destruct Hin as [Hin|Hin];
          [subst name; eapply Hno; [reflexivity|reflexivity|]|]);
    [ | | | | | | | | | | | | | |contradiction];
    unfold s', decoded, settings_of_wire;
    cbn [mode lower_rate_limit upper_rate_limit atrial_amplitude
         ventricular_amplitude atrial_refractory_period
         ventricular_refractory_period recovery_time reaction_time
         response_factor activity_threshold maximum_sensor_rate
         atrial_pulse_width ventricular_pulse_width py_ne];
    rewrite ?Haa, ?Hva, ?Hapw, ?Hvpw, ?decode_tenths;
    apply negb_false_iff;
    first [ apply Z.eqb_refl
          | rewrite mode_roundtrip; apply String.eqb_refl
          | fold (activity_code s); rewrite (activity_roundtrip s Hact);
            apply String.eqb_refl
          | apply tenths_eqb_refl; assumption
          | apply of_int_eqb_refl; assumption ].
Qed.

(* ====================================================================== *)
(** ** Calls into the port *)
(* ====================================================================== *)

Lemma length_snoc {A : Type} (l : list A) (x : A) :
  List.length (l ++ [x]) = S (List.length l).
Proof. rewrite length_app. simpl. apply Nat.add_1_r. Qed.

Lemma port_do_run (port : nat -> port_reply) (c : port_call) (t : Transport) :
  port_do port c t =
    (match port (List.length (port_io t)) with
     | Returns data => Ok data
     | Fails msg => Raise (SerialException msg)
     end,
     with_port_io (port_io t ++ [c]) t).
Proof.
  unfold port_do. destruct (port (List.length (port_io t))); reflexivity.
Qed.

(** Unfolds the monadic plumbing of the transport methods. *)
Ltac tsimpl :=
  unfold tbind, ttry, tgets, tmodify, tret, traise, log_text, log_frame,
    on_service, _log_text, _log_frame, modify;
  cbn [fst snd service port_io uart_log clock_reads _port _ser _is_connected
       _last_sent_settings serial_io _baudrate _egram_running _egram_thread
       with_service with_port_io with_log with_clock_reads with_baudrate
       with_egram with_connection].

(* ====================================================================== *)
(** ** The polling loop *)
(* ====================================================================== *)

(** A read that returns bytes was answered with them by the port. *)
Lemma read_bytes_nonempty (port : nat -> port_reply) (size : Z)
    (t t' : Transport) (data : list byte) :
  read_bytes port size t = (Ok data, t') ->
  data <> [] ->
  port (List.length (port_io t)) = Returns data /\
  port_io t' = (port_io t ++ [PortRead size])%list.
Proof.
  intros Hrun Hne.
  destruct (no_connection t) eqn:Hoff.
  - rewrite (read_bytes_off port size t Hoff) in Hrun.
    inversion Hrun; subst. contradiction.
  - rewrite (read_bytes_run port size t Hoff) in Hrun.
    destruct (port (List.length (port_io t))) as [[|b d]|msg];
      inversion Hrun; subst; try contradiction.
    split; reflexivity.
Qed.

(** A read never raises and only appends to the calls made. *)
Lemma read_bytes_extends (port : nat -> port_reply) (size : Z) (t : Transport) :
  exists data t' ext,
    read_bytes port size t = (Ok data, t') /\
    port_io t' = (port_io t ++ ext)%list.
Proof.
  destruct (no_connection t) eqn:Hoff.
  - rewrite (read_bytes_off port size t Hoff).
    exists [], t, []. rewrite app_nil_r. split; reflexivity.
  - rewrite (read_bytes_run port size t Hoff).
    destruct (port (List.length (port_io t))) as [[|b d]|msg];
      eexists; eexists; exists [PortRead size]; split; reflexivity.
Qed.

Lemma sleep_run (secs : float) (t t' : Transport) (r : result unit) :
  sleep secs t = (r, t') -> t' = t.
Proof.
  unfold sleep.
  destruct secs as [sg|[|]| |[|] m e]; unfold tret, traise;
    intros H; inversion H; reflexivity.
Qed.

(** The loop answers true only after a read of 15 bytes that the port
    answered with the test frame itself. *)
Lemma poll_loop_true (port : nat -> port_reply) (clock : nat -> float)
    (test_frame : list byte) (end_time poll_interval : float) (fuel : nat) :
  forall (last_rx : option (list byte)) (t t' : Transport) (msg : string),
    poll_loop port clock fuel test_frame end_time poll_interval last_rx t =
      (Ok (Some (true, msg)), t') ->
    msg = "Roundtrip OK. Got back: " ++ hex_bytes test_frame /\
    exists pre,
      port_io t' = (port_io t ++ pre ++ [PortRead 15])%list /\
      port (List.length (port_io t ++ pre)) = Returns test_frame.
Proof.
  induction fuel as [|fuel IH]; intros last_rx t t' msg Hrun.
  - simpl in Hrun. unfold tret in Hrun. inversion Hrun.
  - cbn [poll_loop] in Hrun. unfold tbind at 1 in Hrun.
    unfold time_time at 1 in Hrun.
    destruct (SFltb (clock (clock_reads t)) end_time).
    + unfold tbind at 1 in Hrun.
      set (t1 := with_clock_reads (S (clock_reads t)) t) in Hrun.
      destruct (read_bytes port (Z.of_nat PACKET_LEN) t1)
        as [[data|e] t2] eqn:Hread; [|inversion Hrun].
      destruct (read_bytes_extends port (Z.of_nat PACKET_LEN) t1)
        as (data' & t2' & ext & Hread' & Hext).
      rewrite Hread in Hread'. inversion Hread'; subst data' t2'.
      change (port_io t1) with (port_io t) in Hext.
      destruct (Nat.eqb (List.length data) 0) eqn:Hempty.
      * unfold tbind at 1 in Hrun.
        destruct (sleep poll_interval t2) as [[u|e] t3] eqn:Hs;
          [|inversion Hrun].
        apply sleep_run in Hs. subst t3.
        destruct (IH _ _ _ _ Hrun) as [Hmsg [pre [Hio Hp]]].
        split; [exact Hmsg|]. exists (ext ++ pre)%list.
        rewrite Hext in Hio, Hp.
        rewrite <- ?app_assoc in Hio, Hp. rewrite <- ?app_assoc.
        split; assumption.
      * assert (Hne : data <> []).
        { intros E. subst data. discriminate Hempty. }
        destruct (read_bytes_nonempty port _ t1 t2 data Hread Hne)
          as [Hp Hio].
        change (port_io t1) with (port_io t) in Hp, Hio.
        destruct (bytes_eqb data test_frame) eqn:Heq.
        -- apply bytes_eqb_eq in Heq. subst data.
           revert Hrun. tsimpl. intros Hrun. inversion Hrun; subst.
           split; [reflexivity|]. exists [].
           cbn [port_io with_service]. rewrite app_nil_r.
           split; [exact Hio|exact Hp].
        -- revert Hrun. unfold tbind at 1. unfold log_text at 1.
           unfold on_service at 1.
           cbn [_log_text modify]. unfold tbind at 1.
           match goal with
           | |- context [sleep poll_interval ?x] =>
               destruct (sleep poll_interval x) as [[u|e] t3] eqn:Hs
           end; [|intros Hrun; inversion Hrun].
           apply sleep_run in Hs. subst t3. intros Hrun.
           destruct (IH _ _ _ _ Hrun) as [Hmsg [pre [Hio' Hp']]].
           split; [exact Hmsg|]. exists ([PortRead 15] ++ pre)%list.
           cbn [port_io with_service] in Hio', Hp'.
           rewrite Hio in Hio', Hp'.
           rewrite <- ?app_assoc in Hio', Hp'. rewrite <- ?app_assoc.
           split; assumption.
    + revert Hrun. tsimpl. intros Hrun. inversion Hrun.
Qed.

(** The loopback test up to its polling loop. *)
Lemma loopback_prelude (port : nat -> port_reply) (clock : nat -> float)
    (fuel : nat) (test_frame : list byte) (timeout poll_interval : float)
    (t : Transport) :
  no_connection t = false ->
  List.length test_frame = 15%nat ->
  debug_roundtrip_test port clock fuel test_frame timeout poll_interval t =
    let n := List.length (port_io t) in
    let p := port_str (_port (service t)) in
    match port n with
    | Fails e =>
        let msg := "Error resetting buffers on " ++ p ++ ": " ++ e in
        (Ok (Some (false, msg)),
         loopback_failed false test_frame msg [PortResetInput] t)
    | Returns _ =>
        match port (S n) with
        | Fails e =>
            let msg := "Error resetting buffers on " ++ p ++ ": " ++ e in
            (Ok (Some (false, msg)),
             loopback_failed false test_frame msg
               [PortResetInput; PortResetOutput] t)
        | Returns _ =>
            match port (S (S n)) with
            | Fails e =>
                let msg := "Error writing test frame to " ++ p ++ ": " ++ e in
                (Ok (Some (false, msg)),
                 loopback_failed true test_frame msg
                   [PortResetInput; PortResetOutput; PortWrite test_frame] t)
            | Returns _ =>
                match port (S (S (S n))) with
                | Fails e =>
                    let msg := "Error writing test frame to " ++ p ++ ": "
                               ++ e in
                    (Ok (Some (false, msg)),
                     loopback_failed true test_frame msg
                       [PortResetInput; PortResetOutput;
                        PortWrite test_frame; PortFlush] t)
                | Returns _ =>
                    poll_loop port clock fuel test_frame
                      (SFadd PyFloat.prec PyFloat.emax
                         (clock (clock_reads t)) timeout)
                      poll_interval None (loopback_started test_frame t)
                end
            end
        end
    end.
Proof.
  intros Hon Hlen.
  unfold debug_roundtrip_test. unfold tbind at 1. unfold tgets at 1.
  rewrite Hon. change PACKET_LEN with 15%nat. rewrite Hlen.
  cbn [Nat.eqb negb]. cbv zeta.
  unfold loopback_failed, loopback_started.
  destruct t as [svc br run th io c]. destruct svc as [ser pt conn last lg sio].
  unfold port_do, time_time. tsimpl.
  destruct (port (List.length io)) as [d0|e0];
    [|tsimpl; rewrite <- ?app_assoc; reflexivity].
  tsimpl. rewrite ?length_snoc.
  destruct (port (S (List.length io))) as [d1|e1];
    [|tsimpl; rewrite <- ?app_assoc; reflexivity].
  tsimpl. rewrite ?length_snoc.
  destruct (port (S (S (List.length io)))) as [d2|e2];
    [|tsimpl; rewrite <- ?app_assoc; reflexivity].
  tsimpl. rewrite ?length_snoc.
  destruct (port (S (S (S (List.length io))))) as [d3|e3];
    [|tsimpl; rewrite <- ?app_assoc; reflexivity].
  tsimpl. rewrite <- ?app_assoc. reflexivity.
Qed.

(** The loopback test when the port answers its first four calls. *)
Lemma loopback_prelude_ok (port : nat -> port_reply) (clock : nat -> float)
    (fuel : nat) (test_frame : list byte) (timeout poll_interval : float)
    (t : Transport) :
  no_connection t = false ->
  List.length test_frame = 15%nat ->
  port_answers port (List.length (port_io t)) 4 ->
  debug_roundtrip_test port clock fuel test_frame timeout poll_interval t =
    poll_loop port clock fuel test_frame
      (SFadd PyFloat.prec PyFloat.emax (clock (clock_reads t)) timeout)
      poll_interval None (loopback_started test_frame t).
Proof.
  intros Hon Hlen Hans.
  rewrite (loopback_prelude port clock fuel test_frame timeout poll_interval
             t Hon Hlen).
  cbv zeta.
  destruct (Hans 0%nat ltac:(lia)) as [d0 H0].
  destruct (Hans 1%nat ltac:(lia)) as [d1 H1].
  destruct (Hans 2%nat ltac:(lia)) as [d2 H2].
  destruct (Hans 3%nat ltac:(lia)) as [d3 H3].
  rewrite Nat.add_0_r in H0.
  replace (List.length (port_io t) + 1)%nat
    with (S (List.length (port_io t))) in H1 by lia.
  replace (List.length (port_io t) + 2)%nat
    with (S (S (List.length (port_io t)))) in H2 by lia.
  replace (List.length (port_io t) + 3)%nat
    with (S (S (S (List.length (port_io t))))) in H3 by lia.
  rewrite H0, H1, H2, H3. reflexivity.
Qed.





(** Adding NaN gives NaN, and nothing is before NaN. *)
Lemma nan_timeout_expired (now start : float) :
  SFltb now (SFadd PyFloat.prec PyFloat.emax start S754_nan) = false.
Proof.
  assert (E : SFadd PyFloat.prec PyFloat.emax start S754_nan = S754_nan).
  { destruct start as [sg|sg| |sg m e]; reflexivity. }
  rewrite E. destruct now as [sg|sg| |sg m e]; reflexivity.
Qed.

(** The loop only appends to the calls made on the port. *)
Lemma poll_loop_extends (port : nat -> port_reply) (clock : nat -> float)
    (test_frame : list byte) (end_time poll_interval : float) (fuel : nat) :
  forall (last_rx : option (list byte)) (t : Transport),
    exists calls,
      port_io (snd (poll_loop port clock fuel test_frame end_time
                      poll_interval last_rx t))
        = (port_io t ++ calls)%list.
Proof.
  induction fuel as [|fuel IH]; intros last_rx t.
  - exists []. rewrite app_nil_r. reflexivity.
  - cbn [poll_loop]. unfold tbind at 1. unfold time_time at 1.
    destruct (SFltb (clock (clock_reads t)) end_time).
    + unfold tbind at 1.
      set (t1 := with_clock_reads (S (clock_reads t)) t).
      destruct (read_bytes_extends port (Z.of_nat PACKET_LEN) t1)
        as (data & t2 & ext & Hread & Hext).
      change (port_io t1) with (port_io t) in Hext.
      rewrite Hread.
      destruct (Nat.eqb (List.length data) 0).
      * unfold tbind at 1.
        destruct (sleep poll_interval t2) as [[u|e] t3] eqn:Hs;
          apply sleep_run in Hs; subst t3.
        -- destruct (IH last_rx t2) as [calls Hc].
           exists (ext ++ calls)%list. rewrite Hc, Hext, <- app_assoc.
           reflexivity.
        -- exists ext. exact Hext.
      * destruct (bytes_eqb data test_frame).
        -- tsimpl. exists ext. exact Hext.
        -- unfold tbind at 1. unfold log_text at 1. unfold on_service at 1.
           cbn [_log_text modify]. unfold tbind at 1.
           match goal with
           | |- context [sleep poll_interval ?x] =>
               destruct (sleep poll_interval x) as [[u|e] t3] eqn:Hs;
               apply sleep_run in Hs; subst t3
           end.
           ++ match goal with
              | |- context [poll_loop _ _ _ _ _ _ ?l ?x] =>
                  destruct (IH l x) as [calls Hc]
              end.
              exists (ext ++ calls)%list. rewrite Hc.
              cbn [port_io with_service]. rewrite Hext, <- app_assoc.
              reflexivity.
           ++ exists ext. exact Hext.
    + tsimpl. exists []. rewrite app_nil_r. reflexivity.
Qed.

(* ====================================================================== *)
(** ** Opening and closing the port *)
(* ====================================================================== *)

Lemma disconnect_run (port : nat -> port_reply) (t : Transport) :
  no_live_thread t ->
  disconnect port t = (Ok tt, disconnected port t).
Proof.
  intros Hth. unfold disconnected, disconnect_log, close_calls.
  destruct t as [svc br run th io c].
  destruct svc as [ser pt conn last lg sio].
  unfold no_live_thread in Hth. cbn [_egram_thread] in Hth.
  unfold disconnect, stop_egram_stream, thread_join, is_connected.
  unfold port_do, tbind, ttry, tgets, tmodify, tret, log_text, on_service,
    _log_text, modify.
  destruct th as [[alive]|]; [cbn [is_alive] in Hth; subst alive|];
    destruct conn; destruct ser as [[op]|]; try destruct op;
    cbv beta iota zeta delta
      [fst snd service port_io uart_log clock_reads _port _ser _is_connected
       _last_sent_settings serial_io _baudrate _egram_running _egram_thread
       with_service with_port_io with_log with_clock_reads with_baudrate
       with_egram with_connection is_alive is_open andb];
    try (destruct (port (List.length io)) as [d|e]);
    cbv beta iota zeta delta
      [fst snd service port_io uart_log clock_reads _port _ser _is_connected
       _last_sent_settings serial_io _baudrate _egram_running _egram_thread
       with_service with_port_io with_log with_clock_reads with_baudrate
       with_egram with_connection is_alive is_open andb exn_str];
    cbn [app]; rewrite <- ?app_assoc, ?app_nil_r; reflexivity.
Qed.




(* ====================================================================== *)
(** ** Shared steps *)
(* ====================================================================== *)

(** What the validator accepts is within its bounds. *)
Lemma validate_ok_within (s : PacemakerSettings) :
  fst (validate_settings s) = true -> within_bounds s.
Proof.
  intros Hok. apply (proj1 (validate_errors_nil s)).
  assert (Hfst : fst (validate_settings s) =
                 Nat.eqb (List.length (snd (validate_settings s))) 0)
    by reflexivity.
  rewrite Hfst in Hok.
  destruct (snd (validate_settings s)); [reflexivity|discriminate Hok].
Qed.

(** The loopback test answers false when it refuses to start. *)
Lemma loopback_refused_false (port : nat -> port_reply) (clock : nat -> float)
    (fuel : nat) (test_frame : list byte) (timeout poll_interval : float)
    (t : Transport) :
  no_connection t = true \/ List.length test_frame <> 15%nat ->
  exists msg t',
    debug_roundtrip_test port clock fuel test_frame timeout poll_interval t
      = (Ok (Some (false, msg)), t') /\
    clock_reads t' = clock_reads t.
Proof.
  intros Hcase.
  unfold debug_roundtrip_test. unfold tbind at 1. unfold tgets at 1.
  destruct (no_connection t) eqn:Hoff.
  - tsimpl. eexists. eexists. split; reflexivity.
  - destruct Hcase as [H|Hlen]; [discriminate H|].
    apply Nat.eqb_neq in Hlen.
    change PACKET_LEN with 15%nat. rewrite Hlen. cbn [negb].
    tsimpl. eexists. eexists. split; reflexivity.
Qed.











(** Sending never touches the connection: the port object, the port name
    and the connected flag are after the call what they were before,
    also when it raises. *)
Lemma send_keeps_connection (device : nat -> io_outcome)
    (s : PacemakerSettings) (st : CommsService) :
  _ser (snd (send_parameters device s st)) = _ser st /\
  _port (snd (send_parameters device s st)) = _port st /\
  _is_connected (snd (send_parameters device s st)) = _is_connected st.
Proof.
  destruct (_encode_settings_to_frame s) as [frame|e] eqn:Henc.
  - destruct (is_connected st) eqn:Hc.
    + pose proof (connected_has_ser st Hc) as Hs.
      unfold send_parameters, _log_frame, _log_fields, bind, modify, lift,
        gets.
      rewrite Henc. cbv beta iota.
      set (st1 := with_log _ (with_log _ (with_last_sent (Some s) st))).
      assert (Hc1 : is_connected st1 = true) by exact Hc.
      assert (Hs1 : ser_is_none st1 = false) by exact Hs.
      rewrite Hc1, Hs1. cbn [negb orb].
      unfold try_except, bind.
      rewrite (write_bytes_connected device frame st1 Hc1).
      destruct (device (List.length (serial_io st1))) as [|m0].
      * cbn [negb]. unfold ret, gets.
        set (st2 := with_log _ (with_io _ st1)).
        assert (Hs2 : ser_is_none st2 = false) by exact Hs.
        rewrite Hs2. cbn [negb]. unfold driver_call.
        destruct (device (List.length (serial_io st2))) as [|m1];
          cbn [snd]; unfold _log_text, modify, raise; cbn [snd];
          repeat split; reflexivity.
      * cbn [negb]. unfold raise, _log_text, modify. cbn [snd].
        repeat split; reflexivity.
    + rewrite (send_disconnected device s st frame Henc Hc). cbn [snd].
      repeat split; reflexivity.
  - rewrite (send_encoder_raises device s st e Henc). cbn [snd].
    repeat split; reflexivity.
Qed.

(* ====================================================================== *)
(** ** Further properties of the codec *)
(* ====================================================================== *)





(** X3: every frame the encoder returns is a fixed point of the trip
    through the decoder: decoded with the mode of the record as fallback
    and encoded again, it comes back byte for byte, however far the
    record was clamped or rounded the first time. *)
Theorem reencode_encoded_frame (s : PacemakerSettings) (frame : list byte)
    (st : CommsService) :
  _encode_settings_to_frame s = Ok frame ->
  reencode (mode s) frame st = Ok frame.
Proof.
  intros Henc. apply encode_inv in Henc.
  destruct Henc as (aa & va & apw & vpw & _ & _ & _ & _ & Hvals).
  unfold wire_values in Hvals.
  unfold reencode.
  rewrite (decode_run _ _ _ _ _ _ _ _ _ _ _ _ _ _ _ _ _ _ Hvals). cbn [fst].
  match goal with
  | |- _encode_settings_to_frame (decoded ?m ?b1 ?b2 ?b3 ?b4 ?b5 ?b6 ?b7 ?b8
                                          ?b9 ?b10 ?b11 ?b12 ?b13 ?b14) = _ =>
      destruct (encode_decoded m b1 b2 b3 b4 b5 b6 b7 b8 b9 b10 b11 b12 b13 b14)
        as [frame' [Hf Hv']]
  end.
  { repeat (apply Forall_cons; [apply clamp_byte_range|]). apply Forall_nil. }
  rewrite Hf. f_equal. apply byte_values_inj. rewrite Hv', Hvals.
  pose proof (mode_code_cases s) as Hm.
  pose proof (activity_code_range s) as Ha.
  f_equal. f_equal; [|f_equal; f_equal; f_equal; f_equal; f_equal; f_equal;
                      f_equal; f_equal; f_equal; f_equal; f_equal; f_equal].
  - destruct Hm as [[_ Hr]|[_ H0]].
    + replace ((1 <=? mode_code s) && (mode_code s <=? 10)) with true
        by (symmetry; apply andb_true_intro; split; apply Z.leb_le; lia).
      reflexivity.
    + rewrite H0. cbn [Z.leb Z.compare andb]. fold (mode_code s). exact H0.
  - replace ((0 <=? activity_code s) && (activity_code s <=? 6)) with true
      by (symmetry; apply andb_true_intro; split; apply Z.leb_le; lia).
    reflexivity.
Qed.

Lemma reencode_encoded_frame_witness :
  exists frame,
    _encode_settings_to_frame all_thousand = Ok frame /\
    reencode "VVI" frame fresh_service = Ok frame.
Proof.
  destruct (encode_total_iff all_thousand) as [Hex _].
  destruct (Hex eq_refl) as [frame Hf].
  exists frame. split; [exact Hf|].
  exact (reencode_encoded_frame all_thousand frame fresh_service Hf).
Defined.

(* ====================================================================== *)
(** ** The validator and the encoder behind it *)
(* ====================================================================== *)

(** X4: [validate_settings] answers true with an empty list of errors
    exactly for the records within its sixteen bounds, and false with at
    least one error for every other record; a NaN or an infinity in one
    of the six float fields it checks is never accepted. *)
Theorem validate_settings_accepts (s : PacemakerSettings) :
  (within_bounds s <-> validate_settings s = (true, [])) /\
  (~ within_bounds s <->
   fst (validate_settings s) = false /\ snd (validate_settings s) <> []) /\
  (fst (validate_settings s) = true ->
   PyFloat.is_finite (atrial_amplitude s) = true /\
   PyFloat.is_finite (ventricular_amplitude s) = true /\
   PyFloat.is_finite (atrial_pulse_width s) = true /\
   PyFloat.is_finite (ventricular_pulse_width s) = true /\
   PyFloat.is_finite (atrial_sensitivity s) = true /\
   PyFloat.is_finite (ventricular_sensitivity s) = true).
Proof.
  pose proof (validate_errors_nil s) as Hnil.
  assert (Hfst : fst (validate_settings s) =
                 Nat.eqb (List.length (snd (validate_settings s))) 0)
    by reflexivity.
  assert (Hok : fst (validate_settings s) = true <-> within_bounds s).
  { rewrite Hfst, <- Hnil.
    destruct (snd (validate_settings s)); simpl; split; intros H;
      try reflexivity; discriminate H. }
  split; [|split].
  - split.
    + intros Hin. destruct (validate_settings s) as [ok errors] eqn:E.
      cbn [fst snd] in *.
      rewrite (proj2 Hnil Hin), (proj2 Hok Hin). reflexivity.
    + intros E. apply Hok. rewrite E. reflexivity.
  - split.
    + intros Hn. split.
      * destruct (fst (validate_settings s)) eqn:E; [|reflexivity].
        exfalso. apply Hn, Hok. reflexivity.
      * intros E. apply Hn, Hnil, E.
    + intros [Hf _] Hin. apply Hok in Hin. congruence.
  - intros Hv. apply Hok in Hv. unfold within_bounds in Hv.
    destruct Hv as (_ & _ & _ & Haa & Hva & Hapw & Hvpw & Has & Hvs & _).
    repeat split;
      eapply between_finite; try eassumption; reflexivity.
Qed.

Lemma validate_settings_accepts_witness :
  validate_settings scenario_in_range = (true, []) /\
  PyFloat.is_finite (atrial_amplitude scenario_in_range) = true.
Proof.
  destruct (validate_settings_accepts scenario_in_range)
    as (Hiff & _ & Hfin).
  assert (Hin : within_bounds scenario_in_range).
  { unfold within_bounds, float_between, scenario_in_range, settings_of_wire.
    cbn [mode activity_threshold lower_rate_limit upper_rate_limit
         atrial_refractory_period ventricular_refractory_period
         recovery_time reaction_time response_factor maximum_sensor_rate
         atrial_amplitude ventricular_amplitude atrial_pulse_width
         ventricular_pulse_width atrial_sensitivity ventricular_sensitivity
         pvarp fixed_av_delay min_dynamic_av_delay sensed_av_delay_offset
         default].
    do 3 (split; [lia|]).
    do 6 (split; [split; vm_compute; reflexivity|]).
    do 6 (split; [lia|]).
    vm_compute. tauto. }
  split.
  - apply Hiff, Hin.
  - apply Hfin. rewrite (proj1 Hiff Hin). reflexivity.
Defined.

(** X5: a record that passes [validate_settings], its two amplitudes
    being doubles, always encodes: the encoder raises nothing and returns
    15 bytes, in which the three rate fields travel unchanged while the
    two refractory periods, valid up to 500 ms, are cut to 255. *)
Theorem validated_record_encodes (s : PacemakerSettings) :
  valid_double (atrial_amplitude s) ->
  valid_double (ventricular_amplitude s) ->
  fst (validate_settings s) = true ->
  exists frame,
    _encode_settings_to_frame s = Ok frame /\
    List.length frame = 15%nat /\
    nth 2 (byte_values frame) 0 = lower_rate_limit s /\
    nth 3 (byte_values frame) 0 = upper_rate_limit s /\
    nth 14 (byte_values frame) 0 = maximum_sensor_rate s /\
    nth 8 (byte_values frame) 0 = Z.min 255 (atrial_refractory_period s) /\
    nth 9 (byte_values frame) 0 = Z.min 255 (ventricular_refractory_period s).
Proof.
  intros Hda Hdv Hok.
  assert (Hin : within_bounds s).
  { exact (validate_ok_within s Hok). }
  unfold within_bounds in Hin.
  destruct Hin as (Hlrl & Hurl & Hmsr & Haa & Hva & Hapw & Hvpw & _ & _
                   & Hvrp & Harp & _).
  assert (Henc : encodable s = true).
  { unfold encodable.
    rewrite (mul_ten_finite _ Hda Haa), (mul_ten_finite _ Hdv Hva).
    rewrite (between_finite (PyFloat.decimal 5 2) (PyFloat.decimal 19 1) _
               eq_refl eq_refl Hapw).
    rewrite (between_finite (PyFloat.decimal 5 2) (PyFloat.decimal 19 1) _
               eq_refl eq_refl Hvpw).
    reflexivity. }
  destruct (encodable_rounds s Henc)
    as (aa & va & apw & vpw & H1 & H2 & H3 & H4).
  destruct (encode_ok s aa va apw vpw H1 H2 H3 H4) as [frame [Hf Hvals]].
  exists frame. split; [exact Hf|].
  split; [rewrite <- byte_values_length, Hvals; reflexivity|].
  rewrite Hvals. unfold wire_values, clamp_byte. cbn [nth].
  repeat split; lia.
Qed.

Lemma validated_record_encodes_witness :
  exists frame,
    _encode_settings_to_frame scenario = Ok frame /\
    nth 2 (byte_values frame) 0 = 60 /\
    nth 9 (byte_values frame) 0 = 255.
Proof.
  destruct (validated_record_encodes scenario)
    as (frame & Hf & _ & H2 & _ & _ & _ & H9).
  - reflexivity.
  - reflexivity.
  - vm_compute. reflexivity.
  - exists frame. split; [exact Hf|]. split; [exact H2|exact H9].
Defined.

(** X6: [validate_settings] reads neither the mode nor the owner: the
    record of dataclass defaults passes for every owner and every mode
    string, and for a mode string outside the table it is then encoded
    with the mode code 0. *)
Theorem validator_ignores_mode (owner m : string) :
  validate_settings (default owner m) = (true, []) /\
  (~ In m (map fst MODE_MAP) ->
   exists frame,
     _encode_settings_to_frame (default owner m) = Ok frame /\
     nth 1 (byte_values frame) 0 = 0).
Proof.
  split; [vm_compute; reflexivity|].
  intros Hn.
  destruct (encode_ok (default owner m) 35 35 0 0) as [frame [Hf Hvals]];
    try (vm_compute; reflexivity).
  exists frame. split; [exact Hf|]. rewrite Hvals.
  unfold wire_values. cbn [nth].
  destruct (mode_code_cases (default owner m)) as [[Hin _]|[_ H0]].
  - contradiction.
  - exact H0.
Qed.

Lemma validator_ignores_mode_witness :
  validate_settings (default "operator" "XYZ") = (true, []) /\
  exists frame,
    _encode_settings_to_frame (default "operator" "XYZ") = Ok frame /\
    nth 1 (byte_values frame) 0 = 0.
Proof.
  destruct (validator_ignores_mode "operator" "XYZ") as [Hv Hc].
  split; [exact Hv|]. apply Hc.
  vm_compute. intros H.
  repeat (destruct H as [H|H]; [discriminate H|]). exact H.
Defined.

(* ====================================================================== *)
(** ** Reading from the port *)
(* ====================================================================== *)

(** X7: [read_bytes] never raises.  Without a connection it returns the
    empty bytes and neither calls the port nor logs; with one it calls
    the port's read once, returns what the port returned and logs it
    under RX unless it is empty, and when the port raises it returns the
    empty bytes and logs the error text. *)
Theorem read_bytes_contract (port : nat -> port_reply) (size : Z)
    (t : Transport) :
  exists data t',
    read_bytes port size t = (Ok data, t') /\
    (no_connection t = true -> data = [] /\ t' = t) /\
    (no_connection t = false ->
     port_io t' = (port_io t ++ [PortRead size])%list /\
     match port (List.length (port_io t)) with
     | Returns d =>
         data = d /\
         uart_log (service t') =
           (uart_log (service t) ++
            match d with
            | [] => []
            | _ :: _ => [LogFrame "RX" d]
            end)%list
     | Fails msg =>
         data = [] /\
         uart_log (service t') =
           (uart_log (service t) ++
            [LogText ("[READ] Error reading from "
                      ++ port_str (_port (service t)) ++ ": " ++ msg)])%list
     end).
Proof.
  destruct (no_connection t) eqn:Hoff.
  - rewrite (read_bytes_off port size t Hoff).
    eexists. eexists. split; [reflexivity|].
    split; [intros _; split; reflexivity|intros H; discriminate H].
  - rewrite (read_bytes_run port size t Hoff).
    destruct (port (List.length (port_io t))) as [[|b data]|msg];
      eexists; eexists; (split; [reflexivity|]);
      (split; [intros H; discriminate H|]); intros _;
      cbn [port_io service uart_log with_service with_port_io with_log];
      rewrite ?app_nil_r; repeat split; reflexivity.
Qed.

Lemma read_bytes_contract_witness :
  exists t',
    read_bytes (fun _ => Returns scenario_bytes) 15
      (mkTransport connected_service 115200 false None [] 0)
      = (Ok scenario_bytes, t') /\
    uart_log (service t') = [LogFrame "RX" scenario_bytes].
Proof.
  destruct (read_bytes_contract (fun _ => Returns scenario_bytes) 15
              (mkTransport connected_service 115200 false None [] 0))
    as (data & t' & Hrun & _ & Hon).
  destruct (Hon eq_refl) as (_ & Hd & Hlog).
  exists t'. subst data. split; [exact Hrun|exact Hlog].
Defined.



(** X9: what Read and Verify reports when the device answers with the
    very frame the local record encodes to, read with the local mode as
    fallback: never the mode; an integer field exactly when it lies
    outside 0..255, where the frame carries its clamped value; the
    activity threshold exactly when it is not one of the seven of the
    table, where the frame carries the code of Med. *)
Theorem verify_after_echo (s s' : PacemakerSettings) (frame : list byte)
    (st : CommsService) :
  _encode_settings_to_frame s = Ok frame ->
  fst (_decode_frame_to_settings (mode s) frame st) = Ok s' ->
  ~ In "mode" (differing_names s s') /\
  (In "lower_rate_limit" (differing_names s s') <->
   ~ 0 <= lower_rate_limit s <= 255) /\
  (In "upper_rate_limit" (differing_names s s') <->
   ~ 0 <= upper_rate_limit s <= 255) /\
  (In "atrial_refractory_period" (differing_names s s') <->
   ~ 0 <= atrial_refractory_period s <= 255) /\
  (In "ventricular_refractory_period" (differing_names s s') <->
   ~ 0 <= ventricular_refractory_period s <= 255) /\
  (In "recovery_time" (differing_names s s') <->
   ~ 0 <= recovery_time s <= 255) /\
  (In "reaction_time" (differing_names s s') <->
   ~ 0 <= reaction_time s <= 255) /\
  (In "response_factor" (differing_names s s') <->
   ~ 0 <= response_factor s <= 255) /\
  (In "maximum_sensor_rate" (differing_names s s') <->
   ~ 0 <= maximum_sensor_rate s <= 255) /\
  (In "activity_threshold" (differing_names s s') <->
   ~ In (activity_threshold s) (map fst ACTIVITY_THRESH_MAP)).
Proof.
  intros Henc Hdec. apply encode_inv in Henc.
  destruct Henc as (aa & va & apw & vpw & _ & _ & _ & _ & Hvals).
  unfold wire_values in Hvals.
  rewrite (decode_run _ _ _ _ _ _ _ _ _ _ _ _ _ _ _ _ _ _ Hvals) in Hdec.
  cbn [fst] in Hdec. inversion Hdec as [Hs']. clear Hdec.
  subst s'.
  set (s' := decoded _ _ _ _ _ _ _ _ _ _ _ _ _ _ _).
  assert (Hint : forall name x,
             In name FIELD_ORDER ->
             getattr s name = Some (VInt x) ->
             getattr s' name = Some (VInt (clamp_byte x)) ->
             (In name (differing_names s s') <-> ~ 0 <= x <= 255)).
  { intros name x Hin Ha Hb.
    rewrite (differs_iff s s' name _ _ Hin Ha Hb). apply int_ne_clamp. }
  assert (Hmode : ~ In "mode" (differing_names s s')).
  { rewrite (differs_iff s s' "mode" (VStr (mode s)) (VStr (mode s')));
      [|vm_compute; tauto|reflexivity|reflexivity].
    unfold s', decoded, settings_of_wire. cbn [mode py_ne].
    rewrite mode_roundtrip, String.eqb_refl. discriminate. }
  assert (Hact : In "activity_threshold" (differing_names s s') <->
                 ~ In (activity_threshold s) (map fst ACTIVITY_THRESH_MAP)).
  { rewrite (differs_iff s s' "activity_threshold"
               (VStr (activity_threshold s)) (VStr (activity_threshold s')));
      [|vm_compute; tauto|reflexivity|reflexivity].
    unfold s', decoded, settings_of_wire.
    cbn [activity_threshold py_ne]. rewrite negb_true_iff. split.
    - intros Hne Hin. fold (activity_code s) in Hne.
      rewrite (activity_roundtrip s Hin) in Hne.
      rewrite String.eqb_refl in Hne. discriminate Hne.
    - intros Hn. fold (activity_code s).
      destruct (activity_code_cases s) as [[Hin _]|[_ H3]]; [contradiction|].
      rewrite H3. apply String.eqb_neq. intros Heq. apply Hn.
      rewrite Heq. vm_compute. tauto. }
  split; [exact Hmode|].
  split; [apply Hint; [vm_compute; tauto|reflexivity|reflexivity]|].
  split; [apply Hint; [vm_compute; tauto|reflexivity|reflexivity]|].
  split; [apply Hint; [vm_compute; tauto|reflexivity|reflexivity]|].
  split; [apply Hint; [vm_compute; tauto|reflexivity|reflexivity]|].
  split; [apply Hint; [vm_compute; tauto|reflexivity|reflexivity]|].
  split; [apply Hint; [vm_compute; tauto|reflexivity|reflexivity]|].
  split; [apply Hint; [vm_compute; tauto|reflexivity|reflexivity]|].
  split; [apply Hint; [vm_compute; tauto|reflexivity|reflexivity]|].
  exact Hact.
Qed.

Lemma verify_after_echo_witness :
  exists s',
    fst (_decode_frame_to_settings "VVI" scenario_bytes fresh_service)
      = Ok s' /\
    In "ventricular_refractory_period" (differing_names scenario s') /\
    ~ In "lower_rate_limit" (differing_names scenario s').
Proof.
  eexists. split; [vm_compute; reflexivity|].
  match goal with
  | |- In _ (differing_names _ ?d) /\ _ =>
      destruct (verify_after_echo scenario d scenario_bytes fresh_service)
        as (_ & Hlrl & _ & _ & Hvrp & _)
  end.
  - reflexivity.
  - vm_compute. reflexivity.
  - split.
    + apply (proj2 Hvrp). vm_compute. intros [_ H]. apply H. reflexivity.
    + intros H. apply (proj1 Hlrl) in H. apply H.
      vm_compute. split; intros E; discriminate E.
Defined.

(** X10: reading back what was sent.  When the port answers the read
    with the frame the local record encodes to, and that record has its
    wire subset in range with pulse widths of whole milliseconds,
    [read_parameters] returns a record on which the comparison of
    Read and Verify finds no differing field. *)
Theorem read_back_verifies (port : nat -> port_reply) (s : PacemakerSettings)
    (frame : list byte) (t : Transport) :
  wire_in_range pulse_width_whole_ms s ->
  _encode_settings_to_frame s = Ok frame ->
  no_connection t = false ->
  port (List.length (port_io t)) = Returns frame ->
  exists s' t',
    read_parameters port (mode s) t = (Ok (Some s'), t') /\
    differing_fields s s' = [].
Proof.
  intros Hrange Henc Hon Hport.
  apply encode_inv in Henc.
  destruct Henc as (aa & va & apw & vpw & Raa & Rva & Rapw & Rvpw & Hvals).
  assert (Hlen : List.length frame = 15%nat)
    by (rewrite <- byte_values_length, Hvals; reflexivity).
  destruct (read_parameters_full port (mode s) t frame Hon Hport Hlen)
    as (b0 & b1 & b2 & b3 & b4 & b5 & b6 & b7 & b8 & b9 & b10 & b11 & b12
        & b13 & b14 & t' & Hvals' & Hrun & _).
  rewrite Hvals in Hvals'. unfold wire_values in Hvals'.
  inversion Hvals'; subst.
  eexists. exists t'. split; [exact Hrun|].
  apply echo_in_range_no_difference; assumption.
Qed.

Lemma read_back_verifies_witness :
  exists frame s' t',
    _encode_settings_to_frame scenario_whole_ms = Ok frame /\
    read_parameters (fun _ => Returns frame) "VVI" connected_transport
      = (Ok (Some s'), t') /\
    differing_fields scenario_whole_ms s' = [].
Proof.
  destruct (encode_total_iff scenario_whole_ms) as [Hex _].
  destruct (Hex eq_refl) as [frame Hf].
  destruct (read_back_verifies (fun _ => Returns frame) scenario_whole_ms
              frame connected_transport) as (s' & t' & Hrun & Hd).
  - unfold scenario_whole_ms. wire_fields_in_range 35 35.
    split; [exists 1|exists 2]; (split; [lia|reflexivity]).
  - exact Hf.
  - reflexivity.
  - reflexivity.
  - exists frame, s', t'. split; [exact Hf|]. split; [exact Hrun|exact Hd].
Defined.

(* ====================================================================== *)
(** ** The connection test *)
(* ====================================================================== *)

(** X11: [test_connection] never raises and always logs the message it
    returns.  Without a connection it answers false and calls the port
    not at all; with one it resets the input buffer, resets the output
    buffer and asks for the pending byte count, in that order, answers
    true when all three calls return, and answers false with the text of
    the first call that raises, making no call after it. *)
Theorem test_connection_contract (port : nat -> port_reply) (t : Transport) :
  exists ok msg t',
    test_connection port t = (Ok (ok, msg), t') /\
    uart_log (service t') =
      (uart_log (service t) ++ [LogText ("[TEST] " ++ msg)])%list /\
    (no_connection t = true ->
     ok = false /\
     msg = "No open serial connection. Please connect first." /\
     port_io t' = port_io t) /\
    (no_connection t = false ->
     let n := List.length (port_io t) in
     let p := port_str (_port (service t)) in
     match port n with
     | Fails e =>
         ok = false /\ msg = "Serial I/O error on " ++ p ++ ": " ++ e /\
         port_io t' = (port_io t ++ [PortResetInput])%list
     | Returns _ =>
         match port (S n) with
         | Fails e =>
             ok = false /\ msg = "Serial I/O error on " ++ p ++ ": " ++ e /\
             port_io t' =
               (port_io t ++ [PortResetInput; PortResetOutput])%list
         | Returns _ =>
             port_io t' =
               (port_io t ++
                [PortResetInput; PortResetOutput; PortInWaiting])%list /\
             match port (S (S n)) with
             | Fails e =>
                 ok = false /\
                 msg = "Serial I/O error on " ++ p ++ ": " ++ e
             | Returns _ =>
                 ok = true /\
                 msg = "Port " ++ p ++ " is open and responsive."
             end
         end
     end).
Proof.
  unfold test_connection. unfold tbind at 1. unfold tgets at 1.
  destruct (no_connection t) eqn:Hoff.
  - tsimpl. eexists. eexists. eexists. split; [reflexivity|].
    split; [reflexivity|]. split; [|intros H; discriminate H].
    intros _. repeat split; reflexivity.
  - unfold ttry, tbind. rewrite port_do_run.
    destruct (port (List.length (port_io t))) as [d0|e0] eqn:H0.
    + rewrite port_do_run. cbn [port_io with_port_io].
      rewrite length_snoc.
      destruct (port (S (List.length (port_io t)))) as [d1|e1] eqn:H1.
      * rewrite port_do_run. cbn [port_io with_port_io].
        rewrite !length_snoc.
        destruct (port (S (S (List.length (port_io t))))) as [d2|e2] eqn:H2;
          tsimpl; eexists; eexists; eexists;
          (split; [reflexivity|]); (split; [reflexivity|]);
          (split; [intros H; discriminate H|]); intros _; cbv zeta;
          rewrite ?H0, ?H1, ?H2, <- ?app_assoc; repeat split; reflexivity.
      * tsimpl. eexists. eexists. eexists.
        split; [reflexivity|]. split; [reflexivity|].
        split; [intros H; discriminate H|]. intros _. cbv zeta.
        rewrite ?H0, ?H1, <- ?app_assoc. repeat split; reflexivity.
    + tsimpl. eexists. eexists. eexists.
      split; [reflexivity|]. split; [reflexivity|].
      split; [intros H; discriminate H|]. intros _. cbv zeta.
      rewrite ?H0. repeat split; reflexivity.
Qed.

Lemma test_connection_contract_witness :
  fst (test_connection (fun _ => Returns []) connected_transport) =
    Ok (true, "Port COM3 is open and responsive.") /\
  fst (test_connection (fun _ => Fails "device gone") connected_transport) =
    Ok (false, "Serial I/O error on COM3: device gone") /\
  fst (test_connection (fun _ => Returns []) fresh_transport) =
    Ok (false, "No open serial connection. Please connect first.").
Proof.
  split; [|split].
  - destruct (test_connection_contract (fun _ => Returns [])
                connected_transport) as (ok & msg & t' & Hrun & _ & _ & Hon).
    destruct (Hon eq_refl) as (_ & Hok & Hmsg).
    rewrite Hrun. subst ok msg. reflexivity.
  - destruct (test_connection_contract (fun _ => Fails "device gone")
                connected_transport) as (ok & msg & t' & Hrun & _ & _ & Hon).
    destruct (Hon eq_refl) as (Hok & Hmsg & _).
    rewrite Hrun. subst ok msg. reflexivity.
  - destruct (test_connection_contract (fun _ => Returns [])
                fresh_transport) as (ok & msg & t' & Hrun & _ & Hoff & _).
    destruct (Hoff eq_refl) as (Hok & Hmsg & _).
    rewrite Hrun. subst ok msg. reflexivity.
Defined.

(* ====================================================================== *)
(** ** The loopback test *)
(* ====================================================================== *)

(** X12: the loopback test refuses to start without a connection, and
    with one for a test frame that is not 15 bytes long: it answers
    false with the message of the case, logs it under RT, and neither
    calls the port nor reads the clock, however many polling rounds it
    is allowed. *)
Theorem loopback_refuses (port : nat -> port_reply) (clock : nat -> float)
    (fuel : nat) (test_frame : list byte) (timeout poll_interval : float)
    (t : Transport) :
  no_connection t = true \/ List.length test_frame <> 15%nat ->
  exists msg t',
    debug_roundtrip_test port clock fuel test_frame timeout poll_interval t
      = (Ok (Some (false, msg)), t') /\
    msg = (if no_connection t then "Not connected to any serial port."
           else "Test frame must be 15 bytes, got "
                ++ str_int (Z.of_nat (List.length test_frame)) ++ ".") /\
    port_io t' = port_io t /\
    clock_reads t' = clock_reads t /\
    uart_log (service t') =
      (uart_log (service t) ++ [LogText ("[RT] " ++ msg)])%list.
Proof.
  intros Hcase.
  unfold debug_roundtrip_test. unfold tbind at 1. unfold tgets at 1.
  destruct (no_connection t) eqn:Hoff.
  - tsimpl. eexists. eexists. split; [reflexivity|].
    repeat split; reflexivity.
  - destruct Hcase as [H|Hlen]; [discriminate H|].
    apply Nat.eqb_neq in Hlen.
    change PACKET_LEN with 15%nat. rewrite Hlen. cbn [negb].
    tsimpl. eexists. eexists. split; [reflexivity|].
    repeat split; reflexivity.
Qed.

Lemma loopback_refuses_witness :
  fst (debug_roundtrip_test (fun _ => Returns []) (fun _ => PyFloat.of_int 0)
         5 scenario_bytes (PyFloat.of_int 1) (PyFloat.decimal 2 2)
         fresh_transport)
    = Ok (Some (false, "Not connected to any serial port.")) /\
  fst (debug_roundtrip_test (fun _ => Returns []) (fun _ => PyFloat.of_int 0)
         5 [x09; x04] (PyFloat.of_int 1) (PyFloat.decimal 2 2)
         connected_transport)
    = Ok (Some (false, "Test frame must be 15 bytes, got 2.")).
Proof.
  split.
  - destruct (loopback_refuses (fun _ => Returns [])
                (fun _ => PyFloat.of_int 0) 5 scenario_bytes
                (PyFloat.of_int 1) (PyFloat.decimal 2 2) fresh_transport)
      as (msg & t' & Hrun & Hmsg & _).
    + left. reflexivity.
    + rewrite Hrun. subst msg. reflexivity.
  - destruct (loopback_refuses (fun _ => Returns [])
                (fun _ => PyFloat.of_int 0) 5 [x09; x04]
                (PyFloat.of_int 1) (PyFloat.decimal 2 2) connected_transport)
      as (msg & t' & Hrun & Hmsg & _).
    + right. simpl. intros H. discriminate H.
    + rewrite Hrun. subst msg. reflexivity.
Defined.

(** X13: the loopback test answers true only for an echo.  Whatever the
    port and the clock do, an answer of true means that there was a
    connection, that the test frame has 15 bytes, that it was written to
    the port after both buffers were reset, and that the last call was a
    read of 15 bytes which the port answered with the test frame itself;
    the message then shows that frame. *)
Theorem loopback_true_means_echo (port : nat -> port_reply)
    (clock : nat -> float) (fuel : nat) (test_frame : list byte)
    (timeout poll_interval : float) (t t' : Transport) (msg : string) :
  debug_roundtrip_test port clock fuel test_frame timeout poll_interval t
    = (Ok (Some (true, msg)), t') ->
  no_connection t = false /\
  List.length test_frame = 15%nat /\
  msg = "Roundtrip OK. Got back: " ++ hex_bytes test_frame /\
  exists reads,
    port_io t' =
      (port_io t ++
       [PortResetInput; PortResetOutput; PortWrite test_frame; PortFlush]
       ++ reads ++ [PortRead 15])%list /\
    port (List.length (port_io t) + 4 + List.length reads)%nat
      = Returns test_frame.
Proof.
  intros Hrun.
  destruct (no_connection t) eqn:Hoff.
  { destruct (loopback_refused_false port clock fuel test_frame timeout
                poll_interval t (or_introl Hoff)) as (m & t2 & H & _).
    rewrite H in Hrun. inversion Hrun. }
  destruct (Nat.eq_dec (List.length test_frame) 15) as [Hlen|Hlen].
  2:{ destruct (loopback_refused_false port clock fuel test_frame timeout
                  poll_interval t (or_intror Hlen)) as (m & t2 & H & _).
      rewrite H in Hrun. inversion Hrun. }
  split; [reflexivity|]. split; [exact Hlen|].
  rewrite (loopback_prelude port clock fuel test_frame timeout poll_interval
             t Hoff Hlen) in Hrun.
  cbv zeta in Hrun.
  destruct (port (List.length (port_io t))); [|inversion Hrun].
  destruct (port (S (List.length (port_io t)))); [|inversion Hrun].
  destruct (port (S (S (List.length (port_io t))))); [|inversion Hrun].
  destruct (port (S (S (S (List.length (port_io t)))))); [|inversion Hrun].
  apply poll_loop_true in Hrun. destruct Hrun as [Hmsg [pre [Hio Hp]]].
  split; [exact Hmsg|]. exists pre.
  unfold loopback_started in Hio, Hp.
  cbn [port_io with_clock_reads with_port_io] in Hio, Hp.
  rewrite <- ?app_assoc in Hio. split; [exact Hio|].
  rewrite !length_app in Hp. cbn [List.length] in Hp. exact Hp.
Qed.

Lemma loopback_true_means_echo_witness :
  exists t',
    debug_roundtrip_test (fun _ => Returns scenario_bytes)
      (fun n => PyFloat.of_int (Z.of_nat n)) 3 scenario_bytes
      (PyFloat.of_int 5) (PyFloat.decimal 2 2) connected_transport
      = (Ok (Some (true, "Roundtrip OK. Got back: "
                         ++ hex_bytes scenario_bytes)), t') /\
    List.length (port_io t') = 5%nat.
Proof.
  eexists. split; [vm_compute; reflexivity|].
  match goal with
  | |- List.length (port_io ?t') = _ =>
      destruct (loopback_true_means_echo (fun _ => Returns scenario_bytes)
                  (fun n => PyFloat.of_int (Z.of_nat n)) 3 scenario_bytes
                  (PyFloat.of_int 5) (PyFloat.decimal 2 2)
                  connected_transport t'
                  ("Roundtrip OK. Got back: " ++ hex_bytes scenario_bytes))
        as (_ & _ & _ & reads & Hio & _)
  end.
  - vm_compute. reflexivity.
  - vm_compute. reflexivity.
Defined.

(** X14: when one of the four port calls that prepare the loopback test
    raises, the test answers false with a message that names the step
    (resetting the buffers for the first two calls, writing the frame for
    the last two), the port and the error; it makes no further port call,
    never reads the clock, and has logged the frame under RT-TX only in
    the second case. *)
Theorem loopback_setup_failure (port : nat -> port_reply)
    (clock : nat -> float) (fuel : nat) (test_frame : list byte)
    (timeout poll_interval : float) (t : Transport) (k : nat) (e : string) :
  no_connection t = false ->
  List.length test_frame = 15%nat ->
  (k < 4)%nat ->
  port_answers port (List.length (port_io t)) k ->
  port (List.length (port_io t) + k)%nat = Fails e ->
  exists msg t',
    debug_roundtrip_test port clock fuel test_frame timeout poll_interval t
      = (Ok (Some (false, msg)), t') /\
    msg = (if (k <? 2)%nat then "Error resetting buffers on "
           else "Error writing test frame to ")
          ++ port_str (_port (service t)) ++ ": " ++ e /\
    port_io t' =
      (port_io t ++ firstn (S k) (loopback_calls test_frame))%list /\
    clock_reads t' = clock_reads t /\
    uart_log (service t') =
      (uart_log (service t)
       ++ (if (k <? 2)%nat then [] else [LogFrame "RT-TX" test_frame])
       ++ [LogText ("[RT] " ++ msg)])%list.
Proof.
  intros Hon Hlen Hk Hans Hfail.
  rewrite (loopback_prelude port clock fuel test_frame timeout poll_interval
             t Hon Hlen).
  cbv zeta.
  assert (H0 : (0 < k)%nat ->
               exists d, port (List.length (port_io t)) = Returns d).
  { intros H. destruct (Hans 0%nat H) as [d Hd].
    rewrite Nat.add_0_r in Hd. exists d. exact Hd. }
  assert (H1 : (1 < k)%nat ->
               exists d, port (S (List.length (port_io t))) = Returns d).
  { intros H. destruct (Hans 1%nat H) as [d Hd].
    rewrite Nat.add_1_r in Hd. exists d. exact Hd. }
  assert (H2 : (2 < k)%nat ->
               exists d, port (S (S (List.length (port_io t)))) = Returns d).
  { intros H. destruct (Hans 2%nat H) as [d Hd].
    replace (List.length (port_io t) + 2)%nat
      with (S (S (List.length (port_io t)))) in Hd by lia.
    exists d. exact Hd. }
  destruct k as [|[|[|[|k]]]]; [| | | |lia].
  - rewrite Nat.add_0_r in Hfail. rewrite Hfail.
    eexists. eexists. split; [reflexivity|].
    split; [reflexivity|]. split; [reflexivity|]. split; reflexivity.
  - destruct (H0 ltac:(lia)) as [d0 E0]. rewrite E0.
    rewrite Nat.add_1_r in Hfail. rewrite Hfail.
    eexists. eexists. split; [reflexivity|].
    split; [reflexivity|]. split; [reflexivity|]. split; reflexivity.
  - destruct (H0 ltac:(lia)) as [d0 E0]. rewrite E0.
    destruct (H1 ltac:(lia)) as [d1 E1]. rewrite E1.
    replace (List.length (port_io t) + 2)%nat
      with (S (S (List.length (port_io t)))) in Hfail by lia.
    rewrite Hfail.
    eexists. eexists. split; [reflexivity|].
    split; [reflexivity|]. split; [reflexivity|]. split; reflexivity.
  - destruct (H0 ltac:(lia)) as [d0 E0]. rewrite E0.
    destruct (H1 ltac:(lia)) as [d1 E1]. rewrite E1.
    destruct (H2 ltac:(lia)) as [d2 E2]. rewrite E2.
    replace (List.length (port_io t) + 3)%nat
      with (S (S (S (List.length (port_io t))))) in Hfail by lia.
    rewrite Hfail.
    eexists. eexists. split; [reflexivity|].
    split; [reflexivity|]. split; [reflexivity|]. split; reflexivity.
Qed.

Lemma loopback_setup_failure_witness :
  fst (debug_roundtrip_test
         (fun n => if Nat.eqb n 2 then Fails "write timeout" else Returns [])
         (fun _ => PyFloat.of_int 0) 5 scenario_bytes (PyFloat.of_int 1)
         (PyFloat.decimal 2 2) connected_transport)
    = Ok (Some (false, "Error writing test frame to COM3: write timeout")).
Proof.
  destruct (loopback_setup_failure
              (fun n => if Nat.eqb n 2 then Fails "write timeout"
                        else Returns [])
              (fun _ => PyFloat.of_int 0) 5 scenario_bytes (PyFloat.of_int 1)
              (PyFloat.decimal 2 2) connected_transport 2 "write timeout")
    as (msg & t' & Hrun & Hmsg & _).
  - reflexivity.
  - reflexivity.
  - lia.
  - intros j Hj. exists []. simpl.
    destruct j as [|[|j]]; [reflexivity|reflexivity|lia].
  - reflexivity.
  - rewrite Hrun. subst msg. reflexivity.
Defined.

(** X15: once the frame is sent, the loopback test reads only while the
    clock is before the end time.  When the first reading of the clock
    in the loop is not before it - which is so for every clock when the
    timeout is NaN - the test answers that no response was received
    without a single read: the port has seen the four preparing calls
    only, and the clock was read twice. *)
Theorem loopback_expires_without_reading (port : nat -> port_reply)
    (clock : nat -> float) (fuel : nat) (test_frame : list byte)
    (timeout poll_interval : float) (t : Transport) :
  no_connection t = false ->
  List.length test_frame = 15%nat ->
  port_answers port (List.length (port_io t)) 4 ->
  (0 < fuel)%nat ->
  timeout = S754_nan \/
  SFltb (clock (S (clock_reads t)))
    (SFadd PyFloat.prec PyFloat.emax (clock (clock_reads t)) timeout)
    = false ->
  exists t',
    debug_roundtrip_test port clock fuel test_frame timeout poll_interval t
      = (Ok (Some (false, "No response received during loopback test.")),
         t') /\
    port_io t' = (port_io t ++ loopback_calls test_frame)%list /\
    clock_reads t' = S (S (clock_reads t)) /\
    uart_log (service t') =
      (uart_log (service t)
       ++ [LogFrame "RT-TX" test_frame;
           LogText "[RT] No response received during loopback test."])%list.
Proof.
  intros Hon Hlen Hans Hfuel Hexp.
  assert (Hlate : SFltb (clock (S (clock_reads t)))
                    (SFadd PyFloat.prec PyFloat.emax (clock (clock_reads t))
                       timeout) = false).
  { destruct Hexp as [Hnan|H]; [|exact H].
    subst timeout. apply nan_timeout_expired. }
  rewrite (loopback_prelude_ok port clock fuel test_frame timeout
             poll_interval t Hon Hlen Hans).
  destruct fuel as [|fuel]; [lia|].
  cbn [poll_loop]. unfold tbind at 1. unfold time_time at 1.
  change (clock_reads (loopback_started test_frame t))
    with (S (clock_reads t)).
  rewrite Hlate. tsimpl.
  eexists. split; [reflexivity|].
  unfold loopback_started.
  cbn [port_io clock_reads service uart_log with_service with_port_io
       with_clock_reads with_log].
  split; [reflexivity|]. split; [reflexivity|].
  rewrite <- app_assoc. reflexivity.
Qed.

Lemma loopback_expires_without_reading_witness :
  fst (debug_roundtrip_test (fun _ => Returns scenario_bytes)
         (fun n => PyFloat.of_int (Z.of_nat n)) 3 scenario_bytes
         S754_nan (PyFloat.decimal 2 2) connected_transport)
    = Ok (Some (false, "No response received during loopback test.")).
Proof.
  destruct (loopback_expires_without_reading (fun _ => Returns scenario_bytes)
              (fun n => PyFloat.of_int (Z.of_nat n)) 3 scenario_bytes
              S754_nan (PyFloat.decimal 2 2) connected_transport)
    as (t' & Hrun & _).
  - reflexivity.
  - reflexivity.
  - intros j Hj. exists scenario_bytes. reflexivity.
  - lia.
  - left. reflexivity.
  - rewrite Hrun. reflexivity.
Defined.



(** X17: roundtrip_from_settings encodes before it looks at the
    connection.  A record the encoder raises on makes it raise the same
    exception, connected or not, with nothing logged and no port call;
    a record that encodes is tested with its 15-byte frame, so with a
    connection the test is never refused for the frame's length: at
    least the first buffer reset reaches the port. *)
Theorem roundtrip_from_settings_contract (port : nat -> port_reply)
    (clock : nat -> float) (fuel : nat) (s : PacemakerSettings)
    (timeout poll_interval : float) (t : Transport) :
  match _encode_settings_to_frame s with
  | Raise e =>
      roundtrip_from_settings port clock fuel s timeout poll_interval t
        = (Raise e, t)
  | Ok frame =>
      roundtrip_from_settings port clock fuel s timeout poll_interval t
        = debug_roundtrip_test port clock fuel frame timeout poll_interval t /\
      (no_connection t = false ->
       exists calls,
         port_io (snd (roundtrip_from_settings port clock fuel s timeout
                         poll_interval t))
           = (port_io t ++ PortResetInput :: calls)%list)
  end.
Proof.
  destruct (_encode_settings_to_frame s) as [frame|e] eqn:Henc.
  - assert (Hrun : roundtrip_from_settings port clock fuel s timeout
                     poll_interval t
                   = debug_roundtrip_test port clock fuel frame timeout
                       poll_interval t).
    { unfold roundtrip_from_settings, tbind, on_service, lift.
      rewrite Henc. destruct t as [svc br run th io c]. reflexivity. }
    split; [exact Hrun|]. intros Hon. rewrite Hrun.
    assert (Hlen : List.length frame = 15%nat).
    { destruct (encode_inv s frame Henc)
        as (aa & va & apw & vpw & _ & _ & _ & _ & Hvals).
      rewrite <- byte_values_length, Hvals. reflexivity. }
    rewrite (loopback_prelude port clock fuel frame timeout poll_interval
               t Hon Hlen).
    cbv zeta.
    destruct (port (List.length (port_io t)));
      [|eexists; reflexivity].
    destruct (port (S (List.length (port_io t))));
      [|eexists; reflexivity].
    destruct (port (S (S (List.length (port_io t)))));
      [|eexists; reflexivity].
    destruct (port (S (S (S (List.length (port_io t))))));
      [|eexists; reflexivity].
    destruct (poll_loop_extends port clock frame
                (SFadd PyFloat.prec PyFloat.emax (clock (clock_reads t))
                   timeout) poll_interval fuel None
                (loopback_started frame t)) as [calls Hc].
    rewrite Hc. unfold loopback_started.
    cbn [port_io with_clock_reads with_port_io].
    rewrite <- app_assoc. eexists. reflexivity.
  - unfold roundtrip_from_settings, tbind, on_service, lift.
    rewrite Henc. destruct t as [svc br run th io c]. reflexivity.
Qed.

Lemma roundtrip_from_settings_contract_witness :
  exists calls,
    port_io (snd (roundtrip_from_settings (fun _ => Returns scenario_bytes)
                    (fun n => PyFloat.of_int (Z.of_nat n)) 3 scenario
                    (PyFloat.of_int 5) (PyFloat.decimal 2 2)
                    connected_transport))
      = PortResetInput :: calls.
Proof.
  pose proof (roundtrip_from_settings_contract
                (fun _ => Returns scenario_bytes)
                (fun n => PyFloat.of_int (Z.of_nat n)) 3 scenario
                (PyFloat.of_int 5) (PyFloat.decimal 2 2)
                connected_transport) as H.
  assert (E : _encode_settings_to_frame scenario = Ok scenario_bytes)
    by (vm_compute; reflexivity).
  rewrite E in H. destruct H as [_ H].
  exact (H eq_refl).
Defined.

(* ====================================================================== *)
(** ** Opening and closing the port *)
(* ====================================================================== *)

(** X18: disconnect never raises, whatever the port answers.  On an
    object without a live reader thread it closes the port object when
    one is held and open - one close call, none otherwise - and leaves
    the object with no port object, no port name, the connected flag
    down and no reader thread; an exception of the close is only logged.
    The last sent settings, the baud rate and the calls made on the
    write path stay as they were. *)
Theorem disconnect_contract (port : nat -> port_reply) (t : Transport) :
  no_live_thread t ->
  exists t',
    disconnect port t = (Ok tt, t') /\
    _ser (service t') = None /\
    _port (service t') = None /\
    _is_connected (service t') = false /\
    _egram_running t' = false /\
    _egram_thread t' = None /\
    port_io t' = (port_io t ++ close_calls t)%list /\
    uart_log (service t') =
      (uart_log (service t)
       ++ disconnect_log (port (List.length (port_io t))) t)%list /\
    _last_sent_settings (service t') = _last_sent_settings (service t) /\
    serial_io (service t') = serial_io (service t) /\
    _baudrate t' = _baudrate t /\
    clock_reads t' = clock_reads t.
Proof.
  intros Hth. exists (disconnected port t).
  split; [exact (disconnect_run port t Hth)|].
  unfold disconnected.
  cbn [service _ser _port _is_connected _egram_running _egram_thread port_io
       uart_log _last_sent_settings serial_io _baudrate clock_reads].
  do 10 (split; [reflexivity|]). reflexivity.
Qed.

Lemma disconnect_contract_witness :
  exists t',
    disconnect (fun _ => Fails "device removed") connected_transport
      = (Ok tt, t') /\
    port_io t' = [PortClose] /\
    uart_log (service t') =
      [LogText "[EGRAM] Egram stream stopped.";
       LogText "Error while closing serial port COM3: device removed"].
Proof.
  destruct (disconnect_contract (fun _ => Fails "device removed")
              connected_transport I)
    as (t' & Hrun & _ & _ & _ & _ & _ & Hio & Hlog & _).
  exists t'. split; [exact Hrun|]. split; [exact Hio|exact Hlog].
Defined.









(* ====================================================================== *)
(** ** Behind the validator *)
(* ====================================================================== *)







(* ====================================================================== *)
(** ** A session *)
(* ====================================================================== *)



(** X27: writing, sending and reading never change the connection.
    Whatever the driver and the port answer - also when a write fails
    and send_parameters raises - the object is connected after the call
    exactly if it was before, with the same port name: a failed
    transfer does not disconnect, and the next call tries the port
    again. *)
Theorem transfers_keep_connection (device : nat -> io_outcome)
    (port : nat -> port_reply) (s : PacemakerSettings)
    (payload : list byte) (size : Z) (st : CommsService) (t : Transport) :
  (is_connected (snd (write_bytes device payload st)) = is_connected st /\
   _port (snd (write_bytes device payload st)) = _port st) /\
  (is_connected (snd (send_parameters device s st)) = is_connected st /\
   _port (snd (send_parameters device s st)) = _port st) /\
  (no_connection (snd (read_bytes port size t)) = no_connection t /\
   _port (service (snd (read_bytes port size t))) = _port (service t)).
Proof.
  split; [|split].
  - destruct (is_connected st) eqn:Hc.
    + rewrite (write_bytes_connected device payload st Hc).
      destruct (device (List.length (serial_io st))); cbn [snd];
        split; try exact Hc; reflexivity.
    + rewrite (write_bytes_disconnected device payload st Hc). cbn [snd].
      split; [exact Hc|reflexivity].
  - destruct (send_keeps_connection device s st) as (Hser & Hport & Hflag).
    split; [|exact Hport].
    unfold is_connected. rewrite Hser, Hflag. reflexivity.
  - split; [exact (proj1 (read_bytes_keeps port size t))|].
    destruct (no_connection t) eqn:Hoff.
    + rewrite (read_bytes_off port size t Hoff). reflexivity.
    + rewrite (read_bytes_run port size t Hoff).
      destruct (port (List.length (port_io t))) as [[|b d]|msg];
        reflexivity.
Qed.
